(** * kas-dev backend: report store over PostgreSQL / SQLite

    A shallow embedding of the persistence path of the backend (the
    sources are the parts of [src/backend/API/auth.js] that follow the
    login route):
    - [backend/API/inputdata.js]   the [/inputdata] and [/reports/:yearMonth] handlers,
    - [backend/utils/db-adapter.js] [addReport], [getReportsByMonth],
      [getMonthPartition], [ensureSqliteTable], [ensurePostgresTable],
      [getSqliteDatabase],
    - [backend/server.js]           [initDatabase], [initPostgres], [initSqlite].

    The JavaScript run time the code relies on (truthiness, [parseInt],
    [String], [padStart], the [Date] arithmetic of ECMA-262) and the two SQL
    engines are modelled first; the repository's functions follow, one Rocq
    definition per source function, keeping the source's names. *)

From Stdlib Require Import ZArith Lia Ascii String List Bool Permutation Sorted.
From stdpp Require Import gmap strings list fin_maps.

Local Open Scope string_scope.
Local Open Scope Z_scope.

(* ===================================================================== *)
(** ** JavaScript values and the conversions the code uses               *)
(* ===================================================================== *)

Module JS.

(** A JavaScript number as far as this code sees one: an integer or NaN
    (fractions, infinities and the sign of zero play no part). *)
Inductive JsNumber : Type :=
| NaN
| Int (z : Z).

(** The primitive values a JSON request body can put into a field, plus
    [JUndefined] for an absent field.  Objects and arrays are not
    covered. *)
Inductive JsVal : Type :=
| JUndefined
| JNull
| JBool (b : bool)
| JNum (n : JsNumber)
| JStr (s : string).

(** ToBoolean: what [!x] and [Boolean(x)] look at. *)
Definition truthy (v : JsVal) : bool :=
  match v with
  | JUndefined | JNull => false
  | JBool b => b
  | JNum NaN => false
  | JNum (Int z) => negb (z =? 0)
  | JStr s => negb (String.eqb s "")
  end.

Definition Boolean (v : JsVal) : bool := truthy v.

(** [x === undefined] *)
Definition isUndefined (v : JsVal) : bool :=
  match v with JUndefined => true | _ => false end.

(** *** Number to string (decimal, magnitudes below 10^21) *)

Definition digitChar (d : Z) : ascii := ascii_of_nat (48 + Z.to_nat d).

Fixpoint digitsOf (fuel : nat) (n : Z) (acc : string) : string :=
  match fuel with
  | O => acc
  | S fuel' =>
      let acc' := String (digitChar (n mod 10)) acc in
      if n / 10 =? 0 then acc' else digitsOf fuel' (n / 10) acc'
  end.

(** A positive [n] has at most [log2 n + 1] decimal digits. *)
Definition decimal (n : Z) : string :=
  digitsOf (S (Z.to_nat (Z.log2 n))) n "".

Definition NumberToString (x : JsNumber) : string :=
  match x with
  | NaN => "NaN"
  | Int z => if z <? 0 then "-" ++ decimal (- z) else decimal z
  end.

(** ToString on the values above. *)
Definition ToString (v : JsVal) : string :=
  match v with
  | JUndefined => "undefined"
  | JNull => "null"
  | JBool true => "true"
  | JBool false => "false"
  | JNum n => NumberToString n
  | JStr s => s
  end.

(** [x + 1] on numbers. *)
Definition plus1 (x : JsNumber) : JsNumber :=
  match x with NaN => NaN | Int z => Int (z + 1) end.

(** *** String.prototype.padStart *)

Fixpoint repeatTo (fuel : nat) (fill : string) (n : nat) : string :=
  match fuel with
  | O => ""
  | S fuel' =>
      if (n <=? String.length fill)%nat then substring 0 n fill
      else fill ++ repeatTo fuel' fill (n - String.length fill)
  end.

Definition padStart (s : string) (maxLength : nat) (fill : string) : string :=
  if (maxLength <=? String.length s)%nat then s
  else if String.eqb fill "" then s
  else repeatTo (S maxLength) fill (maxLength - String.length s) ++ s.

(** *** parseInt (radix argument absent)

    White space is the ASCII part of StrWhiteSpaceChar; the value is the
    exact integer, where JavaScript would round past 2^53. *)

Definition isWhite (c : ascii) : bool :=
  let n := nat_of_ascii c in
  ((9 <=? n) && (n <=? 13) || (n =? 32))%nat.

Fixpoint trimStart (s : string) : string :=
  match s with
  | String c s' => if isWhite c then trimStart s' else s
  | EmptyString => s
  end.

(** Value of a character as a digit of the given radix, if it is one. *)
Definition digitValue (radix : Z) (c : ascii) : option Z :=
  let n := Z.of_nat (nat_of_ascii c) in
  let v := if (48 <=? n) && (n <=? 57) then n - 48
           else if (97 <=? n) && (n <=? 122) then n - 87
           else if (65 <=? n) && (n <=? 90) then n - 55
           else 99 in
  if v <? radix then Some v else None.

(** Longest prefix of digits, read in the radix; [None] when it is empty. *)
Fixpoint readDigits (radix : Z) (s : string) (acc : option Z) : option Z :=
  match s with
  | String c s' =>
      match digitValue radix c with
      | Some v =>
          readDigits radix s' (Some (radix * (match acc with Some a => a | None => 0 end) + v))
      | None => acc
      end
  | EmptyString => acc
  end.

Definition parseIntString (input : string) : JsNumber :=
  let s := trimStart input in
  let '(sign, s) :=
    match s with
    | String "-" s' => (-1, s')
    | String "+" s' => (1, s')
    | _ => (1, s)
    end in
  let '(radix, s) :=
    match s with
    | String "0" (String "x" s') => (16, s')
    | String "0" (String "X" s') => (16, s')
    | _ => (10, s)
    end in
  match readDigits radix s None with
  | None => NaN
  | Some v => Int (sign * v)
  end.

Definition parseInt (v : JsVal) : JsNumber := parseIntString (ToString v).

End JS.

(* ===================================================================== *)
(** ** The Date arithmetic of ECMA-262 (21.4.1)                            *)
(* ===================================================================== *)

Module DateModel.
Import JS.

Definition msPerDay : Z := 86400000.

Definition Day (t : Z) : Z := t / msPerDay.

Definition DaysInYear (y : Z) : Z :=
  if negb (y mod 4 =? 0) then 365
  else if negb (y mod 100 =? 0) then 366
  else if negb (y mod 400 =? 0) then 365
  else 366.

Definition DayFromYear (y : Z) : Z :=
  365 * (y - 1970) + (y - 1969) / 4 - (y - 1901) / 100 + (y - 1601) / 400.

Definition TimeFromYear (y : Z) : Z := msPerDay * DayFromYear y.

(** ECMA-262 specifies YearFromTime(t) as the largest [y] with
    [TimeFromYear y <= t].  It is computed here from the mean year length
    (146097 days per 400 years) and one correction step; [YearFromTime_spec]
    below shows that this is the year the standard asks for. *)
Definition YearFromTime (t : Z) : Z :=
  let d := Day t in
  let y0 := 1970 + (400 * d) / 146097 in
  if d <? DayFromYear y0 then y0 - 1
  else if DayFromYear (y0 + 1) <=? d then y0 + 1
  else y0.

Definition InLeapYear (t : Z) : Z :=
  if DaysInYear (YearFromTime t) =? 366 then 1 else 0.

Definition DayWithinYear (t : Z) : Z := Day t - DayFromYear (YearFromTime t).

Definition MonthFromTime (t : Z) : Z :=
  let d := DayWithinYear t in
  let leap := InLeapYear t in
  if d <? 31 then 0
  else if d <? 59 + leap then 1
  else if d <? 90 + leap then 2
  else if d <? 120 + leap then 3
  else if d <? 151 + leap then 4
  else if d <? 181 + leap then 5
  else if d <? 212 + leap then 6
  else if d <? 243 + leap then 7
  else if d <? 273 + leap then 8
  else if d <? 304 + leap then 9
  else if d <? 334 + leap then 10
  else 11.

(** The largest time value a Date can hold (TimeClip). *)
Definition maxTime : Z := 8640000000000000.

Definition validTime (t : Z) : bool := Z.abs t <=? maxTime.

(** [new Date(value)] for a numeric [value]: the time value, or NaN
    (an invalid Date) when it is out of range. *)
Definition newDate (value : Z) : JsNumber :=
  if validTime value then Int value else NaN.

Section LocalTime.
  (** The local time zone adjustment, in milliseconds, at UTC time [t]:
      implementation-defined, so a parameter here. *)
Variable LocalTZA : Z -> Z.

Definition LocalTime (t : Z) : Z := t + LocalTZA t.

Definition getFullYear (date : JsNumber) : JsNumber :=
    match date with
    | NaN => NaN
    | Int t => Int (YearFromTime (LocalTime t))
    end.

Definition getMonth (date : JsNumber) : JsNumber :=
    match date with
    | NaN => NaN
    | Int t => Int (MonthFromTime (LocalTime t))
    end.
End LocalTime.

End DateModel.

(* ===================================================================== *)
(** ** db-adapter.js: the partition key                                   *)
(* ===================================================================== *)

Module Partition.
Import JS DateModel.

Section WithZone.
Variable LocalTZA : Z -> Z.

  (** [getMonthPartition(timestamp)] *)
Definition getMonthPartition (timestamp : Z) : string :=
    let date := newDate timestamp in
    let year := getFullYear LocalTZA date in
    let month := padStart (NumberToString (plus1 (getMonth LocalTZA date))) 2 "0" in
    NumberToString year ++ "-" ++ month.
End WithZone.

(** Two zones to run the definitions in: UTC and UTC+8. *)
Definition utc : Z -> Z := fun _ => 0.
Definition utc8 : Z -> Z := fun _ => 28800000.

End Partition.

(* ===================================================================== *)
(** ** The two SQL engines, as far as the adapter talks to them           *)
(* ===================================================================== *)

Module Engine.
Import JS.

(** What the [isadd] column holds: PostgreSQL has a boolean type, SQLite
    stores the integer the adapter hands over. *)
Inductive Cell : Type :=
| CInt (z : Z)
| CBool (b : bool).

Definition cellFalsy (c : Cell) : bool :=
  match c with
  | CInt z => z =? 0
  | CBool b => negb b
  end.

(** One row of [reports].  The columns keep the names of the CREATE TABLE
    statements ([row_id] is column [id]); [created_at] is filled by the
    engine's own clock and read nowhere, so it is left out.  [note] and
    [submitter] keep the value that was bound to the statement: for a
    string this is the text the column holds; a number is turned into
    text by the engine, in its own decimal form, and stands here for
    that text. *)
Record Row : Type := mkRow {
  row_id : Z;
  class : Z;
  isadd : Cell;
  changescore : Z;
  submittime : Z;
  note : JsVal;
  submitter : JsVal;
  month_partition : string
}.

Inductive ObjKind : Type := KTable | KIndex.

Definition ObjKind_eqb (a b : ObjKind) : bool :=
  match a, b with
  | KTable, KTable | KIndex, KIndex => true
  | _, _ => false
  end.

(** One database: its catalog ([sqlite_master] / [information_schema]),
    the rows of [reports] in insertion order and the last identifier the
    AUTOINCREMENT / SERIAL column handed out. *)
Record Db : Type := mkDb {
  catalog : list (ObjKind * string);
  rows : list Row;
  lastId : Z
}.

Definition emptyDb : Db := mkDb [] [] 0.

Definition hasObj (k : ObjKind) (name : string) (db : Db) : bool :=
  existsb (fun o => ObjKind_eqb (fst o) k && String.eqb (snd o) name) (catalog db).

Definition nameTaken (name : string) (db : Db) : bool :=
  existsb (fun o => String.eqb (snd o) name) (catalog db).

(** [CREATE TABLE [IF NOT EXISTS] name]: tables and indexes share one
    name space; creating over an existing name is an error unless the
    statement says IF NOT EXISTS and the name is a table. *)
Definition createTable (ifNotExists : bool) (name : string) (db : Db) : option Db :=
  if ifNotExists && hasObj KTable name db then Some db
  else if nameTaken name db then None
  else Some (mkDb (catalog db ++ [(KTable, name)]) [] 0).

(** [CREATE INDEX name ON table(...)] *)
Definition createIndex (name table : string) (db : Db) : option Db :=
  if nameTaken name db then None
  else if negb (hasObj KTable table db) then None
  else Some (mkDb (catalog db ++ [(KIndex, name)]) (rows db) (lastId db)).

(** The seven parameters of the INSERT statement, as the adapter builds
    them. *)
Record InsertValues : Type := mkValues {
  v_class : JsNumber;
  v_isadd : JsVal;
  v_changescore : JsNumber;
  v_submittime : Z;
  v_note : JsVal;
  v_submitter : JsVal;
  v_month_partition : string
}.

Definition int32 (z : Z) : bool := (-2147483648 <=? z) && (z <=? 2147483647).

(** Does the string hold the character U+0000? *)
Fixpoint hasNul (s : string) : bool :=
  match s with
  | EmptyString => false
  | String c rest => Ascii.eqb c "000" || hasNul rest
  end.

(** What PostgreSQL takes as the value of a TEXT NOT NULL column: anything
    but null (the driver sends [undefined] as null), and no string that
    holds U+0000, which the server refuses in text. *)
Definition pgText (v : JsVal) : bool :=
  match v with
  | JUndefined | JNull => false
  | JStr s => negb (hasNul s)
  | _ => true
  end.

(** PostgreSQL: INTEGER columns take a 32-bit integer, BOOLEAN a boolean,
    TEXT NOT NULL a text as above. *)
Definition pgCheck (v : InsertValues) : option (Z * Cell * Z) :=
  match v_class v, v_isadd v, v_changescore v with
  | Int c, JBool b, Int s =>
      if int32 c && int32 s && pgText (v_note v) && pgText (v_submitter v)
      then Some (c, CBool b, s) else None
  | _, _, _ => None
  end.

(** SQLite through better-sqlite3: only numbers, strings and null can be
    bound; NaN and null violate NOT NULL. *)
Definition sqliteBindable (v : JsVal) : bool :=
  match v with
  | JStr _ => true
  | JNum (Int _) => true
  | _ => false
  end.

Definition sqliteCheck (v : InsertValues) : option (Z * Cell * Z) :=
  match v_class v, v_isadd v, v_changescore v with
  | Int c, JNum (Int b), Int s =>
      if sqliteBindable (v_note v) && sqliteBindable (v_submitter v)
      then Some (c, CInt b, s) else None
  | _, _, _ => None
  end.

(** [INSERT INTO reports ... ] returning the new identifier. *)
Definition insertReport (check : InsertValues -> option (Z * Cell * Z))
    (v : InsertValues) (db : Db) : option (Z * Db) :=
  if negb (hasObj KTable "reports" db) then None
  else
    match check v with
    | None => None
    | Some (c, b, s) =>
        let newId := lastId db + 1 in
        let r := mkRow newId c b s (v_submittime v) (v_note v) (v_submitter v)
                       (v_month_partition v) in
        Some (newId, mkDb (catalog db) (rows db ++ [r]) newId)
    end.

(** ORDER BY submittime DESC: insertion into a list kept in descending
    order.  SQL leaves the order of rows with equal keys open; both
    engines give such rows in the order they were inserted, and so does
    this sort: a row goes in front of the rows that are not more recent
    than it is, and the rows are put in from the last inserted to the
    first. *)
Fixpoint insertDesc (r : Row) (l : list Row) : list Row :=
  match l with
  | [] => [r]
  | x :: l' =>
      if submittime x <=? submittime r then r :: l
      else x :: insertDesc r l'
  end.

Definition orderBySubmittimeDesc (l : list Row) : list Row :=
  fold_right insertDesc [] l.

Definition inPartition (ym : string) (r : Row) : bool :=
  String.eqb (month_partition r) ym.

(** [SELECT * FROM reports WHERE month_partition = ym ORDER BY submittime DESC] *)
Definition selectByMonth (ym : string) (db : Db) : option (list Row) :=
  if negb (hasObj KTable "reports" db) then None
  else Some (orderBySubmittimeDesc (List.filter (inPartition ym) (rows db))).

End Engine.

(* ===================================================================== *)
(** ** The process and its surroundings                                   *)
(* ===================================================================== *)

Module Proc.
Import JS Engine.

(** [dbContext.type] *)
Inductive DbType : Type := Postgres | Sqlite.

(** [dbContext.instance]: the pg pool, or the [{ sqlite: true }] marker. *)
Inductive Instance : Type := PgPool | SqliteMarker.

(** The [dbContext] object of server.js. *)
Record DbContext : Type := mkCtx {
  type : option DbType;
  instance : option Instance;
  isReady : bool
}.

Definition initialContext : DbContext := mkCtx None None false.

Inductive Stmt : Type :=
| SqlCheckTable | SqlCreateTable | SqlCheckIndex | SqlCreateIndex
| SqlInsert | SqlSelect.

(** What the process does to the outside, most recent event first.
    Of the console output only [console.error] is recorded; the
    [console.log] and [console.warn] lines are left out. *)
Inductive Event : Type :=
| EvPgConnect
| EvPgQuery (s : Stmt)
| EvPgRelease
| EvFsExists
| EvFsMkdir
| EvSqliteOpen (file : string)
| EvSqliteStmt (file : string) (s : Stmt)
| EvSqliteClose (file : string)
| EvConsoleError.

(** The state the code runs against.
    - [dbContext] is the one object of server.js; [globalSet] says whether
      [global.dbContext] has been pointed at it (both names alias it);
    - [dirExists], [files]: the [DB] directory and its database files, by
      file name;
    - [pgOnline], [pgDb]: whether the PostgreSQL server accepts
      connections, and its database;
    - [clock]: what [Date.now()] returns;
    - [trace]: the events so far. *)
Record World : Type := mkWorld {
  dbContext : DbContext;
  globalSet : bool;
  dirExists : bool;
  files : gmap string Db;
  pgOnline : bool;
  pgDb : Db;
  clock : Z;
  trace : list Event
}.

Inductive Error : Type :=
| ErrTypeError      (* property access on undefined, unbindable value *)
| ErrPgConnect      (* pool.connect() rejected *)
| ErrPgQuery        (* client.query() rejected *)
| ErrSqlite.        (* better-sqlite3 threw *)

(** How a piece of code ends: with a value, with an exception, or by
    [process.exit]. *)
Inductive Res (A : Type) : Type :=
| Ok (a : A)
| Throw (e : Error)
| Exit (code : Z).
Arguments Ok {A} a.
Arguments Throw {A} e.
Arguments Exit {A} code.

Definition M (A : Type) : Type := World -> Res A * World.

Definition ret {A} (a : A) : M A := fun w => (Ok a, w).

Definition bind {A B} (m : M A) (k : A -> M B) : M B :=
  fun w =>
    match m w with
    | (Ok a, w') => k a w'
    | (Throw e, w') => (Throw e, w')
    | (Exit c, w') => (Exit c, w')
    end.

Definition throw {A} (e : Error) : M A := fun w => (Throw e, w).

(** [process.exit(code)]: nothing runs afterwards, no handler, no
    [finally]. *)
Definition processExit {A} (code : Z) : M A := fun w => (Exit code, w).

(** [try { body } catch (e) { handler e }] *)
Definition tryCatch {A} (body : M A) (handler : Error -> M A) : M A :=
  fun w =>
    match body w with
    | (Throw e, w') => handler e w'
    | other => other
    end.

(** [try { body } finally { fin }] *)
Definition tryFinally {A} (body : M A) (fin : M unit) : M A :=
  fun w =>
    match body w with
    | (Exit c, w') => (Exit c, w')
    | (r, w') =>
        match fin w' with
        | (Ok _, w'') => (r, w'')
        | (Throw e, w'') => (Throw e, w'')
        | (Exit c, w'') => (Exit c, w'')
        end
    end.

Declare Scope proc_scope.
Delimit Scope proc_scope with proc.
Notation "x <- m ;; k" := (bind m (fun x => k))
  (at level 100, m at next level, k at level 200, right associativity) : proc_scope.
Notation "m ;;; k" := (bind m (fun _ => k))
  (at level 100, k at level 200, right associativity) : proc_scope.

Definition emit (e : Event) : M unit :=
  fun w => (Ok tt, mkWorld (dbContext w) (globalSet w) (dirExists w) (files w)
                         (pgOnline w) (pgDb w) (clock w) (e :: trace w)).

Definition setFiles (fs : gmap string Db) (w : World) : World :=
  mkWorld (dbContext w) (globalSet w) (dirExists w) fs
          (pgOnline w) (pgDb w) (clock w) (trace w).

Definition setPgDb (db : Db) (w : World) : World :=
  mkWorld (dbContext w) (globalSet w) (dirExists w) (files w)
          (pgOnline w) db (clock w) (trace w).

Definition setDir (b : bool) (w : World) : World :=
  mkWorld (dbContext w) (globalSet w) b (files w)
          (pgOnline w) (pgDb w) (clock w) (trace w).

Definition setContext (c : DbContext) (w : World) : World :=
  mkWorld c (globalSet w) (dirExists w) (files w)
          (pgOnline w) (pgDb w) (clock w) (trace w).

Definition setGlobal (w : World) : World :=
  mkWorld (dbContext w) true (dirExists w) (files w)
          (pgOnline w) (pgDb w) (clock w) (trace w).

Local Open Scope proc_scope.

(** [Date.now()] *)
Definition Date_now : M Z := fun w => (Ok (clock w), w).

(** [console.error(...)] *)
Definition consoleError : M unit := emit EvConsoleError.

(** *** node-postgres *)

(** [pool.connect()] *)
Definition poolConnect : M unit :=
  emit EvPgConnect ;;;
  fun w => if pgOnline w then (Ok tt, w) else (Throw ErrPgConnect, w).

(** [client.release()] *)
Definition clientRelease : M unit := emit EvPgRelease.

(** [client.query(...)] for a statement that reads the database. *)
Definition clientQueryRead {A} (s : Stmt) (q : Db -> option A) : M A :=
  emit (EvPgQuery s) ;;;
  fun w => match q (pgDb w) with
           | Some a => (Ok a, w)
           | None => (Throw ErrPgQuery, w)
           end.

(** [client.query(...)] for a statement that changes the database. *)
Definition clientQueryWrite {A} (s : Stmt) (q : Db -> option (A * Db)) : M A :=
  emit (EvPgQuery s) ;;;
  fun w => match q (pgDb w) with
           | Some (a, db') => (Ok a, setPgDb db' w)
           | None => (Throw ErrPgQuery, w)
           end.

(** *** fs *)

(** [fs.existsSync(dbDir)] *)
Definition fsExistsSync : M bool :=
  emit EvFsExists ;;; fun w => (Ok (dirExists w), w).

(** [fs.mkdirSync(dbDir, { recursive: true })] *)
Definition fsMkdirSync : M unit :=
  emit EvFsMkdir ;;; fun w => (Ok tt, setDir true w).

(** *** better-sqlite3 *)

(** A file name that stays inside the [DB] directory. *)
Fixpoint pathSafe (name : string) : bool :=
  match name with
  | EmptyString => true
  | String c rest =>
      negb (Ascii.eqb c "/") && pathSafe rest
  end.

(** [new Database(path.join(dbDir, fileName))]: opens the file, creating
    an empty database when there is none.  It throws when the directory
    is missing.  A name with a path separator would leave [DB]; such
    files are not part of this model and opening one is reported as an
    error.  Every other name is opened: the limit a file system puts on
    the length of a name is not modelled.  So the model follows the code
    on names of the kind [getMonthPartition] makes, some digits and
    hyphens between [reports_] and [.db].  The handle is the file
    name. *)
Definition newDatabase (fileName : string) : M string :=
  emit (EvSqliteOpen fileName) ;;;
  fun w =>
    if negb (dirExists w) || negb (pathSafe fileName) then (Throw ErrSqlite, w)
    else
      match files w !! fileName with
      | Some _ => (Ok fileName, w)
      | None => (Ok fileName, setFiles (<[fileName := emptyDb]> (files w)) w)
      end.

(** [db.prepare(...).get()] / [.all(...)]: a statement that reads. *)
Definition sqliteRead {A} (db : string) (s : Stmt) (q : Db -> option A) : M A :=
  emit (EvSqliteStmt db s) ;;;
  fun w => match files w !! db with
           | Some d => match q d with
                       | Some a => (Ok a, w)
                       | None => (Throw ErrSqlite, w)
                       end
           | None => (Throw ErrSqlite, w)
           end.

(** [db.exec(...)] / [db.prepare(...).run(...)]: a statement that writes. *)
Definition sqliteWrite {A} (db : string) (s : Stmt) (q : Db -> option (A * Db)) : M A :=
  emit (EvSqliteStmt db s) ;;;
  fun w => match files w !! db with
           | Some d => match q d with
                       | Some (a, d') => (Ok a, setFiles (<[db := d']> (files w)) w)
                       | None => (Throw ErrSqlite, w)
                       end
           | None => (Throw ErrSqlite, w)
           end.

(** [db.close()] *)
Definition sqliteClose (db : string) : M unit := emit (EvSqliteClose db).

End Proc.

(* ===================================================================== *)
(** ** backend/utils/db-adapter.js                                        *)
(* ===================================================================== *)

Module Adapter.
Import JS Engine Proc Partition.
Local Open Scope proc_scope.

(** [getDbType()]: reads [global.dbContext.type]; a TypeError while
    [global.dbContext] is still unset. *)
Definition getDbType : M (option DbType) :=
  fun w => if globalSet w then (Ok (type (dbContext w)), w)
           else (Throw ErrTypeError, w).

Definition isPostgres (t : option DbType) : bool :=
  match t with Some Postgres => true | _ => false end.

(** [ensureSqliteTable(db)] *)
Definition ensureSqliteTable (db : string) : M unit :=
  sqliteWrite db SqlCreateTable
    (fun d => option_map (fun d' => (tt, d')) (createTable true "reports" d)) ;;;
  indexExists <- sqliteRead db SqlCheckIndex
    (fun d => Some (hasObj KIndex "idx_month_partition" d)) ;;
  if negb indexExists then
    sqliteWrite db SqlCreateIndex
      (fun d => option_map (fun d' => (tt, d'))
                  (createIndex "idx_month_partition" "reports" d))
  else ret tt.

Definition dbFileName (monthPartition : string) : string :=
  "reports_" ++ monthPartition ++ ".db".

(** [getSqliteDatabase(monthPartition)] *)
Definition getSqliteDatabase (monthPartition : string) : M string :=
  dirThere <- fsExistsSync ;;
  (if negb dirThere then fsMkdirSync else ret tt) ;;;
  db <- newDatabase (dbFileName monthPartition) ;;
  ensureSqliteTable db ;;;
  ret db.

(** [ensurePostgresTable(client)] *)
Definition ensurePostgresTable : M unit :=
  tryCatch
    (tableCheck <- clientQueryRead SqlCheckTable
       (fun d => Some (hasObj KTable "reports" d)) ;;
     if negb tableCheck then
       clientQueryWrite SqlCreateTable
         (fun d => option_map (fun d' => (tt, d')) (createTable false "reports" d)) ;;;
       clientQueryWrite SqlCreateIndex
         (fun d => option_map (fun d' => (tt, d'))
                     (createIndex "reports_month_partition_idx" "reports" d))
     else ret tt)
    (fun error => consoleError ;;; throw error).

(** The object [addReport] takes. *)
Record ReportData : Type := mkData {
  d_class : JsVal;
  d_isadd : JsVal;
  d_changescore : JsVal;
  d_note : JsVal;
  d_submitter : JsVal
}.

(** The object [addReport] returns ([success] is always [true]). *)
Record AddResult : Type := mkResult {
  res_id : Z;
  res_database : string;
  res_submittime : Z
}.

Section WithZone.
Variable LocalTZA : Z -> Z.

  (** [addReport(data)] *)
Definition addReport (data : ReportData) : M AddResult :=
    let classNum := d_class data in
    let isadd := d_isadd data in
    let changescore := d_changescore data in
    let note := d_note data in
    let submitter := d_submitter data in
    submittime <- Date_now ;;
    let monthPartition := getMonthPartition LocalTZA submittime in
    dbType <- getDbType ;;
    if isPostgres dbType then
      poolConnect ;;;
      tryFinally
        (ensurePostgresTable ;;;
         let values :=
           mkValues (parseInt classNum) (JBool (Boolean isadd)) (parseInt changescore)
                    submittime note submitter monthPartition in
         newId <- clientQueryWrite SqlInsert (insertReport pgCheck values) ;;
         ret (mkResult newId monthPartition submittime))
        clientRelease
    else
      db <- getSqliteDatabase monthPartition ;;
      tryFinally
        (let values :=
           mkValues (parseInt classNum)
                    (JNum (Int (if Boolean isadd then 1 else 0)))
                    (parseInt changescore)
                    submittime note submitter monthPartition in
         lastInsertRowid <- sqliteWrite db SqlInsert (insertReport sqliteCheck values) ;;
         ret (mkResult lastInsertRowid monthPartition submittime))
        (sqliteClose db).
End WithZone.

(** [getReportsByMonth(yearMonth)] *)
Definition getReportsByMonth (yearMonth : string) : M (list Row) :=
  dbType <- getDbType ;;
  if isPostgres dbType then
    poolConnect ;;;
    tryFinally
      (ensurePostgresTable ;;;
       clientQueryRead SqlSelect (selectByMonth yearMonth))
      clientRelease
  else
    db <- getSqliteDatabase yearMonth ;;
    tryFinally
      (tableExists <- sqliteRead db SqlCheckTable
         (fun d => Some (hasObj KTable "reports" d)) ;;
       if negb tableExists then ret []
       else sqliteRead db SqlSelect (selectByMonth yearMonth))
      (sqliteClose db).

End Adapter.

(* ===================================================================== *)
(** ** backend/API/inputdata.js                                           *)
(* ===================================================================== *)

Module Routes.
Import JS Engine Proc Adapter.
Local Open Scope proc_scope.

(** The fields the handler reads from [req.body], when the request has a
    parsed body; an absent field is [JUndefined].  A request without a
    parsed body has [req.body] undefined: the handlers take an
    [option Body]. *)
Record Body : Type := mkBody {
  b_class : JsVal;
  b_isadd : JsVal;
  b_changescore : JsVal;
  b_note : JsVal;
  b_submitter : JsVal
}.

Inductive Payload : Type :=
| MissingFields                                (* 缺少必需字段 *)
| ServerError                                  (* 服务器内部错误 *)
| Submitted (id : Z) (database : string) (submittime : Z)
| Reports (data : list Row).

(** [res.status(code).json(...)]; [success] is the JSON field. *)
Record Response : Type := mkResponse {
  status : Z;
  success : bool;
  payload : Payload
}.

(** The presence test of the handler:
    [!classNum || isadd === undefined || !changescore || !note || !submitter] *)
Definition missingField (body : Body) : bool :=
  negb (truthy (b_class body)) || isUndefined (b_isadd body)
  || negb (truthy (b_changescore body)) || negb (truthy (b_note body))
  || negb (truthy (b_submitter body)).

Section WithZone.
Variable LocalTZA : Z -> Z.

  (** [router.post('/inputdata', ...)].  The first statement of the [try]
      block destructures [req.body]: a TypeError when there is none. *)
Definition postInputdata (reqBody : option Body) : M Response :=
    tryCatch
      (match reqBody with
       | None => throw ErrTypeError
       | Some body =>
           if missingField body then
             ret (mkResponse 400 false MissingFields)
           else
             result <- addReport LocalTZA
               (mkData (b_class body) (b_isadd body) (b_changescore body)
                       (b_note body) (b_submitter body)) ;;
             ret (mkResponse 200 true
                    (Submitted (res_id result) (res_database result)
                               (res_submittime result)))
       end)
      (fun error => consoleError ;;; ret (mkResponse 500 false ServerError)).
End WithZone.

(** [router.get('/reports/:yearMonth', ...)] *)
Definition getReports (yearMonth : string) : M Response :=
  tryCatch
    (reports <- getReportsByMonth yearMonth ;;
     ret (mkResponse 200 true (Reports reports)))
    (fun error => consoleError ;;; ret (mkResponse 500 false ServerError)).

End Routes.

(* ===================================================================== *)
(** ** backend/server.js: choosing the engine at start-up                 *)
(* ===================================================================== *)

Module Server.
Import JS Engine Proc.
Local Open Scope proc_scope.

(** [process.env.DB_TYPE || 'auto'] *)
Definition DB_TYPE (env : option string) : string :=
  match env with
  | Some s => if String.eqb s "" then "auto" else s
  | None => "auto"
  end.

(** [initPostgres()]: builds the pool and tries one connection. *)
Definition initPostgres : M Instance :=
  tryCatch
    (poolConnect ;;;
     clientRelease ;;;
     ret PgPool)
    (fun err => throw err).

(** [initSqlite()] *)
Definition initSqlite : M Instance :=
  dirThere <- fsExistsSync ;;
  (if negb dirThere then fsMkdirSync else ret tt) ;;;
  ret SqliteMarker.

Definition setReady (t : DbType) (i : Instance) : M unit :=
  fun w => (Ok tt, setContext (mkCtx (Some t) (Some i) true) w).

(** [initDatabase()] *)
Definition initDatabase (env : option string) : M unit :=
  (if String.eqb (DB_TYPE env) "postgres" then
     tryCatch
       (pool <- initPostgres ;;
        setReady Postgres pool)
       (fun err => consoleError ;;; processExit 1)
   else if String.eqb (DB_TYPE env) "sqlite" then
     inst <- initSqlite ;;
     setReady Sqlite inst
   else
     tryCatch
       (pool <- initPostgres ;;
        setReady Postgres pool)
       (fun err =>
          inst <- initSqlite ;;
          setReady Sqlite inst)) ;;;
  fun w => (Ok tt, setGlobal w).

End Server.

(* ===================================================================== *)
(** ** The words of the specification, as definitions                     *)
(* ===================================================================== *)

Module Spec.
Import JS Engine Proc.

(** "four-digit year, hyphen, two-digit month (zero-padded)" *)
Definition twoDigits (n : Z) : string :=
  String (digitChar (n / 10 mod 10)) (String (digitChar (n mod 10)) "").

Definition fourDigits (n : Z) : string :=
  String (digitChar (n / 1000 mod 10))
    (String (digitChar (n / 100 mod 10)) (twoDigits n)).

Definition formatYearMonth (y m : Z) : string :=
  fourDigits y ++ "-" ++ twoDigits m.

Definition isDigit (c : ascii) : bool :=
  let n := nat_of_ascii c in ((48 <=? n) && (n <=? 57))%nat.

Fixpoint allDigits (s : string) : bool :=
  match s with
  | EmptyString => true
  | String c rest => isDigit c && allDigits rest
  end.

(** Does the string read [YYYY-MM]? *)
Definition isYearMonth (s : string) : bool :=
  match s with
  | String y1 (String y2 (String y3 (String y4 (String dash
      (String m1 (String m2 EmptyString)))))) =>
      isDigit y1 && isDigit y2 && isDigit y3 && isDigit y4
      && Ascii.eqb dash "-" && isDigit m1 && isDigit m2
  | _ => false
  end.

(** "ordered by submitTime descending": each row is at least as recent as
    every later one; "strictly": strictly more recent. *)
Definition descending (l : list Row) : Prop :=
  StronglySorted (fun a b => submittime a >= submittime b) l.

Definition strictlyDescending (l : list Row) : Prop :=
  StronglySorted (fun a b => submittime a > submittime b) l.

(** The world with its event log forgotten: what persists. *)
Definition untraced (w : World) : World :=
  mkWorld (dbContext w) (globalSet w) (dirExists w) (files w)
          (pgOnline w) (pgDb w) (clock w) [].

(** No two catalog entries share a name. *)
Definition noDuplicates (d : Db) : Prop := NoDup (map snd (catalog d)).

End Spec.

(* ===================================================================== *)
(** ** What the specification talks about, in terms of the model          *)
(* ===================================================================== *)

Module View.
Import JS Engine Proc Partition Adapter Routes.

(** The rows of [reports]; none while the table does not exist. *)
Definition reportsOf (d : Db) : list Row :=
  if hasObj KTable "reports" d then rows d else [].

(** The rows held by one SQLite file; none while the file does not exist. *)
Definition fileReports (f : string) (w : World) : list Row :=
  match files w !! f with
  | Some d => reportsOf d
  | None => []
  end.

Definition usesPostgres (w : World) : bool := isPostgres (type (dbContext w)).

(** The rows the active engine stores for a partition: the shared table
    filtered by the partition column, or the partition's own file. *)
Definition partitionRows (ym : string) (w : World) : list Row :=
  if usesPostgres w then List.filter (inPartition ym) (reportsOf (pgDb w))
  else List.filter (inPartition ym) (fileReports (dbFileName ym) w).

(** Everything the active engine stores that a Submit to partition [ym]
    can add to. *)
Definition targetRows (ym : string) (w : World) : list Row :=
  if usesPostgres w then reportsOf (pgDb w)
  else fileReports (dbFileName ym) w.

(** The bootstrap statements of [ensureSqliteTable] go through on this
    catalog: each of the two names is either what it should be, or free. *)
Definition sqliteSchemaReady (d : Db) : bool :=
  (hasObj KTable "reports" d || negb (nameTaken "reports" d))
  && (hasObj KIndex "idx_month_partition" d || negb (nameTaken "idx_month_partition" d)).

(** The same for [ensurePostgresTable], which looks at the table only. *)
Definition pgSchemaReady (d : Db) : bool :=
  hasObj KTable "reports" d
  || (negb (nameTaken "reports" d) && negb (nameTaken "reports_month_partition_idx" d)).

(** The active engine can serve partition [ym]: [global.dbContext] is
    set, and either PostgreSQL accepts connections and its schema can be
    bootstrapped, or the partition's file is absent or can be. *)
Definition engineReady (ym : string) (w : World) : bool :=
  globalSet w
  && if usesPostgres w then pgOnline w && pgSchemaReady (pgDb w)
     else pathSafe ym
          && match files w !! dbFileName ym with
             | Some d => sqliteSchemaReady d
             | None => true
             end.

(** The field values the active engine accepts in an INSERT. *)
Definition valuesAccepted (body : Body) (w : World) : bool :=
  match parseInt (b_class body), parseInt (b_changescore body) with
  | Int c, Int s =>
      if usesPostgres w
      then int32 c && int32 s && pgText (b_note body) && pgText (b_submitter body)
      else sqliteBindable (b_note body) && sqliteBindable (b_submitter body)
  | _, _ => false
  end.

(** Net effect of the statements of [ensureSqliteTable] on one database. *)
Definition sqliteBootstrap (d : Db) : option Db :=
  match createTable true "reports" d with
  | None => None
  | Some d1 =>
      if hasObj KIndex "idx_month_partition" d1 then Some d1
      else createIndex "idx_month_partition" "reports" d1
  end.

(** Net effect of the statements of [ensurePostgresTable]. *)
Definition pgBootstrap (d : Db) : option Db :=
  if hasObj KTable "reports" d then Some d
  else
    match createTable false "reports" d with
    | None => None
    | Some d1 => createIndex "reports_month_partition_idx" "reports" d1
    end.

(** A property of every database the process can reach: [Qpg] of the
    PostgreSQL database, [Qsq] of every SQLite file. *)
Definition storeAll (Qpg Qsq : Db -> Prop) (w : World) : Prop :=
  Qpg (pgDb w) /\ forall f d, files w !! f = Some d -> Qsq d.

(** The invariant of the data model: a row's partition is the partition
    of its own submit time. *)
Definition rowConsistent (LocalTZA : Z -> Z) (r : Row) : Prop :=
  month_partition r = getMonthPartition LocalTZA (submittime r).

Definition dbConsistent (LocalTZA : Z -> Z) (d : Db) : Prop :=
  Forall (rowConsistent LocalTZA) (reportsOf d).

Definition storeConsistent (LocalTZA : Z -> Z) : World -> Prop :=
  storeAll (dbConsistent LocalTZA) (dbConsistent LocalTZA).

(** Every catalog is one the bootstrap statements go through on. *)
Definition schemasReady : World -> Prop :=
  storeAll (fun d => pgSchemaReady d = true) (fun d => sqliteSchemaReady d = true).

(** [m] keeps [P], however it ends. *)
Definition preserves {A} (P : World -> Prop) (m : M A) : Prop :=
  forall w r w', m w = (r, w') -> P w -> P w'.

Definition setTrace (t : list Event) (w : World) : World :=
  mkWorld (dbContext w) (globalSet w) (dirExists w) (files w)
          (pgOnline w) (pgDb w) (clock w) t.

(** Worlds to run the code in: a fresh process next to an unreachable
    PostgreSQL server, and next to a reachable one. *)
Definition freshOffline : World :=
  mkWorld initialContext false false ∅ false emptyDb 1710500000000 [].

Definition freshOnline : World :=
  mkWorld initialContext false false ∅ true emptyDb 1710500000000 [].

Definition sampleBody : Body :=
  mkBody (JNum (Int 3)) (JBool true) (JNum (Int 5)) (JStr "late") (JStr "teacherA").

Definition sampleData : ReportData :=
  mkData (JNum (Int 3)) (JBool true) (JNum (Int 5)) (JStr "late") (JStr "teacherA").

(** The process after [initDatabase] on SQLite, and on PostgreSQL. *)
Definition sqliteReady : World :=
  snd (Server.initDatabase (Some "sqlite") freshOffline).

Definition pgReady : World :=
  snd (Server.initDatabase None freshOnline).

(** Two submissions handled within the same millisecond. *)
Definition sameMillisecondTwice : World :=
  snd (postInputdata utc8 (Some sampleBody)
         (snd (postInputdata utc8 (Some sampleBody) sqliteReady))).

End View.

(* ===================================================================== *)
(** ** backend/API/auth.js: the TOTP login route                          *)
(* ===================================================================== *)

Module Login.
Import JS Spec.

(** One entry of [JSON/2fabase.json]; a field the entry lacks reads as
    [JUndefined]. *)
Record UserRecord : Type := mkUser {
  user : JsVal;
  totp_secret : JsVal
}.

(** What [fs.readFileSync] and [JSON.parse] make of the credentials
    file: an exception, a value that is no array, or an array of
    entries (entries are objects). *)
Inductive CredentialFile : Type :=
| Unreadable
| NotAnArray
| UserArray (l : list UserRecord).

(** The fields the route reads from [req.body], when the request has a
    parsed body; the route takes an [option LoginBody]. *)
Record LoginBody : Type := mkLogin {
  lb_user : JsVal;
  lb_username : JsVal;
  lb_totppass : JsVal
}.

Inductive AuthPayload : Type :=
| MissingCredentials            (* 缺少用户名或验证码 *)
| BadCodeFormat                 (* 验证码必须是6位数字 *)
| UserNotFound                  (* 用户不存在 *)
| Verified (who : JsVal)        (* 验证成功, user: actualUser *)
| WrongCode                     (* 验证码错误 *)
| AuthServerError.              (* 服务器内部错误 *)

Record AuthResponse : Type := mkAuth {
  a_status : Z;
  a_success : bool;
  a_payload : AuthPayload
}.

(** What the route does besides answering, most recent first. *)
Inductive AuthEvent : Type :=
| AuthReadFile
| AuthCheck (token secret : JsVal)
| AuthConsoleError.

(** [a || b] *)
Definition jsOr (a b : JsVal) : JsVal := if truthy a then a else b.

(** [a === b] *)
Definition jsStrictEq (a b : JsVal) : bool :=
  match a, b with
  | JUndefined, JUndefined => true
  | JNull, JNull => true
  | JBool x, JBool y => Bool.eqb x y
  | JNum (Int x), JNum (Int y) => x =? y
  | JStr x, JStr y => String.eqb x y
  | _, _ => false
  end.

(** [/^\d{6}$/.test(s)] *)
Definition sixDigits (s : string) : bool :=
  match s with
  | String a (String b (String c (String d (String e (String f EmptyString))))) =>
      isDigit a && isDigit b && isDigit c && isDigit d && isDigit e && isDigit f
  | _ => false
  end.

(** [load2FADatabase()]: the parsed value ([None] when it is no array),
    or the empty array, after an error line, when reading or parsing
    threw. *)
Definition load2FADatabase (file : CredentialFile)
  : option (list UserRecord) * list AuthEvent :=
  match file with
  | Unreadable => (Some [], [AuthConsoleError; AuthReadFile])
  | NotAnArray => (None, [AuthReadFile])
  | UserArray l => (Some l, [AuthReadFile])
  end.

Section WithAuthenticator.
(** [authenticator.check(token, secret, { window: 1 })] of otplib: a
    library call, so a parameter; [None] when it throws. *)
Variable authenticatorCheck : JsVal -> JsVal -> option bool.

(** The [try] block of [router.post('/login', ...)]; [None] when it
    throws.  Its first statement destructures [req.body]: a TypeError
    when there is none. *)
Definition loginTry (file : CredentialFile) (reqBody : option LoginBody)
  : option AuthResponse * list AuthEvent :=
  match reqBody with
  | None => (None, [])
  | Some body =>
      let actualUser := jsOr (lb_user body) (lb_username body) in
      let totppass := lb_totppass body in
      if negb (truthy actualUser) || negb (truthy totppass) then
        (Some (mkAuth 401 false MissingCredentials), [])
      else if negb (sixDigits (ToString totppass)) then
        (Some (mkAuth 401 false BadCodeFormat), [])
      else
        let '(users, evs) := load2FADatabase file in
        match users with
        | None => (None, evs)                  (* users.find is not a function *)
        | Some l =>
            match List.find (fun u => jsStrictEq (user u) actualUser) l with
            | None => (Some (mkAuth 403 false UserNotFound), evs)
            | Some userRecord =>
                let evs' := AuthCheck totppass (totp_secret userRecord) :: evs in
                match authenticatorCheck totppass (totp_secret userRecord) with
                | None => (None, evs')
                | Some true => (Some (mkAuth 200 true (Verified actualUser)), evs')
                | Some false => (Some (mkAuth 403 false WrongCode), evs')
                end
            end
        end
  end.

(** [router.post('/login', ...)] *)
Definition login (file : CredentialFile) (reqBody : option LoginBody)
  : AuthResponse * list AuthEvent :=
  match loginTry file reqBody with
  | (Some response, evs) => (response, evs)
  | (None, evs) => (mkAuth 500 false AuthServerError, AuthConsoleError :: evs)
  end.
End WithAuthenticator.

(** The request names a user and carries a code of six digits. *)
Definition wellFormed (body : LoginBody) : bool :=
  truthy (jsOr (lb_user body) (lb_username body))
  && truthy (lb_totppass body)
  && sixDigits (ToString (lb_totppass body)).

(** The entry the route looks at: the first one of that user. *)
Definition userRecordOf (file : CredentialFile) (body : LoginBody) : option UserRecord :=
  match file with
  | UserArray l =>
      List.find (fun u => jsStrictEq (user u) (jsOr (lb_user body) (lb_username body))) l
  | _ => None
  end.

(** An authenticator to run the route with: one code per secret. *)
Definition sampleAuthenticator (token secret : JsVal) : option bool :=
  match secret with
  | JStr "JBSWY3DPEHPK3PXP" => Some (jsStrictEq token (JStr "123456"))
  | JStr _ => Some false
  | _ => None
  end.


End Login.

(* ===================================================================== *)
(** ** backend/server.js: start-up, and the process at work               *)
(* ===================================================================== *)

Module Startup.
Import JS Engine Proc Server.
Local Open Scope proc_scope.

Section WithListen.
(** [app.listen(PORT, ...)] of express: a library call, so a parameter. *)
Variable appListen : M unit.

(** [startApp()] *)
Definition startApp (env : option string) : M unit :=
  tryCatch
    (initDatabase env ;;;
     appListen)
    (fun err => consoleError ;;; processExit 1).
End WithListen.

End Startup.

Module Session.
Import JS Engine Proc Adapter Routes.

(** What happens to a running process: a request on one of the two
    routes, or a change in its surroundings (time passes, the PostgreSQL
    server goes away or comes back).  Requests are handled one after
    the other: the SQLite calls are synchronous, so there a request runs
    to its end; on PostgreSQL this leaves out requests that overlap at
    an [await]. *)
Inductive Step : Type :=
| Submit (reqBody : option Body)
| Query (yearMonth : string)
| ClockMoves (t : Z)
| ServerAvailability (up : bool).

Definition setClock (t : Z) (w : World) : World :=
  mkWorld (dbContext w) (globalSet w) (dirExists w) (files w)
          (pgOnline w) (pgDb w) t (trace w).

Definition setOnline (up : bool) (w : World) : World :=
  mkWorld (dbContext w) (globalSet w) (dirExists w) (files w)
          up (pgDb w) (clock w) (trace w).

Definition step (LocalTZA : Z -> Z) (s : Step) (w : World) : World :=
  match s with
  | Submit reqBody => snd (postInputdata LocalTZA reqBody w)
  | Query yearMonth => snd (getReports yearMonth w)
  | ClockMoves t => setClock t w
  | ServerAvailability up => setOnline up w
  end.

Definition run (LocalTZA : Z -> Z) (steps : list Step) (w : World) : World :=
  fold_left (fun w s => step LocalTZA s w) steps w.

End Session.

Module Logic.
Import Proc.

(** [m], started where [P] holds, ends in a result and a world that
    satisfy [Q]. *)
Definition triple {A} (P : World -> Prop) (m : M A) (Q : Res A -> World -> Prop) : Prop :=
  forall w r w', m w = (r, w') -> P w -> Q r w'.

(** The result is no [process.exit]. *)
Definition returns {A} (r : Res A) : Prop :=
  match r with Exit _ => False | _ => True end.

(** [m] never ends the process. *)
Definition answers {A} (m : M A) : Prop := forall w, returns (fst (m w)).

(** [m] logs no event of the kind [k]. *)
Definition silent {A} (k : Event -> bool) (m : M A) : Prop :=
  forall w, List.filter k (trace (snd (m w))) = List.filter k (trace w).

End Logic.

Module Frames.
Import JS Engine Proc Adapter View.

(** The same reports in every database as in [w0] (catalogs, the event
    log and the directory may differ). *)
Definition sameRows (w0 w : World) : Prop :=
  reportsOf (pgDb w) = reportsOf (pgDb w0)
  /\ forall f, fileReports f w = fileReports f w0.

Definition pgEvent (e : Event) : bool :=
  match e with
  | EvPgConnect | EvPgQuery _ | EvPgRelease => true
  | _ => false
  end.

Definition fileEvent (e : Event) : bool :=
  match e with
  | EvFsExists | EvFsMkdir | EvSqliteOpen _ | EvSqliteStmt _ _ | EvSqliteClose _ => true
  | _ => false
  end.

(** Since [w0] the process, running on SQLite, has left PostgreSQL
    alone: its database is as it was and no event since is a connection,
    a query or a release. *)
Definition awayFromPostgres (w0 w : World) : Prop :=
  usesPostgres w = false
  /\ pgDb w = pgDb w0
  /\ exists evs, trace w = (evs ++ trace w0)%list /\ forallb (fun e => negb (pgEvent e)) evs = true.

(** Since [w0] the process, running on PostgreSQL, has left the file
    system alone. *)
Definition awayFromFiles (w0 w : World) : Prop :=
  usesPostgres w = true
  /\ files w = files w0
  /\ dirExists w = dirExists w0
  /\ exists evs, trace w = (evs ++ trace w0)%list /\ forallb (fun e => negb (fileEvent e)) evs = true.

End Frames.

(* ===================================================================== *)
(** ** Measures on requests, event logs and stores                        *)
(* ===================================================================== *)

Module Measures.
Import JS Engine Proc Partition Adapter Routes View.

(** The request is one the active engine will store: its values are
    accepted and the engine is ready for the partition of the clock. *)
Definition storable (LocalTZA : Z -> Z) (body : Body) (w : World) : bool :=
  valuesAccepted body w && engineReady (getMonthPartition LocalTZA (clock w)) w.

(** The integers a JavaScript number holds exactly. *)
Definition safeInteger (z : Z) : bool := Z.abs z <=? 9007199254740991.

Fixpoint asciiString (s : string) : bool :=
  match s with
  | EmptyString => true
  | String c rest => (nat_of_ascii c <? 128)%nat && asciiString rest
  end.

(** The values of a numeric field that [JS.parseInt] reads as
    JavaScript's [parseInt] does: a number that is a safe integer (it
    prints in plain digits, without an exponent), an ASCII string (its
    white space is the white space [trimStart] knows) from which a safe
    integer or nothing is read, and every value that is neither a number
    nor a string. *)
Definition readsExactly (v : JsVal) : bool :=
  match v with
  | JNum (Int z) => safeInteger z
  | JStr s =>
      asciiString s
      && match parseInt v with Int c => safeInteger c | NaN => true end
  | _ => true
  end.

(** A field that holds a string: what both engines store as it is in a
    [TEXT] column. *)
Definition textField (v : JsVal) : bool :=
  match v with JStr _ => true | _ => false end.

(** A request that goes on to [addReport]. *)
Definition reachesAdapter (reqBody : option Body) : bool :=
  match reqBody with
  | Some body => negb (missingField body)
  | None => false
  end.

(** A partition name of the kind [getMonthPartition] makes: one to 32
    characters, digits and hyphens.  The file named after it is a plain
    file of the [DB] directory, and the name is text PostgreSQL takes. *)
Definition keyChar (c : ascii) : bool :=
  let n := nat_of_ascii c in
  ((48 <=? n) && (n <=? 57) || (n =? 45))%nat.

Fixpoint keyChars (s : string) : bool :=
  match s with
  | EmptyString => true
  | String c rest => keyChar c && keyChars rest
  end.

Definition partitionName (ym : string) : bool :=
  (1 <=? String.length ym)%nat && (String.length ym <=? 32)%nat && keyChars ym.

(** The world after a report went into the database [d2] of partition
    [p], with [evs] logged on the way: the shared database on
    PostgreSQL, the partition's file on SQLite. *)
Definition stored (p : string) (d2 : Db) (evs : list Event) (w : World) : World :=
  setTrace (evs ++ trace w)%list
    (if usesPostgres w then setPgDb d2 w
     else setDir true (setFiles (<[dbFileName p := d2]> (files w)) w)).

(** The events that take and give back a pooled connection, and those
    that open and close a database file. *)
Definition pgHandle (e : Event) : bool :=
  match e with EvPgConnect | EvPgRelease => true | _ => false end.

Definition fileHandle (e : Event) : bool :=
  match e with EvSqliteOpen _ | EvSqliteClose _ => true | _ => false end.

(** The identifiers of a table grow with the order of insertion and
    none exceeds the last one handed out. *)
Definition idsIncreasing (d : Db) : Prop :=
  StronglySorted Z.lt (map row_id (rows d))
  /\ Forall (fun r => row_id r <= lastId d) (rows d).

Definition idsOrdered : World -> Prop := storeAll idsIncreasing idsIncreasing.

(** The engine choice made at start-up. *)
Definition sameSetting (w0 w : World) : Prop :=
  dbContext w = dbContext w0 /\ globalSet w = globalSet w0.

(** The PostgreSQL table is there, its index is not. *)
Definition tableWithoutIndex (d : Db) : Prop :=
  hasObj KTable "reports" d = true
  /\ hasObj KIndex "reports_month_partition_idx" d = false.

(** Every SQLite file holds the reports of one partition, the one it is
    named after. *)
Definition filesByPartition (w : World) : Prop :=
  forall f, Forall (fun r => dbFileName (month_partition r) = f) (fileReports f w).

(** A PostgreSQL database in which the table was created and its index
    was not, next to a process that runs on PostgreSQL. *)
Definition tableOnly : World :=
  setPgDb (mkDb [(KTable, "reports")] [] 0) pgReady.

(** A SQLite file in which the name of the table is taken by an index,
    next to a process that runs on SQLite. *)
Definition nameTakenFile : World :=
  setDir true
    (setFiles (<["reports_2024-03.db" := mkDb [(KIndex, "reports")] [] 0]> ∅) sqliteReady).

(** A PostgreSQL database without the table, in which the name of the
    index is taken. *)
Definition indexNameTaken : World :=
  setPgDb (mkDb [(KTable, "reports_month_partition_idx")] [] 0) pgReady.

End Measures.

(* ===================================================================== *)
(** ** Facts about the JavaScript conversions                             *)
(* ===================================================================== *)

Module JSFacts.
Import JS Spec.

Lemma digitValue_digitChar d :
  0 <= d <= 9 -> digitValue 10 (digitChar d) = Some d.
Proof.
  intros H.
  assert (d = 0 \/ d = 1 \/ d = 2 \/ d = 3 \/ d = 4 \/ d = 5 \/ d = 6 \/ d = 7
          \/ d = 8 \/ d = 9) as Hc by lia.
  repeat (destruct Hc as [-> | Hc]; [reflexivity |]). subst. reflexivity.
Qed.

Lemma digitChar_isDigit d : 0 <= d <= 9 -> isDigit (digitChar d) = true.
Proof.
  intros H.
  assert (d = 0 \/ d = 1 \/ d = 2 \/ d = 3 \/ d = 4 \/ d = 5 \/ d = 6 \/ d = 7
          \/ d = 8 \/ d = 9) as Hc by lia.
  repeat (destruct Hc as [-> | Hc]; [reflexivity |]). subst. reflexivity.
Qed.

Lemma digitsOf_S fuel n acc :
  digitsOf (S fuel) n acc
  = if n / 10 =? 0 then String (digitChar (n mod 10)) acc
    else digitsOf fuel (n / 10) (String (digitChar (n mod 10)) acc).
Proof. reflexivity. Qed.

(** Reading back the digits that [digitsOf] wrote: they shift what was
    read before and add [n]. *)
Lemma readDigits_digitsOf fuel : forall n acc a,
  0 <= n < 10 ^ Z.of_nat (S fuel) ->
  exists k, 0 <= k /\
    readDigits 10 (digitsOf (S fuel) n acc) a
    = readDigits 10 acc
        (Some (match a with Some x => x | None => 0 end * 10 ^ k + n)).
Proof.
  induction fuel as [|fuel IH]; intros n acc a Hn.
  - exists 1. split; [lia|]. change (10 ^ Z.of_nat 1) with 10 in Hn.
    rewrite digitsOf_S.
    assert ((n / 10 =? 0) = true) as -> by (apply Z.eqb_eq; Z.div_mod_to_equations; lia).
    cbn [readDigits]. rewrite digitValue_digitChar by (Z.div_mod_to_equations; lia).
    do 2 f_equal. Z.div_mod_to_equations. lia.
  - rewrite digitsOf_S.
    destruct (Z.eqb_spec (n / 10) 0) as [Hz | Hz].
    + exists 1. split; [lia|]. cbn [readDigits].
      rewrite digitValue_digitChar by (Z.div_mod_to_equations; lia).
      do 2 f_equal. Z.div_mod_to_equations. lia.
    + assert (Hn' : 0 <= n / 10 < 10 ^ Z.of_nat (S fuel)).
      { rewrite (Nat2Z.inj_succ (S fuel)), Z.pow_succ_r in Hn by lia.
        Z.div_mod_to_equations. lia. }
      destruct (IH (n / 10) (String (digitChar (n mod 10)) acc) a Hn')
        as (k & Hk & Heq).
      exists (k + 1). split; [lia|].
      rewrite Heq. cbn [readDigits].
      rewrite digitValue_digitChar by (Z.div_mod_to_equations; lia).
      do 2 f_equal. rewrite Z.pow_add_r by lia. change (10 ^ 1) with 10.
      pose proof (Z.div_mod n 10 ltac:(lia)). lia.
Qed.

Lemma enough_fuel n : 0 <= n -> n < 10 ^ Z.of_nat (S (Z.to_nat (Z.log2 n))).
Proof.
  intros Hn.
  destruct (Z.eq_dec n 0) as [-> | Hnz]; [reflexivity|].
  pose proof (Z.log2_nonneg n) as Hl.
  rewrite Nat2Z.inj_succ, Z2Nat.id by lia.
  pose proof (Z.log2_spec n ltac:(lia)) as [_ Hlt].
  eapply Z.lt_le_trans; [exact Hlt|].
  apply Z.pow_le_mono_l. lia.
Qed.

Lemma readDigits_decimal n : 0 <= n -> readDigits 10 (decimal n) None = Some n.
Proof.
  intros Hn. unfold decimal.
  destruct (readDigits_digitsOf (Z.to_nat (Z.log2 n)) n "" None (conj Hn (enough_fuel n Hn)))
    as (k & _ & ->).
  cbn [readDigits]. f_equal; lia.
Qed.

(** The first character of a printed number is a digit. *)
Lemma digitsOf_head fuel : forall n acc,
  (exists c rest, acc = String c rest /\ isDigit c = true) ->
  exists c rest, digitsOf fuel n acc = String c rest /\ isDigit c = true.
Proof.
  induction fuel as [|fuel IH]; intros n acc Hacc; [done|]. rewrite digitsOf_S.
  assert (Hd : exists c rest,
             String (digitChar (n mod 10)) acc = String c rest /\ isDigit c = true).
  { eexists _, _. split; [reflexivity|].
    apply digitChar_isDigit. Z.div_mod_to_equations. lia. }
  destruct (n / 10 =? 0); [done|]. by apply IH.
Qed.

Lemma decimal_head n :
  exists c rest, decimal n = String c rest /\ isDigit c = true.
Proof.
  unfold decimal. rewrite digitsOf_S.
  assert (Hd : exists c rest,
             String (digitChar (n mod 10)) "" = String c rest /\ isDigit c = true).
  { eexists _, _. split; [reflexivity|].
    apply digitChar_isDigit. Z.div_mod_to_equations. lia. }
  destruct (n / 10 =? 0); [done|]. by apply digitsOf_head.
Qed.

Lemma digitsOf_allDigits fuel : forall n acc,
  allDigits acc = true -> allDigits (digitsOf fuel n acc) = true.
Proof.
  induction fuel as [|fuel IH]; intros n acc Hacc; [done|]. rewrite digitsOf_S.
  assert (Hs : allDigits (String (digitChar (n mod 10)) acc) = true).
  { cbn [allDigits]. rewrite digitChar_isDigit, Hacc; [done|].
    Z.div_mod_to_equations. lia. }
  destruct (n / 10 =? 0); [done|]. by apply IH.
Qed.

Lemma decimal_allDigits n : allDigits (decimal n) = true.
Proof. unfold decimal. by apply digitsOf_allDigits. Qed.

(** A string of digits is read in radix 10 from its first character. *)
Lemma parseIntString_digits c rest :
  allDigits (String c rest) = true ->
  parseIntString (String c rest)
  = match readDigits 10 (String c rest) None with
    | Some v => Int (1 * v)
    | None => NaN
    end.
Proof.
  cbn [allDigits]. intros H. apply andb_true_iff in H as [Hc Hrest].
  unfold parseIntString.
  destruct c as [[] [] [] [] [] [] [] []]; try discriminate Hc; try reflexivity.
  destruct rest as [|c2 rest2]; [reflexivity|].
  cbn [allDigits] in Hrest. apply andb_true_iff in Hrest as [Hc2 _].
  destruct c2 as [[] [] [] [] [] [] [] []]; try discriminate Hc2; reflexivity.
Qed.

Lemma parseIntString_minus_digits c rest :
  allDigits (String c rest) = true ->
  parseIntString (String "-" (String c rest))
  = match readDigits 10 (String c rest) None with
    | Some v => Int (-1 * v)
    | None => NaN
    end.
Proof.
  cbn [allDigits]. intros H. apply andb_true_iff in H as [Hc Hrest].
  unfold parseIntString.
  destruct c as [[] [] [] [] [] [] [] []]; try discriminate Hc; try reflexivity.
  destruct rest as [|c2 rest2]; [reflexivity|].
  cbn [allDigits] in Hrest. apply andb_true_iff in Hrest as [Hc2 _].
  destruct c2 as [[] [] [] [] [] [] [] []]; try discriminate Hc2; reflexivity.
Qed.

(** [parseInt] of an integer-valued number gives the number back. *)
Lemma parseInt_integer z : parseInt (JNum (Int z)) = Int z.
Proof.
  unfold parseInt. cbn [ToString NumberToString].
  destruct (Z.ltb_spec z 0) as [Hneg | Hpos].
  - destruct (decimal_head (- z)) as (c & rest & Heq & _).
    pose proof (decimal_allDigits (- z)) as Hall.
    pose proof (readDigits_decimal (- z) ltac:(lia)) as Hread.
    rewrite Heq in *.
    change ("-" ++ String c rest)%string with (String "-" (String c rest)).
    rewrite parseIntString_minus_digits, Hread by done.
    f_equal. lia.
  - destruct (decimal_head z) as (c & rest & Heq & _).
    pose proof (decimal_allDigits z) as Hall.
    pose proof (readDigits_decimal z Hpos) as Hread.
    rewrite Heq in *. rewrite parseIntString_digits, Hread by done.
    f_equal. lia.
Qed.

(** *** padStart *)

Lemma substring_prefix_length s : forall n,
  (n <= String.length s)%nat -> String.length (substring 0 n s) = n.
Proof.
  induction s as [|c s IH]; intros [|n] Hn; cbn in *; try reflexivity; try lia.
  f_equal. apply IH. lia.
Qed.

Lemma append_length (a b : string) :
  String.length (a ++ b)%string = (String.length a + String.length b)%nat.
Proof. induction a as [|c a IH]; simpl; [reflexivity | by rewrite IH]. Qed.

(** The fuel of [repeatTo] is enough: the padding has the length asked
    for. *)
Lemma repeatTo_length fuel : forall fill n,
  fill <> ""%string -> (n < fuel)%nat ->
  String.length (repeatTo fuel fill n) = n.
Proof.
  induction fuel as [|fuel IH]; intros fill n Hfill Hn; [lia|].
  cbn [repeatTo].
  destruct (Nat.leb_spec n (String.length fill)) as [Hle | Hgt].
  - by apply substring_prefix_length.
  - rewrite append_length, IH; [lia | done |].
    destruct fill; [done|]. cbn in *. lia.
Qed.

(** [padStart] returns a string of the target length, or the string
    itself when that is longer already. *)
Lemma padStart_length s n fill :
  fill <> ""%string ->
  String.length (padStart s n fill) = Nat.max n (String.length s).
Proof.
  intros Hfill. unfold padStart.
  destruct (Nat.leb_spec n (String.length s)) as [Hle | Hgt]; [lia|].
  destruct (String.eqb_spec fill ""); [done|].
  rewrite append_length, repeatTo_length by (done || lia). lia.
Qed.

End JSFacts.

(* ===================================================================== *)
(** ** Facts about the calendar arithmetic and the number formatting      *)
(* ===================================================================== *)

Module DateFacts.
Import JS DateModel Partition Spec.

Lemma DayFromYear_succ y : DayFromYear (y + 1) = DayFromYear y + DaysInYear y.
Proof.
  unfold DayFromYear, DaysInYear.
  repeat match goal with |- context [?a =? ?b] => destruct (Z.eqb_spec a b) end;
    cbn [negb]; Z.div_mod_to_equations; lia.
Qed.

Lemma DaysInYear_range y : 365 <= DaysInYear y <= 366.
Proof. unfold DaysInYear. repeat case_match; lia. Qed.

Lemma DayFromYear_mono a b : a <= b -> DayFromYear a <= DayFromYear b.
Proof. intros H. unfold DayFromYear. Z.div_mod_to_equations. lia. Qed.

Lemma YearFromDay_bounds t :
  DayFromYear (YearFromTime t) <= Day t < DayFromYear (YearFromTime t + 1).
Proof.
  unfold YearFromTime. set (d := Day t). cbv zeta.
  set (y0 := 1970 + 400 * d / 146097).
  assert (H0 : DayFromYear (y0 - 1) <= d /\ d < DayFromYear (y0 + 2)).
  { unfold DayFromYear, y0. Z.div_mod_to_equations. lia. }
  replace (y0 + 2) with (y0 + 1 + 1) in H0 by lia.
  destruct (Z.ltb_spec d (DayFromYear y0)).
  - replace (y0 - 1 + 1) with y0 by lia. lia.
  - destruct (Z.leb_spec (DayFromYear (y0 + 1)) d); lia.
Qed.

(** ECMA-262: YearFromTime(t) is the largest y with TimeFromYear(y) <= t. *)
Lemma YearFromTime_spec t :
  TimeFromYear (YearFromTime t) <= t < TimeFromYear (YearFromTime t + 1).
Proof.
  pose proof (YearFromDay_bounds t) as H. unfold TimeFromYear, Day, msPerDay in *.
  Z.div_mod_to_equations. lia.
Qed.

Lemma YearFromTime_largest t y : TimeFromYear y <= t -> y <= YearFromTime t.
Proof.
  intros H. pose proof (YearFromTime_spec t) as [_ Hlt].
  destruct (Z.le_gt_cases y (YearFromTime t)) as [|Hgt]; [done|].
  pose proof (DayFromYear_mono (YearFromTime t + 1) y ltac:(lia)).
  unfold TimeFromYear, msPerDay in *. lia.
Qed.

Lemma YearFromTime_below t y : t < TimeFromYear y -> YearFromTime t < y.
Proof.
  intros H. pose proof (YearFromTime_spec t) as [Hle _].
  destruct (Z.lt_ge_cases (YearFromTime t) y) as [|Hge]; [done|].
  pose proof (DayFromYear_mono y (YearFromTime t) ltac:(lia)).
  unfold TimeFromYear, msPerDay in *. lia.
Qed.

Lemma DayWithinYear_range t :
  0 <= DayWithinYear t < DaysInYear (YearFromTime t).
Proof.
  unfold DayWithinYear. pose proof (YearFromDay_bounds t).
  rewrite DayFromYear_succ in *. lia.
Qed.

Lemma MonthFromTime_range t : 0 <= MonthFromTime t <= 11.
Proof. unfold MonthFromTime. cbv zeta. repeat case_match; lia. Qed.

Lemma decimal_four y : 1000 <= y <= 9999 -> decimal y = fourDigits y.
Proof.
  intros Hy. unfold decimal, fourDigits, twoDigits.
  assert (Hlog : 9 <= Z.log2 y).
  { change 9 with (Z.log2 1000). apply Z.log2_le_mono. lia. }
  destruct (Z.to_nat (Z.log2 y)) as [|[|[|n]]] eqn:E; try lia.
  cbn [digitsOf].
  assert (E1 : (y / 10 =? 0) = false) by (apply Z.eqb_neq; Z.div_mod_to_equations; lia).
  assert (E2 : (y / 10 / 10 =? 0) = false) by (apply Z.eqb_neq; Z.div_mod_to_equations; lia).
  assert (E3 : (y / 10 / 10 / 10 =? 0) = false) by (apply Z.eqb_neq; Z.div_mod_to_equations; lia).
  assert (E4 : (y / 10 / 10 / 10 / 10 =? 0) = true) by (apply Z.eqb_eq; Z.div_mod_to_equations; lia).
  rewrite E1, E2, E3, E4.
  replace (y / 10 / 10 / 10) with (y / 1000) by (Z.div_mod_to_equations; lia).
  replace (y / 10 / 10) with (y / 100) by (Z.div_mod_to_equations; lia).
  reflexivity.
Qed.

Lemma month_two m : 1 <= m <= 12 ->
  padStart (NumberToString (Int m)) 2 "0" = twoDigits m.
Proof.
  intros Hm.
  assert (m = 1 \/ m = 2 \/ m = 3 \/ m = 4 \/ m = 5 \/ m = 6 \/ m = 7 \/ m = 8
          \/ m = 9 \/ m = 10 \/ m = 11 \/ m = 12) as Hc by lia.
  repeat (destruct Hc as [-> | Hc]; [reflexivity |]). subst. reflexivity.
Qed.
End DateFacts.

Module PartitionFacts.
Import JS DateModel Partition Spec Proc DateFacts.

Lemma getMonthPartition_valid tz t :
  validTime t = true ->
  getMonthPartition tz t =
    NumberToString (Int (YearFromTime (LocalTime tz t))) ++ "-"
    ++ padStart (NumberToString (Int (MonthFromTime (LocalTime tz t) + 1))) 2 "0".
Proof. intros H. unfold getMonthPartition, newDate. rewrite H. reflexivity. Qed.

Lemma getMonthPartition_invalid tz t :
  validTime t = false -> getMonthPartition tz t = "NaN-NaN".
Proof. intros H. unfold getMonthPartition, newDate. rewrite H. reflexivity. Qed.

Lemma digitChar_safe d : 0 <= d <= 9 -> Ascii.eqb (digitChar d) "/" = false.
Proof.
  intros H.
  assert (d = 0 \/ d = 1 \/ d = 2 \/ d = 3 \/ d = 4 \/ d = 5 \/ d = 6 \/ d = 7
          \/ d = 8 \/ d = 9) as Hc by lia.
  repeat (destruct Hc as [-> | Hc]; [reflexivity |]). subst. reflexivity.
Qed.

Lemma pathSafe_app a b : pathSafe (a ++ b) = pathSafe a && pathSafe b.
Proof.
  induction a as [|c a IH]; [done|].
  simpl. rewrite IH. by rewrite andb_assoc.
Qed.

Lemma digitsOf_safe fuel : forall n acc,
  pathSafe acc = true -> pathSafe (digitsOf fuel n acc) = true.
Proof.
  induction fuel as [|fuel IH]; intros n acc Hacc; cbn [digitsOf]; [done|].
  assert (Hs : pathSafe (String (digitChar (n mod 10)) acc) = true).
  { cbn [pathSafe]. rewrite digitChar_safe, Hacc; [done|].
    Z.div_mod_to_equations. lia. }
  destruct (n / 10 =? 0); [done|]. by apply IH.
Qed.

Lemma NumberToString_safe x : pathSafe (NumberToString x) = true.
Proof.
  destruct x as [|z]; [reflexivity|]. cbn [NumberToString].
  destruct (z <? 0).
  - change ("-" ++ decimal (- z)) with (String "-" (decimal (- z))).
    cbn [pathSafe]. unfold decimal. by rewrite digitsOf_safe.
  - unfold decimal. by rewrite digitsOf_safe.
Qed.

Lemma monthString_safe x :
  (x = NaN \/ exists m, x = Int m /\ 1 <= m <= 12) ->
  pathSafe (padStart (NumberToString x) 2 "0") = true.
Proof.
  intros [-> | (m & -> & Hm)]; [reflexivity|].
  rewrite month_two by done. unfold twoDigits. cbn [pathSafe].
  rewrite !digitChar_safe; [done| |]; Z.div_mod_to_equations; lia.
Qed.

(** A partition key never contains a path separator, whatever the clock
    says: the database file always lies in the [DB] directory. *)
Lemma getMonthPartition_pathSafe tz t : pathSafe (getMonthPartition tz t) = true.
Proof.
  unfold getMonthPartition. rewrite !pathSafe_app, NumberToString_safe.
  rewrite monthString_safe; [done|].
  unfold newDate. destruct (validTime t); cbn [getMonth plus1]; [right | by left].
  eexists; split; [done|]. pose proof (MonthFromTime_range (LocalTime tz t)). lia.
Qed.

Lemma dbFileName_pathSafe p :
  pathSafe p = true -> pathSafe (Adapter.dbFileName p) = true.
Proof.
  intros H. unfold Adapter.dbFileName. rewrite !pathSafe_app, H. reflexivity.
Qed.

End PartitionFacts.

(* ===================================================================== *)
(** ** Facts about the engine model                                       *)
(* ===================================================================== *)

Module EngineFacts.
Import JS Engine Proc Spec View.
Local Open Scope list_scope.

Lemma existsb_snoc {A} (f : A -> bool) l x :
  existsb f (l ++ [x]) = existsb f l || f x.
Proof. rewrite existsb_app. cbn. by rewrite orb_false_r. Qed.

Lemma hasObj_nameTaken k n d : hasObj k n d = true -> nameTaken n d = true.
Proof.
  unfold hasObj, nameTaken. rewrite !existsb_exists.
  intros (o & Hin & Ho). exists o. split; [done|].
  apply andb_true_iff in Ho. tauto.
Qed.

Lemma nameTaken_In n d : nameTaken n d = true <-> In n (map snd (catalog d)).
Proof.
  unfold nameTaken. rewrite existsb_exists, in_map_iff. split.
  - intros (o & Hin & Ho). apply String.eqb_eq in Ho. eauto.
  - intros (o & Ho & Hin). exists o. split; [done|]. by apply String.eqb_eq.
Qed.

(** *** CREATE TABLE *)

Lemma createTable_exists n d :
  hasObj KTable n d = true -> createTable true n d = Some d.
Proof. intros H. unfold createTable. by rewrite H. Qed.

Lemma createTable_inv b n d d' :
  createTable b n d = Some d' ->
  (b = true /\ hasObj KTable n d = true /\ d' = d)
  \/ (nameTaken n d = false /\ d' = mkDb (catalog d ++ [(KTable, n)]) [] 0).
Proof.
  unfold createTable. intros H.
  destruct (b && hasObj KTable n d) eqn:E.
  - apply andb_true_iff in E as [-> E]. left. inversion H; subst; auto.
  - destruct (nameTaken n d) eqn:E'; [done|]. right. inversion H; subst; auto.
Qed.

Lemma createTable_hasTable b n d d' :
  createTable b n d = Some d' -> hasObj KTable n d' = true.
Proof.
  intros H. apply createTable_inv in H as [(_ & H & ->) | (_ & ->)]; [done|].
  unfold hasObj. cbn [catalog]. rewrite existsb_snoc. cbn.
  rewrite String.eqb_refl. apply orb_true_r.
Qed.

Lemma createTable_keeps b n d d' k m :
  createTable b n d = Some d' -> hasObj k m d = true -> hasObj k m d' = true.
Proof.
  intros H Hk. apply createTable_inv in H as [(_ & _ & ->) | (_ & ->)]; [done|].
  unfold hasObj in *. cbn [catalog]. rewrite existsb_snoc, Hk. reflexivity.
Qed.

Lemma createTable_noDuplicates b n d d' :
  createTable b n d = Some d' -> noDuplicates d -> noDuplicates d'.
Proof.
  intros H Hnd. apply createTable_inv in H as [(_ & _ & ->) | (Hfree & ->)]; [done|].
  unfold noDuplicates in *. cbn [catalog]. rewrite map_app. cbn.
  apply NoDup_app. split; [done|]. split.
  - intros x Hx Hx'. apply list_elem_of_singleton in Hx'. subst x.
    apply list_elem_of_In, nameTaken_In in Hx. congruence.
  - apply NoDup_singleton.
Qed.

(** *** CREATE INDEX *)

Lemma createIndex_inv i t d d' :
  createIndex i t d = Some d' ->
  nameTaken i d = false /\ hasObj KTable t d = true
  /\ d' = mkDb (catalog d ++ [(KIndex, i)]) (rows d) (lastId d).
Proof.
  unfold createIndex. intros H.
  destruct (nameTaken i d); [done|].
  destruct (hasObj KTable t d); [|done]. inversion H; subst; auto.
Qed.

Lemma createIndex_hasIndex i t d d' :
  createIndex i t d = Some d' -> hasObj KIndex i d' = true.
Proof.
  intros H. apply createIndex_inv in H as (_ & _ & ->).
  unfold hasObj. cbn [catalog]. rewrite existsb_snoc. cbn.
  rewrite String.eqb_refl. apply orb_true_r.
Qed.

Lemma createIndex_keeps i t d d' k m :
  createIndex i t d = Some d' -> hasObj k m d = true -> hasObj k m d' = true.
Proof.
  intros H Hk. apply createIndex_inv in H as (_ & _ & ->).
  unfold hasObj in *. cbn [catalog]. rewrite existsb_snoc, Hk. reflexivity.
Qed.

Lemma createIndex_rows i t d d' : createIndex i t d = Some d' -> rows d' = rows d.
Proof. intros H. by apply createIndex_inv in H as (_ & _ & ->). Qed.

Lemma createIndex_noDuplicates i t d d' :
  createIndex i t d = Some d' -> noDuplicates d -> noDuplicates d'.
Proof.
  intros H Hnd. apply createIndex_inv in H as (Hfree & _ & ->).
  unfold noDuplicates in *. cbn [catalog]. rewrite map_app. cbn.
  apply NoDup_app. split; [done|]. split.
  - intros x Hx Hx'. apply list_elem_of_singleton in Hx'. subst x.
    apply list_elem_of_In, nameTaken_In in Hx. congruence.
  - apply NoDup_singleton.
Qed.

(** *** The two bootstrap sequences *)

Lemma hasObj_snoc k m l o rs li :
  hasObj k m (mkDb (l ++ [o]) rs li)
  = hasObj k m (mkDb l rs li) || (ObjKind_eqb (fst o) k && String.eqb (snd o) m).
Proof. unfold hasObj. cbn [catalog]. by rewrite existsb_snoc. Qed.

Lemma nameTaken_snoc m l o rs li :
  nameTaken m (mkDb (l ++ [o]) rs li)
  = nameTaken m (mkDb l rs li) || String.eqb (snd o) m.
Proof. unfold nameTaken. cbn [catalog]. by rewrite existsb_snoc. Qed.

Lemma hasObj_catalog k m d rs li : hasObj k m (mkDb (catalog d) rs li) = hasObj k m d.
Proof. reflexivity. Qed.

Lemma nameTaken_catalog m d rs li : nameTaken m (mkDb (catalog d) rs li) = nameTaken m d.
Proof. reflexivity. Qed.

Lemma createTable_fresh b n d :
  nameTaken n d = false ->
  createTable b n d = Some (mkDb (catalog d ++ [(KTable, n)]) [] 0).
Proof.
  intros H. unfold createTable. rewrite H.
  destruct (hasObj KTable n d) eqn:E.
  - apply hasObj_nameTaken in E. congruence.
  - by rewrite andb_false_r.
Qed.

Lemma createIndex_fresh i t d :
  nameTaken i d = false -> hasObj KTable t d = true ->
  createIndex i t d = Some (mkDb (catalog d ++ [(KIndex, i)]) (rows d) (lastId d)).
Proof. intros Hi Ht. unfold createIndex. by rewrite Hi, Ht. Qed.

Lemma sqliteBootstrap_ready d :
  sqliteSchemaReady d = true -> exists d', sqliteBootstrap d = Some d'.
Proof.
  unfold sqliteSchemaReady, sqliteBootstrap.
  intros H. apply andb_true_iff in H as [Ht Hi].
  destruct (hasObj KTable "reports" d) eqn:Et.
  - rewrite createTable_exists by done.
    destruct (hasObj KIndex "idx_month_partition" d) eqn:Ei; [eauto|].
    cbn in Hi. apply negb_true_iff in Hi.
    rewrite createIndex_fresh by done. eauto.
  - cbn in Ht. apply negb_true_iff in Ht.
    rewrite createTable_fresh by done.
    rewrite hasObj_snoc, hasObj_catalog. cbn [fst snd ObjKind_eqb andb].
    rewrite orb_false_r.
    destruct (hasObj KIndex "idx_month_partition" d) eqn:Ei; [eauto|].
    cbn in Hi. apply negb_true_iff in Hi.
    rewrite createIndex_fresh; [eauto | |].
    + by rewrite nameTaken_snoc, nameTaken_catalog, Hi.
    + rewrite hasObj_snoc. cbn. apply orb_true_r.
Qed.

Lemma sqliteBootstrap_spec d d' :
  sqliteBootstrap d = Some d' ->
  hasObj KTable "reports" d' = true
  /\ hasObj KIndex "idx_month_partition" d' = true
  /\ reportsOf d' = reportsOf d
  /\ (noDuplicates d -> noDuplicates d').
Proof.
  unfold sqliteBootstrap. intros H.
  destruct (createTable true "reports" d) as [d1|] eqn:E1; [|done].
  pose proof (createTable_hasTable _ _ _ _ E1) as Ht1.
  pose proof (createTable_noDuplicates _ _ _ _ E1) as Hn1.
  assert (Hr1 : reportsOf d1 = reportsOf d).
  { apply createTable_inv in E1 as [(_ & _ & ->) | (Hfree & ->)]; [done|].
    unfold reportsOf at 2.
    destruct (hasObj KTable "reports" d) eqn:E; [|by unfold reportsOf; rewrite Ht1].
    apply hasObj_nameTaken in E. congruence. }
  destruct (hasObj KIndex "idx_month_partition" d1) eqn:Ei.
  - inversion H; subst. auto.
  - pose proof (createIndex_hasIndex _ _ _ _ H).
    pose proof (createIndex_keeps _ _ _ _ _ _ H Ht1) as Ht'.
    pose proof (createIndex_rows _ _ _ _ H) as Hrows.
    pose proof (createIndex_noDuplicates _ _ _ _ H).
    repeat split; auto.
    rewrite <- Hr1. unfold reportsOf. by rewrite Ht', Ht1, Hrows.
Qed.

Lemma sqliteBootstrap_exists d :
  hasObj KTable "reports" d = true ->
  hasObj KIndex "idx_month_partition" d = true ->
  sqliteBootstrap d = Some d.
Proof.
  intros Ht Hi. unfold sqliteBootstrap. rewrite createTable_exists by done.
  by rewrite Hi.
Qed.

Lemma sqliteBootstrap_idem d d' :
  sqliteBootstrap d = Some d' -> sqliteBootstrap d' = Some d'.
Proof.
  intros H. apply sqliteBootstrap_spec in H as (Ht & Hi & _).
  by apply sqliteBootstrap_exists.
Qed.

Lemma pgBootstrap_ready d :
  pgSchemaReady d = true -> exists d', pgBootstrap d = Some d'.
Proof.
  unfold pgSchemaReady, pgBootstrap. intros H.
  destruct (hasObj KTable "reports" d) eqn:Et; [eauto|].
  cbn in H. apply andb_true_iff in H as [Hr Hi].
  apply negb_true_iff in Hr. apply negb_true_iff in Hi.
  rewrite createTable_fresh by done.
  rewrite createIndex_fresh; [eauto | |].
  - by rewrite nameTaken_snoc, nameTaken_catalog, Hi.
  - rewrite hasObj_snoc. cbn. apply orb_true_r.
Qed.

Lemma pgBootstrap_spec d d' :
  pgBootstrap d = Some d' ->
  hasObj KTable "reports" d' = true
  /\ reportsOf d' = reportsOf d
  /\ (noDuplicates d -> noDuplicates d').
Proof.
  unfold pgBootstrap. intros H.
  destruct (hasObj KTable "reports" d) eqn:Et.
  - inversion H; subst. auto.
  - destruct (createTable false "reports" d) as [d1|] eqn:E1; [|done].
    pose proof (createTable_hasTable _ _ _ _ E1) as Ht1.
    pose proof (createTable_noDuplicates _ _ _ _ E1) as Hn1.
    pose proof (createIndex_keeps _ _ _ _ _ _ H Ht1) as Ht'.
    pose proof (createIndex_rows _ _ _ _ H) as Hrows.
    pose proof (createIndex_noDuplicates _ _ _ _ H).
    repeat split; auto.
    unfold reportsOf. rewrite Ht', Et, Hrows.
    by apply createTable_inv in E1 as [(? & _) | (_ & ->)].
Qed.

Lemma pgBootstrap_idem d d' : pgBootstrap d = Some d' -> pgBootstrap d' = Some d'.
Proof.
  intros H. apply pgBootstrap_spec in H as (Ht & _).
  unfold pgBootstrap. by rewrite Ht.
Qed.

(** *** INSERT *)

Lemma insertReport_inv chk v d newId d' :
  insertReport chk v d = Some (newId, d') ->
  hasObj KTable "reports" d = true
  /\ exists c b s,
       chk v = Some (c, b, s)
       /\ newId = lastId d + 1
       /\ d' = mkDb (catalog d)
                    (rows d ++ [mkRow newId c b s (v_submittime v) (v_note v)
                                      (v_submitter v) (v_month_partition v)])
                    newId.
Proof.
  unfold insertReport. intros H.
  destruct (hasObj KTable "reports" d); [|done]. split; [done|].
  destruct (chk v) as [[[c b] s]|]; [|done].
  exists c, b, s. inversion H; subst. auto.
Qed.

Lemma insertReport_ok chk v d c b s :
  hasObj KTable "reports" d = true ->
  chk v = Some (c, b, s) ->
  insertReport chk v d
  = Some (lastId d + 1,
          mkDb (catalog d)
               (rows d ++ [mkRow (lastId d + 1) c b s (v_submittime v) (v_note v)
                                 (v_submitter v) (v_month_partition v)])
               (lastId d + 1)).
Proof. intros Ht Hc. unfold insertReport. by rewrite Ht, Hc. Qed.

Lemma insertReport_reportsOf chk v d newId d' :
  insertReport chk v d = Some (newId, d') ->
  exists r c b s,
    chk v = Some (c, b, s)
    /\ r = mkRow newId c b s (v_submittime v) (v_note v) (v_submitter v)
                 (v_month_partition v)
    /\ reportsOf d' = reportsOf d ++ [r]
    /\ hasObj KTable "reports" d' = true.
Proof.
  intros H. apply insertReport_inv in H as (Ht & c & b & s & Hc & -> & ->).
  eexists _, c, b, s. repeat split; [done| |done].
  unfold reportsOf. rewrite hasObj_catalog, Ht. reflexivity.
Qed.

Lemma insertReport_accepts chk v d c b s :
  hasObj KTable "reports" d = true ->
  chk v = Some (c, b, s) ->
  exists d',
    insertReport chk v d = Some (lastId d + 1, d')
    /\ reportsOf d' = reportsOf d
         ++ [mkRow (lastId d + 1) c b s (v_submittime v) (v_note v)
                   (v_submitter v) (v_month_partition v)].
Proof.
  intros Ht Hc. eexists. split; [by apply insertReport_ok|].
  unfold reportsOf. by rewrite hasObj_catalog, Ht.
Qed.

Lemma pgCheck_accepts c b s t nt sb p :
  int32 c = true -> int32 s = true -> pgText nt = true -> pgText sb = true ->
  pgCheck (mkValues (Int c) (JBool b) (Int s) t nt sb p) = Some (c, CBool b, s).
Proof. intros Hc Hs Hn Hb. unfold pgCheck. cbn. by rewrite Hc, Hs, Hn, Hb. Qed.

Lemma sqliteCheck_accepts c b s t nt sb p :
  sqliteBindable nt = true -> sqliteBindable sb = true ->
  sqliteCheck (mkValues (Int c) (JNum (Int b)) (Int s) t nt sb p) = Some (c, CInt b, s).
Proof. intros Hn Hb. unfold sqliteCheck. cbn. by rewrite Hn, Hb. Qed.

(** *** ORDER BY submittime DESC *)

Lemma insertDesc_perm r l : Permutation (insertDesc r l) (r :: l).
Proof.
  induction l as [|x l IH]; cbn [insertDesc]; [done|].
  destruct (submittime x <=? submittime r); [done|].
  rewrite IH. apply perm_swap.
Qed.

Lemma orderBy_perm l : Permutation (orderBySubmittimeDesc l) l.
Proof.
  induction l as [|r l IH]; cbn; [done|].
  fold (orderBySubmittimeDesc l). rewrite insertDesc_perm. by constructor.
Qed.

Lemma insertDesc_descending r l : descending l -> descending (insertDesc r l).
Proof.
  unfold descending. induction 1 as [|x l Hs IH Hall]; cbn [insertDesc].
  - repeat constructor.
  - destruct (Z.leb_spec (submittime x) (submittime r)).
    + constructor; [by constructor|]. constructor; [lia|].
      eapply Forall_impl; [exact Hall|]. cbn. intros; lia.
    + constructor; [done|].
      eapply Permutation_Forall; [symmetry; apply insertDesc_perm|].
      constructor; [lia | done].
Qed.

Lemma orderBy_descending l : descending (orderBySubmittimeDesc l).
Proof.
  induction l as [|r l IH]; cbn; [constructor|].
  by apply insertDesc_descending.
Qed.

Lemma descending_strict l :
  descending l -> NoDup (map submittime l) -> strictlyDescending l.
Proof.
  unfold descending, strictlyDescending.
  induction 1 as [|x l Hs IH Hall]; intros Hnd; [constructor|].
  cbn in Hnd. apply NoDup_cons in Hnd as [Hx Hnd].
  constructor; [by apply IH|].
  apply Forall_forall. intros y Hy.
  pose proof (proj1 (Forall_forall _ _) Hall y Hy) as Hge. cbn in Hge.
  assert (submittime y <> submittime x); [|lia].
  intros Heq. apply Hx. rewrite <- Heq. apply list_elem_of_fmap. eauto.
Qed.

Lemma selectByMonth_inv ym d rs :
  selectByMonth ym d = Some rs ->
  hasObj KTable "reports" d = true
  /\ rs = orderBySubmittimeDesc (List.filter (inPartition ym) (reportsOf d)).
Proof.
  unfold selectByMonth, reportsOf. intros H.
  destruct (hasObj KTable "reports" d); [|done]. by inversion H.
Qed.

End EngineFacts.

(* ===================================================================== *)
(** ** Running the adapter: what each function does to the world         *)
(* ===================================================================== *)

Module ProcFacts.
Import JS Engine Proc Partition Adapter Routes Server Spec View EngineFacts PartitionFacts.
Local Open Scope proc_scope.
Local Open Scope list_scope.

#[local] Arguments createTable : simpl never.
#[local] Arguments createIndex : simpl never.
#[local] Arguments insertReport : simpl never.
#[local] Arguments selectByMonth : simpl never.
#[local] Arguments hasObj : simpl never.
#[local] Arguments getMonthPartition : simpl never.

Lemma bind_Ok {A B} (m : M A) (k : A -> M B) w a w1 :
  m w = (Ok a, w1) -> bind m k w = k a w1.
Proof. intros H. unfold bind. by rewrite H. Qed.

Lemma bind_Throw {A B} (m : M A) (k : A -> M B) w e w1 :
  m w = (Throw e, w1) -> bind m k w = (Throw e, w1).
Proof. intros H. unfold bind. by rewrite H. Qed.

Lemma ensureSqliteTable_run f w d :
  files w !! f = Some d ->
  match sqliteBootstrap d with
  | Some d' =>
      exists evs, ensureSqliteTable f w
        = (Ok tt, setTrace (evs ++ trace w) (setFiles (<[f := d']> (files w)) w))
  | None => exists w', ensureSqliteTable f w = (Throw ErrSqlite, w')
  end.
Proof.
  intros Hf.
  unfold sqliteBootstrap, ensureSqliteTable, sqliteWrite, sqliteRead, bind, emit, ret.
  cbn. rewrite Hf.
  destruct (createTable true "reports" d) as [d1|] eqn:E1; cbn; [|eauto].
  rewrite lookup_insert_eq.
  destruct (hasObj KIndex "idx_month_partition" d1) eqn:E2; cbn.
  - by exists [EvSqliteStmt f SqlCheckIndex; EvSqliteStmt f SqlCreateTable].
  - rewrite lookup_insert_eq.
    destruct (createIndex _ _ d1) as [d2|] eqn:E3; cbn; [|eauto].
    exists [EvSqliteStmt f SqlCreateIndex; EvSqliteStmt f SqlCheckIndex;
            EvSqliteStmt f SqlCreateTable].
    unfold setFiles, setTrace. cbn. by rewrite insert_insert_eq.
Qed.

#[local] Arguments ensureSqliteTable : simpl never.

Lemma getSqliteDatabase_unsafe p w :
  pathSafe (dbFileName p) = false ->
  exists w', getSqliteDatabase p w = (Throw ErrSqlite, w').
Proof.
  intros Hs. unfold getSqliteDatabase, fsExistsSync, fsMkdirSync, newDatabase, bind, emit, ret.
  destruct w as [ctx g dir fs on pg clk tr]. destruct dir; cbn; rewrite Hs; cbn; eauto.
Qed.

Lemma getSqliteDatabase_run p w :
  pathSafe (dbFileName p) = true ->
  match sqliteBootstrap (default emptyDb (files w !! dbFileName p)) with
  | Some d' =>
      exists evs, getSqliteDatabase p w
        = (Ok (dbFileName p),
           setTrace (evs ++ trace w)
             (setDir true (setFiles (<[dbFileName p := d']> (files w)) w)))
  | None => exists w', getSqliteDatabase p w = (Throw ErrSqlite, w')
  end.
Proof.
  intros Hs. set (f := dbFileName p) in *.
  destruct w as [ctx g dir fs on pg clk tr]. cbn [files trace].
  unfold getSqliteDatabase. fold f.
  set (tr1 := if dir then EvSqliteOpen f :: EvFsExists :: tr
              else EvSqliteOpen f :: EvFsMkdir :: EvFsExists :: tr).
  set (d0 := default emptyDb (fs !! f)).
  set (w1 := mkWorld ctx g true (<[f := d0]> fs) on pg clk tr1).
  assert (Hopen : forall B (k : string -> M B),
    (dirThere <- fsExistsSync ;;
     (if negb dirThere then fsMkdirSync else ret tt) ;;;
     db <- newDatabase f ;; k db) (mkWorld ctx g dir fs on pg clk tr) = k f w1).
  { intros B k. unfold fsExistsSync, fsMkdirSync, newDatabase, bind, emit, ret.
    unfold w1, tr1, d0. destruct dir; cbn; rewrite Hs; cbn;
      destruct (fs !! f) as [d|] eqn:Ef; cbn; try reflexivity;
      by rewrite (insert_id fs f d). }
  rewrite Hopen.
  pose proof (ensureSqliteTable_run f w1 d0) as Hrun.
  unfold w1 at 1 in Hrun. cbn [files] in Hrun.
  rewrite lookup_insert_eq in Hrun. specialize (Hrun eq_refl).
  destruct (sqliteBootstrap d0) as [d'|].
  - destruct Hrun as [evs Hrun].
    rewrite (bind_Ok _ _ _ _ _ Hrun).
    exists (evs ++ if dir then [EvSqliteOpen f; EvFsExists]
                   else [EvSqliteOpen f; EvFsMkdir; EvFsExists]).
    unfold ret, setTrace, setDir, setFiles, w1, tr1. cbn.
    rewrite insert_insert_eq, <- app_assoc. by destruct dir.
  - destruct Hrun as [w' Hrun]. rewrite (bind_Throw _ _ _ _ _ Hrun). eauto.
Qed.

#[local] Arguments getSqliteDatabase : simpl never.

Lemma ensurePostgresTable_run w :
  match pgBootstrap (pgDb w) with
  | Some d' =>
      exists evs, ensurePostgresTable w
        = (Ok tt, setTrace (evs ++ trace w) (setPgDb d' w))
  | None => exists w', ensurePostgresTable w = (Throw ErrPgQuery, w')
  end.
Proof.
  unfold pgBootstrap, ensurePostgresTable, tryCatch, clientQueryRead, clientQueryWrite,
    consoleError, throw, bind, emit, ret.
  destruct w as [ctx g dir fs on pg clk tr]. cbn.
  destruct (hasObj KTable "reports" pg) eqn:Et; cbn.
  - by exists [EvPgQuery SqlCheckTable].
  - destruct (createTable false "reports" pg) as [d1|] eqn:E1; cbn; [|eauto].
    destruct (createIndex "reports_month_partition_idx" "reports" d1)
      as [d2|] eqn:E2; cbn; [|eauto].
    by exists [EvPgQuery SqlCreateIndex; EvPgQuery SqlCreateTable; EvPgQuery SqlCheckTable].
Qed.

#[local] Arguments ensurePostgresTable : simpl never.

(** *** addReport *)

Ltac use_run lem Hrun :=
  match goal with
  | |- context [Adapter.ensurePostgresTable ?W] =>
      pose proof (lem W) as Hrun; cbn in Hrun
  | |- context [Adapter.getSqliteDatabase ?P ?W] =>
      pose proof (lem P W) as Hrun; cbn in Hrun
  end.

Section AddReport.
Variable LocalTZA : Z -> Z.
Variable data : ReportData.

Lemma addReport_noGlobal w :
  globalSet w = false -> addReport LocalTZA data w = (Throw ErrTypeError, w).
Proof.
  intros H. unfold addReport, Date_now, getDbType, bind. cbn. by rewrite H.
Qed.

Lemma addReport_pg_offline w :
  globalSet w = true -> usesPostgres w = true -> pgOnline w = false ->
  exists w', addReport LocalTZA data w = (Throw ErrPgConnect, w').
Proof.
  unfold usesPostgres. destruct w as [ctx g dir fs on pg clk tr]. cbn.
  intros -> Hp ->.
  unfold addReport, Date_now, getDbType, poolConnect, bind, emit. cbn.
  rewrite Hp. cbn. eauto.
Qed.

Lemma addReport_pg_run w :
  globalSet w = true -> usesPostgres w = true -> pgOnline w = true ->
  match pgBootstrap (pgDb w) with
  | None => exists w', addReport LocalTZA data w = (Throw ErrPgQuery, w')
  | Some d1 =>
      match insertReport pgCheck
              (mkValues (parseInt (d_class data)) (JBool (Boolean (d_isadd data)))
                        (parseInt (d_changescore data)) (clock w)
                        (d_note data) (d_submitter data)
                        (getMonthPartition LocalTZA (clock w))) d1 with
      | None => exists w', addReport LocalTZA data w = (Throw ErrPgQuery, w')
      | Some (newId, d2) =>
          exists evs, addReport LocalTZA data w
            = (Ok (mkResult newId (getMonthPartition LocalTZA (clock w)) (clock w)),
               setTrace (evs ++ trace w) (setPgDb d2 w))
      end
  end.
Proof.
  unfold usesPostgres. destruct w as [ctx g dir fs on pg clk tr]. cbn.
  intros -> Hp ->.
  destruct (pgBootstrap pg) as [d1|] eqn:Eb;
    [destruct (insertReport pgCheck _ d1) as [[newId d2]|] eqn:Ei|];
    unfold addReport, Date_now, getDbType, poolConnect, tryFinally, clientRelease,
      clientQueryWrite, bind, emit, ret; cbn; rewrite Hp; cbn;
    use_run ensurePostgresTable_run Hrun; rewrite Eb in Hrun;
    destruct Hrun as [x Hrun]; rewrite Hrun; cbn; rewrite ?Ei; cbn; [|eauto..].
  exists (EvPgRelease :: EvPgQuery SqlInsert :: x ++ [EvPgConnect]).
  cbn. by rewrite <- app_assoc.
Qed.

Lemma addReport_sqlite_run w :
  globalSet w = true -> usesPostgres w = false ->
  match sqliteBootstrap
          (default emptyDb
             (files w !! dbFileName (getMonthPartition LocalTZA (clock w)))) with
  | None => exists w', addReport LocalTZA data w = (Throw ErrSqlite, w')
  | Some d1 =>
      match insertReport sqliteCheck
              (mkValues (parseInt (d_class data))
                        (JNum (Int (if Boolean (d_isadd data) then 1 else 0)))
                        (parseInt (d_changescore data)) (clock w)
                        (d_note data) (d_submitter data)
                        (getMonthPartition LocalTZA (clock w))) d1 with
      | None => exists w', addReport LocalTZA data w = (Throw ErrSqlite, w')
      | Some (newId, d2) =>
          exists evs, addReport LocalTZA data w
            = (Ok (mkResult newId (getMonthPartition LocalTZA (clock w)) (clock w)),
               setTrace (evs ++ trace w)
                 (setDir true
                    (setFiles
                       (<[dbFileName (getMonthPartition LocalTZA (clock w)) := d2]>
                          (files w)) w)))
      end
  end.
Proof.
  unfold usesPostgres. destruct w as [ctx g dir fs on pg clk tr]. cbn.
  intros -> Hp.
  pose proof (dbFileName_pathSafe _ (getMonthPartition_pathSafe LocalTZA clk)) as Hs.
  destruct (sqliteBootstrap _) as [d1|] eqn:Eb;
    [destruct (insertReport sqliteCheck _ d1) as [[newId d2]|] eqn:Ei|];
    unfold addReport, Date_now, getDbType, tryFinally, sqliteClose,
      sqliteWrite, bind, emit, ret; cbn; rewrite Hp; cbn;
    use_run getSqliteDatabase_run Hrun; specialize (Hrun Hs); rewrite Eb in Hrun;
    destruct Hrun as [x Hrun]; rewrite Hrun; cbn; [| |eauto];
    rewrite lookup_insert_eq, Ei; cbn; [|eauto].
  exists (EvSqliteClose (dbFileName (getMonthPartition LocalTZA clk))
          :: EvSqliteStmt (dbFileName (getMonthPartition LocalTZA clk)) SqlInsert :: x).
  unfold setFiles. cbn. by rewrite insert_insert_eq.
Qed.

End AddReport.

(** *** getReportsByMonth *)

Lemma getReportsByMonth_noGlobal ym w :
  globalSet w = false -> getReportsByMonth ym w = (Throw ErrTypeError, w).
Proof. intros H. unfold getReportsByMonth, getDbType, bind. by rewrite H. Qed.

Lemma getReportsByMonth_pg_offline ym w :
  globalSet w = true -> usesPostgres w = true -> pgOnline w = false ->
  exists w', getReportsByMonth ym w = (Throw ErrPgConnect, w').
Proof.
  unfold usesPostgres. destruct w as [ctx g dir fs on pg clk tr]. cbn.
  intros -> Hp ->.
  unfold getReportsByMonth, getDbType, poolConnect, bind, emit. cbn.
  rewrite Hp. cbn. eauto.
Qed.

Lemma getReportsByMonth_pg_run ym w :
  globalSet w = true -> usesPostgres w = true -> pgOnline w = true ->
  match pgBootstrap (pgDb w) with
  | None => exists w', getReportsByMonth ym w = (Throw ErrPgQuery, w')
  | Some d1 =>
      exists evs, getReportsByMonth ym w
        = (Ok (orderBySubmittimeDesc (List.filter (inPartition ym) (reportsOf d1))),
           setTrace (evs ++ trace w) (setPgDb d1 w))
  end.
Proof.
  unfold usesPostgres. destruct w as [ctx g dir fs on pg clk tr]. cbn.
  intros -> Hp ->.
  destruct (pgBootstrap pg) as [d1|] eqn:Eb;
    unfold getReportsByMonth, getDbType, poolConnect, tryFinally, clientRelease,
      clientQueryRead, bind, emit, ret; cbn; rewrite Hp; cbn;
    use_run ensurePostgresTable_run Hrun; rewrite Eb in Hrun;
    destruct Hrun as [x Hrun]; rewrite Hrun; cbn; [|eauto].
  apply pgBootstrap_spec in Eb as (Ht & _).
  unfold selectByMonth, reportsOf. rewrite Ht. cbn.
  exists (EvPgRelease :: EvPgQuery SqlSelect :: x ++ [EvPgConnect]).
  cbn. by rewrite <- app_assoc.
Qed.

Lemma getReportsByMonth_sqlite_unsafe ym w :
  globalSet w = true -> usesPostgres w = false -> pathSafe ym = false ->
  exists w', getReportsByMonth ym w = (Throw ErrSqlite, w').
Proof.
  unfold usesPostgres. intros Hg Hp Hs.
  unfold getReportsByMonth, getDbType, bind.
  rewrite Hg. cbn. rewrite Hp. cbn.
  destruct (getSqliteDatabase_unsafe ym w) as [w' Hrun].
  { unfold dbFileName. rewrite !pathSafe_app, Hs. apply andb_false_r. }
  rewrite Hrun. eauto.
Qed.

Lemma getReportsByMonth_sqlite_run ym w :
  globalSet w = true -> usesPostgres w = false -> pathSafe ym = true ->
  match sqliteBootstrap (default emptyDb (files w !! dbFileName ym)) with
  | None => exists w', getReportsByMonth ym w = (Throw ErrSqlite, w')
  | Some d1 =>
      exists evs, getReportsByMonth ym w
        = (Ok (orderBySubmittimeDesc (List.filter (inPartition ym) (reportsOf d1))),
           setTrace (evs ++ trace w)
             (setDir true (setFiles (<[dbFileName ym := d1]> (files w)) w)))
  end.
Proof.
  unfold usesPostgres. destruct w as [ctx g dir fs on pg clk tr]. cbn.
  intros -> Hp Hs. apply dbFileName_pathSafe in Hs.
  destruct (sqliteBootstrap _) as [d1|] eqn:Eb;
    unfold getReportsByMonth, getDbType, tryFinally, sqliteClose,
      sqliteRead, bind, emit, ret; cbn; rewrite Hp; cbn;
    use_run getSqliteDatabase_run Hrun; specialize (Hrun Hs); rewrite Eb in Hrun;
    destruct Hrun as [x Hrun]; rewrite Hrun; cbn; [|eauto].
  apply sqliteBootstrap_spec in Eb as (Ht & _).
  rewrite lookup_insert_eq. cbn. rewrite Ht. cbn. rewrite lookup_insert_eq.
  unfold selectByMonth, reportsOf. rewrite Ht. cbn.
  exists (EvSqliteClose (dbFileName ym) :: EvSqliteStmt (dbFileName ym) SqlSelect
          :: EvSqliteStmt (dbFileName ym) SqlCheckTable :: x).
  reflexivity.
Qed.

Lemma ensureSqliteTable_nofile f w :
  files w !! f = None -> exists w', ensureSqliteTable f w = (Throw ErrSqlite, w').
Proof.
  intros Hf. unfold ensureSqliteTable, sqliteWrite, bind, emit. cbn.
  rewrite Hf. eauto.
Qed.

Lemma fileReports_default f w :
  fileReports f w = reportsOf (default emptyDb (files w !! f)).
Proof. unfold fileReports. by destruct (files w !! f). Qed.

End ProcFacts.

(* ===================================================================== *)
(** ** The partition invariant holds along every path                     *)
(* ===================================================================== *)

Module Invariant.
Import JS Engine Proc Partition Adapter Routes Server Spec View EngineFacts.
Local Open Scope proc_scope.
Local Open Scope list_scope.

Section Rules.
Context {P : World -> Prop}.

Lemma preserves_ret {A} (a : A) : preserves P (ret a).
Proof. intros w r w' H Hw. by inversion H; subst. Qed.

Lemma preserves_throw {A} e : preserves P (@throw A e).
Proof. intros w r w' H Hw. by inversion H; subst. Qed.

Lemma preserves_exit {A} c : preserves P (@processExit A c).
Proof. intros w r w' H Hw. by inversion H; subst. Qed.

Lemma preserves_bind {A B} (m : M A) (k : A -> M B) :
  preserves P m -> (forall a, preserves P (k a)) -> preserves P (bind m k).
Proof.
  intros Hm Hk w r w' H Hw. unfold bind in H.
  destruct (m w) as [[a | e | c] w1] eqn:E.
  - eapply Hk; [exact H|]. eapply Hm; eauto.
  - inversion H; subst. eapply Hm; eauto.
  - inversion H; subst. eapply Hm; eauto.
Qed.

Lemma preserves_tryCatch {A} (body : M A) handler :
  preserves P body -> (forall e, preserves P (handler e)) ->
  preserves P (tryCatch body handler).
Proof.
  intros Hb Hh w r w' H Hw. unfold tryCatch in H.
  destruct (body w) as [[a | e | c] w1] eqn:E.
  - inversion H; subst. eapply Hb; eauto.
  - eapply Hh; [exact H|]. eapply Hb; eauto.
  - inversion H; subst. eapply Hb; eauto.
Qed.

Lemma preserves_tryFinally {A} (body : M A) fin :
  preserves P body -> preserves P fin -> preserves P (tryFinally body fin).
Proof.
  intros Hb Hf w r w' H Hw. unfold tryFinally in H.
  destruct (body w) as [[a | e | c] w1] eqn:E.
  1,2: destruct (fin w1) as [[[] | e' | c'] w2] eqn:E';
       inversion H; subst; eapply Hf; eauto; eapply Hb; eauto.
  inversion H; subst. eapply Hb; eauto.
Qed.

Lemma preserves_if {A} (b : bool) (m1 m2 : M A) :
  preserves P m1 -> preserves P m2 -> preserves P (if b then m1 else m2).
Proof. by destruct b. Qed.

End Rules.

(** *** One proof for every per-database invariant

    [Qpg] and [Qsq] are kept by the statements the adapter issues; then
    every function of the adapter keeps them on the whole store. *)
Section PerDatabase.
Variable LocalTZA : Z -> Z.
Variables Qpg Qsq : Db -> Prop.

Hypothesis Qsq_empty : Qsq emptyDb.
Hypothesis Qsq_createTable : forall d d',
  createTable true "reports" d = Some d' -> Qsq d -> Qsq d'.
Hypothesis Qsq_createIndex : forall d d',
  createIndex "idx_month_partition" "reports" d = Some d' -> Qsq d -> Qsq d'.
Hypothesis Qsq_insert : forall v d newId d',
  v_month_partition v = getMonthPartition LocalTZA (v_submittime v) ->
  insertReport sqliteCheck v d = Some (newId, d') -> Qsq d -> Qsq d'.
Hypothesis Qpg_createTable : forall d d',
  createTable false "reports" d = Some d' -> Qpg d -> Qpg d'.
Hypothesis Qpg_createIndex : forall d d',
  createIndex "reports_month_partition_idx" "reports" d = Some d' -> Qpg d -> Qpg d'.
Hypothesis Qpg_insert : forall v d newId d',
  v_month_partition v = getMonthPartition LocalTZA (v_submittime v) ->
  insertReport pgCheck v d = Some (newId, d') -> Qpg d -> Qpg d'.

(** Steps that touch no database. *)
Lemma preserves_same_dbs {A} (m : M A) :
  (forall w r w', m w = (r, w') -> files w' = files w /\ pgDb w' = pgDb w) ->
  preserves (storeAll Qpg Qsq) m.
Proof.
  intros Hm w r w' H [Hpg Hfs]. destruct (Hm _ _ _ H) as [Ef Ep].
  split; [by rewrite Ep | by rewrite Ef].
Qed.

Lemma preserves_emit e : preserves (storeAll Qpg Qsq) (emit e).
Proof. apply preserves_same_dbs. intros w r w' H. by inversion H. Qed.

Lemma preserves_Date_now : preserves (storeAll Qpg Qsq) Date_now.
Proof. apply preserves_same_dbs. intros w r w' H. by inversion H. Qed.

Lemma preserves_getDbType : preserves (storeAll Qpg Qsq) getDbType.
Proof.
  apply preserves_same_dbs. intros w r w' H. unfold getDbType in H.
  destruct (globalSet w); by inversion H.
Qed.

Lemma preserves_poolConnect : preserves (storeAll Qpg Qsq) poolConnect.
Proof.
  apply preserves_same_dbs. intros w r w' H. unfold poolConnect, bind, emit in H.
  cbn in H. destruct (pgOnline w); by inversion H.
Qed.

Lemma preserves_fsExistsSync : preserves (storeAll Qpg Qsq) fsExistsSync.
Proof. apply preserves_same_dbs. intros w r w' H. by inversion H. Qed.

Lemma preserves_fsMkdirSync : preserves (storeAll Qpg Qsq) fsMkdirSync.
Proof. apply preserves_same_dbs. intros w r w' H. by inversion H. Qed.

Lemma preserves_clientQueryRead {A} s (q : Db -> option A) :
  preserves (storeAll Qpg Qsq) (clientQueryRead s q).
Proof.
  apply preserves_same_dbs. intros w r w' H. unfold clientQueryRead, bind, emit in H.
  cbn in H. destruct (q (pgDb w)); by inversion H.
Qed.

Lemma preserves_sqliteRead {A} db s (q : Db -> option A) :
  preserves (storeAll Qpg Qsq) (sqliteRead db s q).
Proof.
  apply preserves_same_dbs. intros w r w' H. unfold sqliteRead, bind, emit in H.
  cbn in H. destruct (files w !! db) as [d|]; [destruct (q d)|]; by inversion H.
Qed.

Lemma preserves_newDatabase f : preserves (storeAll Qpg Qsq) (newDatabase f).
Proof.
  intros w r w' H [Hpg Hfs]. unfold newDatabase, bind, emit in H. cbn in H.
  destruct (negb (dirExists w) || negb (pathSafe f)); [by inversion H; subst|].
  destruct (files w !! f) as [d|] eqn:Ef; inversion H; subst; [done|].
  split; [done|]. cbn. intros g d Hg.
  destruct (decide (f = g)) as [<- | Hne].
  - rewrite lookup_insert_eq in Hg. by inversion Hg; subst.
  - rewrite lookup_insert_ne in Hg by done. eauto.
Qed.

(** Statements that write keep the invariant when they keep it on the
    database they run on. *)
Lemma preserves_clientQueryWrite {A} s (q : Db -> option (A * Db)) :
  (forall d a d', q d = Some (a, d') -> Qpg d -> Qpg d') ->
  preserves (storeAll Qpg Qsq) (clientQueryWrite s q).
Proof.
  intros Hq w r w' H [Hpg Hfs]. unfold clientQueryWrite, bind, emit in H. cbn in H.
  destruct (q (pgDb w)) as [[a d']|] eqn:E; inversion H; subst; [|done].
  split; [eapply Hq; eauto | done].
Qed.

Lemma preserves_sqliteWrite {A} db s (q : Db -> option (A * Db)) :
  (forall d a d', q d = Some (a, d') -> Qsq d -> Qsq d') ->
  preserves (storeAll Qpg Qsq) (sqliteWrite db s q).
Proof.
  intros Hq w r w' H [Hpg Hfs]. unfold sqliteWrite, bind, emit in H. cbn in H.
  destruct (files w !! db) as [d|] eqn:Ef; [|by inversion H; subst].
  destruct (q d) as [[a d']|] eqn:E; inversion H; subst; [|done].
  split; [done|]. cbn. intros g d0 Hg.
  destruct (decide (db = g)) as [<- | Hne].
  - rewrite lookup_insert_eq in Hg. inversion Hg; subst. eapply Hq; eauto.
  - rewrite lookup_insert_ne in Hg by done. eauto.
Qed.

Ltac keep_step :=
  lazymatch goal with
  | |- preserves _ (bind _ _) => apply preserves_bind; [|intros ?]
  | |- preserves _ (tryCatch _ _) => apply preserves_tryCatch; [|intros ?]
  | |- preserves _ (tryFinally _ _) => apply preserves_tryFinally
  | |- preserves _ (if _ then _ else _) => apply preserves_if
  | |- preserves _ (ret _) => apply preserves_ret
  | |- preserves _ (throw _) => apply preserves_throw
  | |- preserves _ (processExit _) => apply preserves_exit
  | |- preserves _ (emit _) => apply preserves_emit
  | |- preserves _ Date_now => apply preserves_Date_now
  | |- preserves _ getDbType => apply preserves_getDbType
  | |- preserves _ poolConnect => apply preserves_poolConnect
  | |- preserves _ fsExistsSync => apply preserves_fsExistsSync
  | |- preserves _ fsMkdirSync => apply preserves_fsMkdirSync
  | |- preserves _ (clientQueryRead _ _) => apply preserves_clientQueryRead
  | |- preserves _ (sqliteRead _ _ _) => apply preserves_sqliteRead
  | |- preserves _ (newDatabase _) => apply preserves_newDatabase
  end.

Ltac keep := repeat keep_step.

Lemma preserves_ensureSqliteTable db :
  preserves (storeAll Qpg Qsq) (ensureSqliteTable db).
Proof.
  unfold ensureSqliteTable. keep.
  - apply preserves_sqliteWrite. intros d [] d' H.
    destruct (createTable true "reports" d) as [d1|] eqn:E; inversion H; subst.
    by apply Qsq_createTable.
  - apply preserves_sqliteWrite. intros d [] d' H.
    destruct (createIndex "idx_month_partition" "reports" d) as [d1|] eqn:E;
      inversion H; subst.
    by apply Qsq_createIndex.
Qed.

Lemma preserves_getSqliteDatabase p :
  preserves (storeAll Qpg Qsq) (getSqliteDatabase p).
Proof. unfold getSqliteDatabase. keep. apply preserves_ensureSqliteTable. Qed.

Lemma preserves_ensurePostgresTable :
  preserves (storeAll Qpg Qsq) ensurePostgresTable.
Proof.
  unfold ensurePostgresTable, consoleError. keep.
  - apply preserves_clientQueryWrite. intros d [] d' H.
    destruct (createTable false "reports" d) as [d1|] eqn:E; inversion H; subst.
    by apply Qpg_createTable.
  - apply preserves_clientQueryWrite. intros d [] d' H.
    destruct (createIndex "reports_month_partition_idx" "reports" d) as [d1|] eqn:E;
      inversion H; subst.
    by apply Qpg_createIndex.
Qed.

Lemma preserves_addReport data :
  preserves (storeAll Qpg Qsq) (addReport LocalTZA data).
Proof.
  unfold addReport, clientRelease, sqliteClose. keep.
  - apply preserves_ensurePostgresTable.
  - apply preserves_clientQueryWrite. intros d newId d' H.
    by eapply Qpg_insert; [|exact H].
  - apply preserves_getSqliteDatabase.
  - apply preserves_sqliteWrite. intros d newId d' H.
    by eapply Qsq_insert; [|exact H].
Qed.

Lemma preserves_getReportsByMonth ym :
  preserves (storeAll Qpg Qsq) (getReportsByMonth ym).
Proof.
  unfold getReportsByMonth, clientRelease, sqliteClose. keep.
  - apply preserves_ensurePostgresTable.
  - apply preserves_getSqliteDatabase.
Qed.

Lemma preserves_postInputdata req :
  preserves (storeAll Qpg Qsq) (postInputdata LocalTZA req).
Proof.
  unfold postInputdata, consoleError. destruct req as [body|]; keep.
  apply preserves_addReport.
Qed.

Lemma preserves_getReports ym : preserves (storeAll Qpg Qsq) (getReports ym).
Proof. unfold getReports, consoleError. keep. apply preserves_getReportsByMonth. Qed.

Lemma preserves_initDatabase env : preserves (storeAll Qpg Qsq) (initDatabase env).
Proof.
  unfold initDatabase, initPostgres, initSqlite, setReady, clientRelease, consoleError.
  keep; apply preserves_same_dbs; intros w r w' H; by inversion H.
Qed.

End PerDatabase.

(** *** Rows stay in the partition of their submit time *)

Section Consistency.
Variable LocalTZA : Z -> Z.

Lemma createTable_consistent b n d d' :
  createTable b n d = Some d' -> dbConsistent LocalTZA d -> dbConsistent LocalTZA d'.
Proof.
  intros H Hd. apply createTable_inv in H as [(_ & _ & ->) | (_ & ->)]; [done|].
  unfold dbConsistent, reportsOf. cbn [rows].
  destruct (hasObj KTable "reports" _); constructor.
Qed.

Lemma createIndex_consistent i d d' :
  createIndex i "reports" d = Some d' ->
  dbConsistent LocalTZA d -> dbConsistent LocalTZA d'.
Proof.
  intros H Hd. pose proof (createIndex_inv _ _ _ _ H) as (_ & Ht & _).
  pose proof (createIndex_keeps _ _ _ _ _ _ H Ht) as Ht'.
  unfold dbConsistent, reportsOf in *. rewrite Ht', (createIndex_rows _ _ _ _ H).
  by rewrite Ht in Hd.
Qed.

Lemma insertReport_consistent chk v d newId d' :
  v_month_partition v = getMonthPartition LocalTZA (v_submittime v) ->
  insertReport chk v d = Some (newId, d') ->
  dbConsistent LocalTZA d -> dbConsistent LocalTZA d'.
Proof.
  intros Hv H Hd.
  apply insertReport_reportsOf in H as (r & c & b & s & _ & -> & Hrows & _).
  unfold dbConsistent. rewrite Hrows. apply Forall_app. split; [done|].
  constructor; [exact Hv | constructor].
Qed.

(** Whatever a request does, and however it ends, every stored row still
    lies in the partition of its own submit time. *)
Theorem postInputdata_keeps_partition_invariant req :
  preserves (storeConsistent LocalTZA) (postInputdata LocalTZA req).
Proof.
  apply preserves_postInputdata;
    eauto using createTable_consistent, createIndex_consistent, insertReport_consistent.
  constructor.
Qed.

Theorem getReports_keeps_partition_invariant ym :
  preserves (storeConsistent LocalTZA) (getReports ym).
Proof.
  apply preserves_getReports;
    eauto using createTable_consistent, createIndex_consistent, insertReport_consistent.
  constructor.
Qed.

Theorem initDatabase_keeps_partition_invariant env :
  preserves (storeConsistent LocalTZA) (initDatabase env).
Proof. apply preserves_initDatabase. Qed.

End Consistency.

(** *** Catalogs stay bootstrappable *)

Lemma sqliteSchemaReady_createTable d d' :
  createTable true "reports" d = Some d' ->
  sqliteSchemaReady d = true -> sqliteSchemaReady d' = true.
Proof.
  intros H Hd. apply createTable_inv in H as [(_ & _ & ->) | (_ & ->)]; [done|].
  unfold sqliteSchemaReady in *. apply andb_true_iff in Hd as [_ Hi].
  rewrite !hasObj_snoc, !nameTaken_snoc, !hasObj_catalog, !nameTaken_catalog.
  cbn. rewrite !orb_false_r, orb_true_r. exact Hi.
Qed.

Lemma sqliteSchemaReady_createIndex d d' :
  createIndex "idx_month_partition" "reports" d = Some d' ->
  sqliteSchemaReady d = true -> sqliteSchemaReady d' = true.
Proof.
  intros H _. pose proof (createIndex_inv _ _ _ _ H) as (_ & Ht & _).
  pose proof (createIndex_keeps _ _ _ _ _ _ H Ht) as Ht'.
  pose proof (createIndex_hasIndex _ _ _ _ H) as Hi.
  unfold sqliteSchemaReady. by rewrite Ht', Hi.
Qed.

Lemma sqliteSchemaReady_insert chk v d newId d' :
  insertReport chk v d = Some (newId, d') ->
  sqliteSchemaReady d = true -> sqliteSchemaReady d' = true.
Proof. intros H Hd. by apply insertReport_inv in H as (_ & c & b & s & _ & _ & ->). Qed.

Lemma pgSchemaReady_createTable d d' :
  createTable false "reports" d = Some d' ->
  pgSchemaReady d = true -> pgSchemaReady d' = true.
Proof.
  intros H _. unfold pgSchemaReady. by rewrite (createTable_hasTable _ _ _ _ H).
Qed.

Lemma pgSchemaReady_createIndex d d' :
  createIndex "reports_month_partition_idx" "reports" d = Some d' ->
  pgSchemaReady d = true -> pgSchemaReady d' = true.
Proof.
  intros H _. pose proof (createIndex_inv _ _ _ _ H) as (_ & Ht & _).
  unfold pgSchemaReady. by rewrite (createIndex_keeps _ _ _ _ _ _ H Ht).
Qed.

Lemma pgSchemaReady_insert chk v d newId d' :
  insertReport chk v d = Some (newId, d') ->
  pgSchemaReady d = true -> pgSchemaReady d' = true.
Proof. intros H Hd. by apply insertReport_inv in H as (_ & c & b & s & _ & _ & ->). Qed.

(** Once every catalog is bootstrappable, it stays so through every
    request; the SQLite files always are, since the process creates them
    empty. *)
Theorem postInputdata_keeps_schemas_ready LocalTZA req :
  preserves schemasReady (postInputdata LocalTZA req).
Proof.
  apply preserves_postInputdata;
    eauto using sqliteSchemaReady_createTable, sqliteSchemaReady_createIndex, sqliteSchemaReady_insert,
      pgSchemaReady_createTable, pgSchemaReady_createIndex, pgSchemaReady_insert.
Qed.

Theorem getReports_keeps_schemas_ready ym : preserves schemasReady (getReports ym).
Proof.
  apply preserves_getReports;
    eauto using sqliteSchemaReady_createTable, sqliteSchemaReady_createIndex, sqliteSchemaReady_insert,
      pgSchemaReady_createTable, pgSchemaReady_createIndex, pgSchemaReady_insert.
Qed.

Theorem initDatabase_keeps_schemas_ready env : preserves schemasReady (initDatabase env).
Proof. apply preserves_initDatabase. Qed.

(** In such a world the engine is ready as soon as the context is set
    and the server answers (PostgreSQL) or the partition name is a plain
    file name (SQLite). *)
Lemma engineReady_when_schemas_ready ym w :
  schemasReady w ->
  engineReady ym w
  = globalSet w && if usesPostgres w then pgOnline w else pathSafe ym.
Proof.
  intros [Hpg Hfs]. unfold engineReady. f_equal.
  destruct (usesPostgres w).
  - cbn in Hpg. by rewrite Hpg, andb_true_r.
  - destruct (files w !! dbFileName ym) as [d|] eqn:E; [|by rewrite andb_true_r].
    by rewrite (Hfs _ _ E), andb_true_r.
Qed.

End Invariant.

(* ===================================================================== *)
(** ** The scenarios of the specification, run                            *)
(* ===================================================================== *)

Module Scenarios.
Import JS Engine Proc Partition Adapter Routes Server Spec View.

(** A report submitted in March 2024 (UTC+8), on either engine. *)
Example submit_march_2024_sqlite :
  fst (postInputdata utc8 (Some sampleBody) sqliteReady)
  = Ok (mkResponse 200 true (Submitted 1 "2024-03" 1710500000000)).
Proof. vm_compute. reflexivity. Qed.

Example submit_march_2024_postgres :
  fst (postInputdata utc8 (Some sampleBody) pgReady)
  = Ok (mkResponse 200 true (Submitted 1 "2024-03" 1710500000000)).
Proof. vm_compute. reflexivity. Qed.

(** A partition nobody has written to. *)
Example query_2099_01_sqlite :
  fst (getReports "2099-01" sqliteReady) = Ok (mkResponse 200 true (Reports [])).
Proof. vm_compute. reflexivity. Qed.

Example query_2099_01_postgres :
  fst (getReports "2099-01" pgReady) = Ok (mkResponse 200 true (Reports [])).
Proof. vm_compute. reflexivity. Qed.

(** A request without [note]. *)
Example submit_without_note :
  postInputdata utc8
    (Some (mkBody (JNum (Int 3)) (JBool true) (JNum (Int 5)) JUndefined
                  (JStr "teacherA")))
    sqliteReady
  = (Ok (mkResponse 400 false MissingFields), sqliteReady).
Proof. reflexivity. Qed.

(** A request without a parsed body. *)
Example submit_without_body :
  postInputdata utc8 None sqliteReady
  = (Ok (mkResponse 500 false ServerError),
     setTrace (EvConsoleError :: trace sqliteReady) sqliteReady).
Proof. reflexivity. Qed.

(** Before [initDatabase] has run the adapter cannot be used. *)
Example submit_before_init :
  fst (postInputdata utc8 (Some sampleBody) freshOffline)
  = Ok (mkResponse 500 false ServerError).
Proof. vm_compute. reflexivity. Qed.

(** The month changes at local midnight, not at UTC midnight. *)
Example month_boundary :
  getMonthPartition utc 1709251199999 = "2024-02"
  /\ getMonthPartition utc8 1709251199999 = "2024-03"
  /\ getMonthPartition utc 1709251200000 = "2024-03".
Proof. vm_compute. repeat split. Qed.

(** [parseInt] on what a form may send. *)
Example parseInt_samples :
  parseInt (JStr "42") = Int 42
  /\ parseInt (JStr "  -7px") = Int (-7)
  /\ parseInt (JStr "0x1f") = Int 31
  /\ parseInt (JStr "abc") = NaN
  /\ parseInt (JBool true) = NaN.
Proof. vm_compute. repeat split. Qed.

End Scenarios.

(* ===================================================================== *)
(** ** The two routes, end to end                                         *)
(* ===================================================================== *)

Module RouteFacts.
Import JS DateModel Partition Engine Proc Adapter Routes Server Spec View.
Import PartitionFacts EngineFacts ProcFacts.
Local Open Scope proc_scope.
Local Open Scope list_scope.

(** *** POST /inputdata *)

Lemma postInputdata_missing tz body w :
  missingField body = true ->
  postInputdata tz (Some body) w = (Ok (mkResponse 400 false MissingFields), w).
Proof. intros H. unfold postInputdata, tryCatch. by rewrite H. Qed.

(** Without a parsed body the destructuring throws inside [try]. *)
Lemma postInputdata_no_body tz w :
  postInputdata tz None w
  = (Ok (mkResponse 500 false ServerError), setTrace (EvConsoleError :: trace w) w).
Proof. by destruct w. Qed.

Lemma postInputdata_added tz body w res w' :
  missingField body = false ->
  addReport tz (mkData (b_class body) (b_isadd body) (b_changescore body)
                       (b_note body) (b_submitter body)) w = (Ok res, w') ->
  postInputdata tz (Some body) w
  = (Ok (mkResponse 200 true
           (Submitted (res_id res) (res_database res) (res_submittime res))), w').
Proof.
  intros Hm Hrun. unfold postInputdata, tryCatch. rewrite Hm.
  by rewrite (bind_Ok _ _ _ _ _ Hrun).
Qed.

(** A request that passes the presence test, carries values the active
    engine accepts and meets an engine that is ready is stored: the row
    holds the parsed integers, the normalised [isadd], the clock value
    and the partition derived from it. *)
Lemma submit_succeeds tz body w :
  missingField body = false ->
  valuesAccepted body w = true ->
  engineReady (getMonthPartition tz (clock w)) w = true ->
  exists newId w' c s,
    parseInt (b_class body) = Int c
    /\ parseInt (b_changescore body) = Int s
    /\ addReport tz (mkData (b_class body) (b_isadd body) (b_changescore body)
                            (b_note body) (b_submitter body)) w
       = (Ok (mkResult newId (getMonthPartition tz (clock w)) (clock w)), w')
    /\ targetRows (getMonthPartition tz (clock w)) w'
       = targetRows (getMonthPartition tz (clock w)) w
         ++ [mkRow newId c
               (if usesPostgres w then CBool (Boolean (b_isadd body))
                else CInt (if Boolean (b_isadd body) then 1 else 0))
               s (clock w) (b_note body) (b_submitter body)
               (getMonthPartition tz (clock w))].
Proof.
  intros Hm Hv Hr.
  unfold missingField in Hm.
  apply orb_false_iff in Hm as [Hm Hsub]. apply orb_false_iff in Hm as [Hm Hnote].
  apply orb_false_iff in Hm as [Hm Hchg]. apply orb_false_iff in Hm as [Hcls Hadd].
  apply negb_false_iff in Hsub, Hnote, Hchg, Hcls.
  unfold valuesAccepted in Hv.
  destruct (parseInt (b_class body)) as [|c] eqn:Ec; [done|].
  destruct (parseInt (b_changescore body)) as [|s] eqn:Es; [done|].
  unfold engineReady in Hr. apply andb_true_iff in Hr as [Hg Hr].
  set (p := getMonthPartition tz (clock w)) in *.
  set (data := mkData _ _ _ _ _).
  destruct (usesPostgres w) eqn:Hp.
  - apply andb_true_iff in Hr as [Hon Hready].
    rewrite !andb_true_iff in Hv. destruct Hv as [[[Hc32 Hs32] Hnt] Hsb].
    pose proof (addReport_pg_run tz data w Hg Hp Hon) as H.
    destruct (pgBootstrap_ready _ Hready) as [d1 Eb]. rewrite Eb in H.
    pose proof (pgBootstrap_spec _ _ Eb) as (Ht & Hsame & _).
    cbn [d_class d_isadd d_changescore d_note d_submitter data] in H.
    rewrite Ec, Es in H. fold p in H.
    match type of H with context [insertReport ?chk ?v ?d] =>
      destruct (insertReport_accepts chk v d c (CBool (Boolean (b_isadd body))) s Ht)
        as (d2 & Ei & Hrows); [by apply pgCheck_accepts|]
    end.
    rewrite Ei in H. destruct H as [evs H].
    eexists _, _, c, s. repeat split; [exact H|].
    unfold targetRows, usesPostgres in *. cbn. rewrite Hp.
    by rewrite Hrows, Hsame.
  - apply andb_true_iff in Hr as [_ Hready].
    apply andb_true_iff in Hv as [Hbn Hbs].
    pose proof (addReport_sqlite_run tz data w Hg Hp) as H. fold p in H.
    destruct (sqliteBootstrap_ready (default emptyDb (files w !! dbFileName p)))
      as [d1 Eb].
    { by destruct (files w !! dbFileName p). }
    rewrite Eb in H.
    pose proof (sqliteBootstrap_spec _ _ Eb) as (Ht & _ & Hsame & _).
    cbn [d_class d_isadd d_changescore d_note d_submitter data] in H.
    rewrite Ec, Es in H.
    match type of H with context [insertReport ?chk ?v ?d] =>
      destruct (insertReport_accepts chk v d c
                  (CInt (if Boolean (b_isadd body) then 1 else 0)) s Ht)
        as (d2 & Ei & Hrows); [by apply sqliteCheck_accepts|]
    end.
    rewrite Ei in H. destruct H as [evs H].
    eexists _, _, c, s. repeat split; [exact H|].
    unfold targetRows, usesPostgres in *. cbn. rewrite Hp.
    rewrite (fileReports_default _ w), <- Hsame.
    unfold fileReports. cbn. by rewrite lookup_insert_eq, Hrows.
Qed.

(** *** GET /reports/:yearMonth *)

Lemma getReports_found ym w rs w' :
  getReportsByMonth ym w = (Ok rs, w') ->
  getReports ym w = (Ok (mkResponse 200 true (Reports rs)), w').
Proof.
  intros H. unfold getReports, tryCatch. by rewrite (bind_Ok _ _ _ _ _ H).
Qed.

(** Whatever a successful query returns is the partition's rows, put in
    order. *)
Lemma getReportsByMonth_result ym w rs w' :
  getReportsByMonth ym w = (Ok rs, w') ->
  rs = orderBySubmittimeDesc (partitionRows ym w).
Proof.
  intros Hrun.
  destruct (globalSet w) eqn:Hg;
    [|rewrite getReportsByMonth_noGlobal in Hrun by done; discriminate].
  unfold partitionRows.
  destruct (usesPostgres w) eqn:Hp.
  - destruct (pgOnline w) eqn:Hon.
    2: { destruct (getReportsByMonth_pg_offline ym w Hg Hp Hon) as [? H]. congruence. }
    pose proof (getReportsByMonth_pg_run ym w Hg Hp Hon) as H.
    destruct (pgBootstrap (pgDb w)) as [d1|] eqn:Eb;
      [|destruct H as [? H]; congruence].
    destruct H as [evs H]. rewrite H in Hrun. inversion Hrun; subst.
    apply pgBootstrap_spec in Eb as (_ & -> & _). reflexivity.
  - destruct (pathSafe ym) eqn:Hs.
    2: { destruct (getReportsByMonth_sqlite_unsafe ym w Hg Hp Hs) as [? H]. congruence. }
    pose proof (getReportsByMonth_sqlite_run ym w Hg Hp Hs) as H.
    destruct (sqliteBootstrap _) as [d1|] eqn:Eb;
      [|destruct H as [? H]; congruence].
    destruct H as [evs H]. rewrite H in Hrun. inversion Hrun; subst.
    apply sqliteBootstrap_spec in Eb as (_ & _ & -> & _).
    by rewrite fileReports_default.
Qed.

(** A ready engine answers the query, and the query adds no row. *)
Lemma getReportsByMonth_ready ym w :
  engineReady ym w = true ->
  exists w',
    getReportsByMonth ym w = (Ok (orderBySubmittimeDesc (partitionRows ym w)), w')
    /\ usesPostgres w' = usesPostgres w
    /\ targetRows ym w' = targetRows ym w
    /\ (if usesPostgres w then hasObj KTable "reports" (pgDb w') = true
        else exists d, files w' !! dbFileName ym = Some d
                       /\ hasObj KTable "reports" d = true
                       /\ hasObj KIndex "idx_month_partition" d = true).
Proof.
  intros Hr. unfold engineReady in Hr. apply andb_true_iff in Hr as [Hg Hr].
  unfold partitionRows, targetRows.
  destruct (usesPostgres w) eqn:Hp.
  - apply andb_true_iff in Hr as [Hon Hready].
    pose proof (getReportsByMonth_pg_run ym w Hg Hp Hon) as H.
    destruct (pgBootstrap_ready _ Hready) as [d1 Eb]. rewrite Eb in H.
    apply pgBootstrap_spec in Eb as (Ht & Hsame & _).
    destruct H as [evs H]. rewrite Hsame in H.
    eexists. split; [exact H|]. unfold usesPostgres in *. cbn. by rewrite Hp.
  - apply andb_true_iff in Hr as [Hs Hready].
    pose proof (getReportsByMonth_sqlite_run ym w Hg Hp Hs) as H.
    destruct (sqliteBootstrap_ready (default emptyDb (files w !! dbFileName ym)))
      as [d1 Eb].
    { by destruct (files w !! dbFileName ym). }
    rewrite Eb in H.
    apply sqliteBootstrap_spec in Eb as (Ht & Hi & Hsame & _).
    destruct H as [evs H]. rewrite Hsame, <- fileReports_default in H.
    eexists. split; [exact H|]. unfold usesPostgres in *. cbn. rewrite Hp.
    repeat split.
    + rewrite (fileReports_default _ w), <- Hsame.
      unfold fileReports. cbn. by rewrite lookup_insert_eq.
    + exists d1. by rewrite lookup_insert_eq.
Qed.

(** A handle returned by [getSqliteDatabase] always has the table. *)
Lemma getSqliteDatabase_has_table p v h v1 :
  getSqliteDatabase p v = (Ok h, v1) ->
  exists d, files v1 !! h = Some d
            /\ hasObj KTable "reports" d = true
            /\ hasObj KIndex "idx_month_partition" d = true.
Proof.
  intros Hrun.
  destruct (pathSafe (dbFileName p)) eqn:Hs.
  2: { destruct (getSqliteDatabase_unsafe p v Hs) as [? H]. congruence. }
  pose proof (getSqliteDatabase_run p v Hs) as H.
  destruct (sqliteBootstrap _) as [d1|] eqn:Eb; [|destruct H as [? H]; congruence].
  destruct H as [evs H]. rewrite H in Hrun. inversion Hrun; subst.
  apply sqliteBootstrap_spec in Eb as (Ht & Hi & _).
  exists d1. cbn. by rewrite lookup_insert_eq.
Qed.

End RouteFacts.

(* ===================================================================== *)
(** ** Reasoning rules for the process monad                              *)
(* ===================================================================== *)

Module TripleFacts.
Import JS Engine Proc Adapter Routes Server Spec View Logic.
Local Open Scope proc_scope.
Local Open Scope list_scope.

Lemma triple_conseq {A} (P P' : World -> Prop) (Q Q' : Res A -> World -> Prop) m :
  (forall w, P w -> P' w) -> triple P' m Q' -> (forall r w, Q' r w -> Q r w) ->
  triple P m Q.
Proof. intros HP Hm HQ w r w' H Hw. eauto. Qed.

Lemma triple_ret {A} (P : World -> Prop) (Q : Res A -> World -> Prop) a :
  (forall w, P w -> Q (Ok a) w) -> triple P (ret a) Q.
Proof. intros HQ w r w' H Hw. inversion H; subst. auto. Qed.

Lemma triple_throw {A} (P : World -> Prop) (Q : Res A -> World -> Prop) e :
  (forall w, P w -> Q (Throw e) w) -> triple P (throw e) Q.
Proof. intros HQ w r w' H Hw. inversion H; subst. auto. Qed.

Lemma triple_bind {A B} (P : World -> Prop) (R : A -> World -> Prop)
    (Q : Res B -> World -> Prop) (m : M A) (k : A -> M B) :
  triple P m (fun r w => match r with
                         | Ok a => R a w
                         | Throw e => Q (Throw e) w
                         | Exit c => Q (Exit c) w
                         end) ->
  (forall a, triple (R a) (k a) Q) ->
  triple P (bind m k) Q.
Proof.
  intros Hm Hk w r w' H Hw. unfold bind in H.
  destruct (m w) as [[a | e | c] w1] eqn:E; specialize (Hm _ _ _ E Hw); cbn in Hm.
  - eapply Hk; eauto.
  - by inversion H; subst.
  - by inversion H; subst.
Qed.

Lemma triple_tryCatch {A} (P : World -> Prop) (R : Error -> World -> Prop)
    (Q : Res A -> World -> Prop) (body : M A) handler :
  triple P body (fun r w => match r with
                            | Throw e => R e w
                            | other => Q other w
                            end) ->
  (forall e, triple (R e) (handler e) Q) ->
  triple P (tryCatch body handler) Q.
Proof.
  intros Hb Hh w r w' H Hw. unfold tryCatch in H.
  destruct (body w) as [[a | e | c] w1] eqn:E; specialize (Hb _ _ _ E Hw); cbn in Hb.
  - by inversion H; subst.
  - eapply Hh; eauto.
  - by inversion H; subst.
Qed.

Lemma triple_tryFinally {A} (P : World -> Prop) (R : Res A -> World -> Prop)
    (Q : Res A -> World -> Prop) (body : M A) fin :
  triple P body (fun r w => match r with
                            | Exit c => Q (Exit c) w
                            | other => R other w
                            end) ->
  (forall r, returns r ->
     triple (R r) fin (fun r2 w => match r2 with
                                   | Ok _ => Q r w
                                   | Throw e => Q (Throw e) w
                                   | Exit c => Q (Exit c) w
                                   end)) ->
  triple P (tryFinally body fin) Q.
Proof.
  intros Hb Hf w r w' H Hw. unfold tryFinally in H.
  destruct (body w) as [[a | e | c] w1] eqn:E; specialize (Hb _ _ _ E Hw); cbn in Hb.
  - destruct (fin w1) as [[[] | e' | c'] w2] eqn:E'; inversion H; subst;
      exact (Hf (Ok a) I _ _ _ E' Hb).
  - destruct (fin w1) as [[[] | e' | c'] w2] eqn:E'; inversion H; subst;
      exact (Hf (Throw e) I _ _ _ E' Hb).
  - by inversion H; subst.
Qed.

Lemma triple_if {A} (P : World -> Prop) (Q : Res A -> World -> Prop) (b : bool) m1 m2 :
  (b = true -> triple P m1 Q) -> (b = false -> triple P m2 Q) ->
  triple P (if b then m1 else m2) Q.
Proof. destruct b; auto. Qed.

(** An invariant is a triple whose postcondition forgets the result. *)
Lemma preserves_triple {A} (P : World -> Prop) (m : M A) :
  preserves P m <-> triple P m (fun _ => P).
Proof. reflexivity. Qed.

(** A step that keeps [P], followed by a continuation started in [P]. *)
Lemma triple_bind_inv {A B} (P : World -> Prop) (Q : Res B -> World -> Prop)
    (m : M A) (k : A -> M B) :
  preserves P m ->
  (forall e w, P w -> Q (Throw e) w) ->
  (forall c w, P w -> Q (Exit c) w) ->
  (forall a, triple P (k a) Q) ->
  triple P (bind m k) Q.
Proof.
  intros Hm Ht He Hk. apply triple_bind with (R := fun _ => P); [|exact Hk].
  intros w r w' H Hw. pose proof (Hm _ _ _ H Hw). destruct r; auto.
Qed.

End TripleFacts.

(* ===================================================================== *)
(** ** What every primitive of the adapter keeps                          *)
(* ===================================================================== *)

Module Keeps.
Import JS Engine Proc Adapter Routes Server Spec View Logic Frames EngineFacts Invariant.
Local Open Scope proc_scope.
Local Open Scope list_scope.

(** A property [P] of the world is kept by a primitive as soon as it is
    kept by the changes the primitive makes: logging an event that is
    [okEvent], creating the directory, creating an empty database file,
    replacing a database by one related to it by [Rdb]. *)
Section Primitives.
Variable P : World -> Prop.
Variable okEvent : Event -> bool.
Variable Rdb : Db -> Db -> Prop.

Hypothesis P_event : forall e w,
  okEvent e = true -> P w -> P (setTrace (e :: trace w) w).
Hypothesis P_dir : forall w, P w -> P (setDir true w).
Hypothesis P_newfile : forall f w,
  files w !! f = None -> P w -> P (setFiles (<[f := emptyDb]> (files w)) w).
Hypothesis P_file : forall f d d' w,
  files w !! f = Some d -> Rdb d d' -> P w -> P (setFiles (<[f := d']> (files w)) w).
Hypothesis P_pgDb : forall d' w, Rdb (pgDb w) d' -> P w -> P (setPgDb d' w).

Hypothesis Rdb_createTable : forall b d d',
  createTable b "reports" d = Some d' -> Rdb d d'.
Hypothesis Rdb_createIndex : forall i d d',
  createIndex i "reports" d = Some d' -> Rdb d d'.

Ltac logged :=
  match goal with
  | Hw : P ?W |- P _ => apply (P_event _ W); [done | exact Hw]
  end.

Lemma keeps_emit e : okEvent e = true -> preserves P (emit e).
Proof. intros He w r w' H Hw. inversion H; subst. by apply P_event. Qed.

Lemma keeps_Date_now : preserves P Date_now.
Proof. intros w r w' H Hw. by inversion H; subst. Qed.

Lemma keeps_getDbType : preserves P getDbType.
Proof.
  intros w r w' H Hw. unfold getDbType in H.
  destruct (globalSet w); by inversion H; subst.
Qed.

Lemma keeps_poolConnect : okEvent EvPgConnect = true -> preserves P poolConnect.
Proof.
  intros He [ctx g dir fs on pg clk tr] r w' H Hw.
  unfold poolConnect, bind, emit in H. cbn in H.
  destruct on; inversion H; subst; logged.
Qed.

Lemma keeps_clientQueryRead {A} s (q : Db -> option A) :
  okEvent (EvPgQuery s) = true -> preserves P (clientQueryRead s q).
Proof.
  intros He [ctx g dir fs on pg clk tr] r w' H Hw.
  unfold clientQueryRead, bind, emit in H. cbn in H.
  destruct (q pg); inversion H; subst; logged.
Qed.

Lemma keeps_clientQueryWrite {A} s (q : Db -> option (A * Db)) :
  okEvent (EvPgQuery s) = true ->
  (forall d a d', q d = Some (a, d') -> Rdb d d') ->
  preserves P (clientQueryWrite s q).
Proof.
  intros He Hq [ctx g dir fs on pg clk tr] r w' H Hw.
  unfold clientQueryWrite, bind, emit in H. cbn in H.
  destruct (q pg) as [[a d']|] eqn:E; inversion H; subst; [|logged].
  apply (P_pgDb d' (mkWorld ctx g dir fs on pg clk (EvPgQuery s :: tr)));
    [by eapply Hq | logged].
Qed.

Lemma keeps_fsExistsSync : okEvent EvFsExists = true -> preserves P fsExistsSync.
Proof. intros He w r w' H Hw. inversion H; subst. by apply P_event. Qed.

Lemma keeps_fsMkdirSync : okEvent EvFsMkdir = true -> preserves P fsMkdirSync.
Proof.
  intros He w r w' H Hw. inversion H; subst.
  apply (P_dir (setTrace (EvFsMkdir :: trace w) w)). by apply P_event.
Qed.

Lemma keeps_newDatabase f :
  okEvent (EvSqliteOpen f) = true -> preserves P (newDatabase f).
Proof.
  intros He [ctx g dir fs on pg clk tr] r w' H Hw.
  unfold newDatabase, bind, emit in H. cbn in H.
  destruct (negb dir || negb (pathSafe f)); [inversion H; subst; logged|].
  destruct (fs !! f) as [d|] eqn:Ef; inversion H; subst; [logged|].
  apply (P_newfile f (mkWorld ctx g dir fs on pg clk (EvSqliteOpen f :: tr)));
    [done | logged].
Qed.

Lemma keeps_sqliteRead {A} db s (q : Db -> option A) :
  okEvent (EvSqliteStmt db s) = true -> preserves P (sqliteRead db s q).
Proof.
  intros He [ctx g dir fs on pg clk tr] r w' H Hw.
  unfold sqliteRead, bind, emit in H. cbn in H.
  destruct (fs !! db) as [d|]; [destruct (q d)|]; inversion H; subst; logged.
Qed.

Lemma keeps_sqliteWrite {A} db s (q : Db -> option (A * Db)) :
  okEvent (EvSqliteStmt db s) = true ->
  (forall d a d', q d = Some (a, d') -> Rdb d d') ->
  preserves P (sqliteWrite db s q).
Proof.
  intros He Hq [ctx g dir fs on pg clk tr] r w' H Hw.
  unfold sqliteWrite, bind, emit in H. cbn in H.
  destruct (fs !! db) as [d|] eqn:Ef; [|inversion H; subst; logged].
  destruct (q d) as [[a d']|] eqn:E; inversion H; subst; [|logged].
  apply (P_file db d d' (mkWorld ctx g dir fs on pg clk (EvSqliteStmt db s :: tr)));
    [done | by eapply Hq | logged].
Qed.

Lemma keeps_ensureSqliteTable db :
  (forall s, okEvent (EvSqliteStmt db s) = true) ->
  preserves P (ensureSqliteTable db).
Proof.
  intros He. unfold ensureSqliteTable.
  apply preserves_bind; [|intros []; apply preserves_bind; [|intros indexExists]].
  - apply keeps_sqliteWrite; [done|]. intros d [] d' H.
    destruct (createTable true "reports" d) as [d1|] eqn:E; inversion H; subst.
    by eapply Rdb_createTable.
  - by apply keeps_sqliteRead.
  - apply preserves_if; [|apply preserves_ret].
    apply keeps_sqliteWrite; [done|]. intros d [] d' H.
    destruct (createIndex "idx_month_partition" "reports" d) as [d1|] eqn:E;
      inversion H; subst.
    by eapply Rdb_createIndex.
Qed.

Lemma keeps_getSqliteDatabase p :
  (forall e, fileEvent e = true -> okEvent e = true) ->
  preserves P (getSqliteDatabase p).
Proof.
  intros He. unfold getSqliteDatabase.
  apply preserves_bind; [by apply keeps_fsExistsSync, He|intros dirThere].
  apply preserves_bind;
    [apply preserves_if; [by apply keeps_fsMkdirSync, He | apply preserves_ret]|intros []].
  apply preserves_bind; [by apply keeps_newDatabase, He|intros db].
  apply preserves_bind; [|intros []; apply preserves_ret].
  apply keeps_ensureSqliteTable. intros s. by apply He.
Qed.

(** [ensurePostgresTable] logs queries and, when one fails, an error
    line. *)
Lemma keeps_ensurePostgresTable_queries :
  (forall s, okEvent (EvPgQuery s) = true) ->
  okEvent EvConsoleError = true ->
  preserves P ensurePostgresTable.
Proof.
  intros He Hc. unfold ensurePostgresTable.
  apply preserves_tryCatch.
  - apply preserves_bind; [by apply keeps_clientQueryRead|intros tableCheck].
    apply preserves_if; [|apply preserves_ret].
    apply preserves_bind; [|intros []].
    + apply keeps_clientQueryWrite; [by apply He|]. intros d [] d' H.
      destruct (createTable false "reports" d) as [d1|] eqn:E; inversion H; subst.
      by eapply Rdb_createTable.
    + apply keeps_clientQueryWrite; [by apply He|]. intros d [] d' H.
      destruct (createIndex "reports_month_partition_idx" "reports" d) as [d1|] eqn:E;
        inversion H; subst.
      by eapply Rdb_createIndex.
  - intros e. apply preserves_bind; [by apply keeps_emit|intros []].
    apply preserves_throw.
Qed.

Lemma keeps_ensurePostgresTable :
  (forall e, pgEvent e = true -> okEvent e = true) ->
  okEvent EvConsoleError = true ->
  preserves P ensurePostgresTable.
Proof.
  intros He Hc. apply keeps_ensurePostgresTable_queries; [|done].
  intros s. by apply He.
Qed.

End Primitives.
End Keeps.

(* ===================================================================== *)
(** ** Which reports a request can change                                 *)
(* ===================================================================== *)

Module RowFrame.
Import JS Engine Proc Partition Adapter Routes Server Spec View Logic Frames.
Import EngineFacts ProcFacts Invariant TripleFacts Keeps RouteFacts.
Local Open Scope proc_scope.
Local Open Scope list_scope.

Lemma createTable_reportsOf b d d' :
  createTable b "reports" d = Some d' -> reportsOf d' = reportsOf d.
Proof.
  intros H. pose proof (createTable_hasTable _ _ _ _ H) as Ht.
  apply createTable_inv in H as [(_ & _ & ->) | (Hfree & ->)]; [done|].
  unfold reportsOf at 2.
  destruct (hasObj KTable "reports" d) eqn:E; [|by unfold reportsOf; rewrite Ht].
  apply hasObj_nameTaken in E. congruence.
Qed.

Lemma createIndex_reportsOf i d d' :
  createIndex i "reports" d = Some d' -> reportsOf d' = reportsOf d.
Proof.
  intros H. pose proof (createIndex_inv _ _ _ _ H) as (_ & Ht & _).
  pose proof (createIndex_keeps _ _ _ _ _ _ H Ht) as Ht'.
  unfold reportsOf. by rewrite Ht', Ht, (createIndex_rows _ _ _ _ H).
Qed.

Lemma sameRows_refl w : sameRows w w.
Proof. by split. Qed.

Lemma sameRows_partitionRows w0 w ym :
  sameRows w0 w -> usesPostgres w = usesPostgres w0 ->
  partitionRows ym w = partitionRows ym w0.
Proof.
  intros [Hpg Hfs] Hm. unfold partitionRows. rewrite Hm, Hpg, Hfs. reflexivity.
Qed.

Section From.
Variable w0 : World.

Let anyEvent (e : Event) : bool := true.
Let Rrows (d d' : Db) : Prop := reportsOf d' = reportsOf d.

Lemma sameRows_event e w :
  anyEvent e = true -> sameRows w0 w -> sameRows w0 (setTrace (e :: trace w) w).
Proof. by intros _ [? ?]. Qed.

Lemma sameRows_dir w : sameRows w0 w -> sameRows w0 (setDir true w).
Proof. by intros [? ?]. Qed.

Lemma sameRows_newfile f w :
  files w !! f = None -> sameRows w0 w ->
  sameRows w0 (setFiles (<[f := emptyDb]> (files w)) w).
Proof.
  intros Hf [Hpg Hfs]. split; [done|]. intros g. rewrite <- Hfs.
  unfold fileReports. cbn.
  destruct (decide (f = g)) as [<- | Hne].
  - by rewrite lookup_insert_eq, Hf.
  - by rewrite lookup_insert_ne.
Qed.

Lemma sameRows_file f d d' w :
  files w !! f = Some d -> Rrows d d' -> sameRows w0 w ->
  sameRows w0 (setFiles (<[f := d']> (files w)) w).
Proof.
  intros Hf Hd [Hpg Hfs]. split; [done|]. intros g. rewrite <- Hfs.
  unfold fileReports. cbn.
  destruct (decide (f = g)) as [<- | Hne].
  - by rewrite lookup_insert_eq, Hf.
  - by rewrite lookup_insert_ne.
Qed.

Lemma sameRows_pgDb d' w :
  Rrows (pgDb w) d' -> sameRows w0 w -> sameRows w0 (setPgDb d' w).
Proof. intros Hd [Hpg Hfs]. split; [cbn; unfold Rrows in Hd; congruence | done]. Qed.

Lemma Rrows_createTable b d d' : createTable b "reports" d = Some d' -> Rrows d d'.
Proof. apply createTable_reportsOf. Qed.

Lemma Rrows_createIndex i d d' : createIndex i "reports" d = Some d' -> Rrows d d'.
Proof. apply createIndex_reportsOf. Qed.

Lemma rows_emit e : preserves (sameRows w0) (emit e).
Proof. by apply (keeps_emit _ anyEvent sameRows_event). Qed.

Lemma rows_ensurePostgresTable : preserves (sameRows w0) ensurePostgresTable.
Proof.
  by apply (keeps_ensurePostgresTable _ anyEvent Rrows sameRows_event sameRows_pgDb
              Rrows_createTable Rrows_createIndex).
Qed.

Lemma rows_getSqliteDatabase p : preserves (sameRows w0) (getSqliteDatabase p).
Proof.
  by apply (keeps_getSqliteDatabase _ anyEvent Rrows sameRows_event sameRows_dir
              sameRows_newfile sameRows_file Rrows_createTable Rrows_createIndex).
Qed.

Lemma rows_getReportsByMonth ym : preserves (sameRows w0) (getReportsByMonth ym).
Proof.
  unfold getReportsByMonth.
  apply preserves_bind; [apply (keeps_getDbType (sameRows w0)) | intros dbType].
  apply preserves_if.
  - apply preserves_bind;
      [by apply (keeps_poolConnect _ anyEvent sameRows_event) | intros []].
    apply preserves_tryFinally; [|apply rows_emit].
    apply preserves_bind; [apply rows_ensurePostgresTable | intros []].
    by apply (keeps_clientQueryRead _ anyEvent sameRows_event).
  - apply preserves_bind; [apply rows_getSqliteDatabase | intros db].
    apply preserves_tryFinally; [|apply rows_emit].
    apply preserves_bind;
      [by apply (keeps_sqliteRead _ anyEvent sameRows_event) | intros tableExists].
    apply preserves_if; [apply preserves_ret|].
    by apply (keeps_sqliteRead _ anyEvent sameRows_event).
Qed.

Lemma rows_getReports ym : preserves (sameRows w0) (getReports ym).
Proof.
  unfold getReports. apply preserves_tryCatch.
  - apply preserves_bind; [apply rows_getReportsByMonth | intros rs].
    apply preserves_ret.
  - intros e. apply preserves_bind; [apply rows_emit|intros []; apply preserves_ret].
Qed.

(** [addReport] adds a report only when it returns normally. *)
Lemma rows_addReport tz data :
  triple (sameRows w0) (addReport tz data)
    (fun r w => match r with Ok _ => True | _ => sameRows w0 w end).
Proof.
  unfold addReport.
  apply triple_bind_inv; [apply (keeps_Date_now (sameRows w0)) | done | done |].
  intros submittime.
  apply triple_bind_inv; [apply (keeps_getDbType (sameRows w0)) | done | done |].
  intros dbType. apply triple_if; intros _.
  - apply triple_bind_inv;
      [by apply (keeps_poolConnect _ anyEvent sameRows_event) | done | done |].
    intros [].
    apply triple_tryFinally
      with (R := fun r w => match r with Ok _ => True | _ => sameRows w0 w end).
    + apply triple_bind_inv; [apply rows_ensurePostgresTable | done | done |].
      intros [].
      apply triple_bind with (R := fun _ _ => True); [|intros newId; by apply triple_ret].
      intros [ctx g dir fs on pg clk tr] r w' H Hw.
      unfold clientQueryWrite, bind, emit in H. cbn in H.
      destruct (insertReport pgCheck _ pg) as [[newId d2]|]; inversion H; subst;
        [done|]. by destruct Hw.
    + intros r Hr w r2 w' H Hw. inversion H; subst.
      destruct r; [done | by destruct Hw | done].
  - apply triple_bind_inv; [apply rows_getSqliteDatabase | done | done |].
    intros db.
    apply triple_tryFinally
      with (R := fun r w => match r with Ok _ => True | _ => sameRows w0 w end).
    + apply triple_bind with (R := fun _ _ => True); [|intros newId; by apply triple_ret].
      intros [ctx g dir fs on pg clk tr] r w' H Hw.
      unfold sqliteWrite, bind, emit in H. cbn in H.
      destruct (fs !! db) as [d|]; [|inversion H; subst; by destruct Hw].
      destruct (insertReport sqliteCheck _ d) as [[newId d2]|]; inversion H; subst;
        [done|]. by destruct Hw.
    + intros r Hr w r2 w' H Hw. inversion H; subst.
      destruct r; [done | by destruct Hw | done].
Qed.

Lemma rows_postInputdata tz req :
  triple (sameRows w0) (postInputdata tz req)
    (fun r w => forall resp, r = Ok resp -> status resp <> 200 -> sameRows w0 w).
Proof.
  unfold postInputdata.
  apply triple_tryCatch with (R := fun _ => sameRows w0).
  - destruct req as [body|];
      [|by intros w r w' H Hw; inversion H; subst].
    apply triple_if; intros _.
    + apply triple_ret. auto.
    + apply triple_bind with (R := fun _ _ => True).
      * eapply triple_conseq; [|apply rows_addReport|]; [done|].
        intros [a | e | c] w; cbn; [done | done | discriminate].
      * intros result. apply triple_ret. intros w _ resp Hresp Hst.
        inversion Hresp; subst. by cbn in Hst.
  - intros e.
    apply triple_bind_inv; [apply rows_emit | discriminate | discriminate |].
    intros []. apply triple_ret. auto.
Qed.

End From.
End RowFrame.
(* ===================================================================== *)
(** ** Partition keys tell months apart                                   *)
(* ===================================================================== *)

Module KeyFacts.
Import JS DateModel Partition Adapter Spec JSFacts DateFacts PartitionFacts.

(** [parseInt] reads back what [String] wrote, so the decimal form
    determines the integer. *)
Lemma NumberToString_inj z1 z2 :
  NumberToString (Int z1) = NumberToString (Int z2) -> z1 = z2.
Proof.
  intros H.
  pose proof (parseInt_integer z1) as H1. pose proof (parseInt_integer z2) as H2.
  unfold parseInt in H1, H2. cbn [ToString] in H1, H2.
  rewrite H, H2 in H1. by inversion H1.
Qed.

Lemma append_nil (b : string) : ("" ++ b)%string = b.
Proof. reflexivity. Qed.

Lemma append_cons c (a b : string) : (String c a ++ b)%string = String c (a ++ b).
Proof. reflexivity. Qed.

Lemma append_inj_suffix (a1 : string) : forall a2 b1 b2 : string,
  (a1 ++ b1 = a2 ++ b2)%string -> String.length b1 = String.length b2 ->
  a1 = a2 /\ b1 = b2.
Proof.
  induction a1 as [|c a1 IH]; intros [|c2 a2] b1 b2 H Hlen;
    rewrite ?append_nil, ?append_cons in H.
  - done.
  - subst b1. cbn [String.length] in Hlen. rewrite append_length in Hlen. lia.
  - subst b2. cbn [String.length] in Hlen. rewrite append_length in Hlen. lia.
  - inversion H as [[Hc Hrest]]. destruct (IH _ _ _ Hrest Hlen) as [-> ->]. done.
Qed.

Lemma append_inj_prefix (a b1 b2 : string) : (a ++ b1 = a ++ b2)%string -> b1 = b2.
Proof.
  induction a as [|c a IH]; rewrite ?append_nil, ?append_cons; [done|].
  intros H. inversion H. auto.
Qed.

Lemma twoDigits_inj m1 m2 :
  1 <= m1 <= 12 -> 1 <= m2 <= 12 -> twoDigits m1 = twoDigits m2 -> m1 = m2.
Proof.
  intros H1 H2.
  assert (m1 = 1 \/ m1 = 2 \/ m1 = 3 \/ m1 = 4 \/ m1 = 5 \/ m1 = 6 \/ m1 = 7 \/ m1 = 8
          \/ m1 = 9 \/ m1 = 10 \/ m1 = 11 \/ m1 = 12) as C1 by lia.
  assert (m2 = 1 \/ m2 = 2 \/ m2 = 3 \/ m2 = 4 \/ m2 = 5 \/ m2 = 6 \/ m2 = 7 \/ m2 = 8
          \/ m2 = 9 \/ m2 = 10 \/ m2 = 11 \/ m2 = 12) as C2 by lia.
  clear H1 H2.
  repeat (destruct C1 as [-> | C1]); try subst m1;
    repeat (destruct C2 as [-> | C2]); try subst m2;
    first [reflexivity | (intros H; vm_compute in H; discriminate H)].
Qed.

(** The key of a valid time value, in the words of the specification's
    two parts: the year as JavaScript prints it, and the month in two
    digits. *)
Lemma key_of_valid tz t :
  validTime t = true ->
  getMonthPartition tz t
  = (NumberToString (Int (YearFromTime (LocalTime tz t)))
     ++ String "-" (twoDigits (MonthFromTime (LocalTime tz t) + 1)))%string.
Proof.
  intros Hv. rewrite getMonthPartition_valid by done.
  pose proof (MonthFromTime_range (LocalTime tz t)).
  by rewrite month_two by lia.
Qed.

Lemma key_inj tz t1 t2 :
  validTime t1 = true -> validTime t2 = true ->
  getMonthPartition tz t1 = getMonthPartition tz t2 ->
  YearFromTime (LocalTime tz t1) = YearFromTime (LocalTime tz t2)
  /\ MonthFromTime (LocalTime tz t1) = MonthFromTime (LocalTime tz t2).
Proof.
  intros H1 H2 H. rewrite !key_of_valid in H by done.
  apply append_inj_suffix in H as [Hy Hm]; [|reflexivity].
  apply NumberToString_inj in Hy.
  assert (Hm' : twoDigits (MonthFromTime (LocalTime tz t1) + 1)
                = twoDigits (MonthFromTime (LocalTime tz t2) + 1)) by congruence.
  pose proof (MonthFromTime_range (LocalTime tz t1)).
  pose proof (MonthFromTime_range (LocalTime tz t2)).
  apply twoDigits_inj in Hm'; lia.
Qed.

(** The key of a valid time value starts with a digit or a minus sign. *)
Lemma key_head tz t :
  validTime t = true ->
  exists c rest, getMonthPartition tz t = String c rest
                 /\ (isDigit c = true \/ c = "-"%char).
Proof.
  intros Hv. rewrite key_of_valid by done. cbn [NumberToString].
  destruct (YearFromTime (LocalTime tz t) <? 0).
  - eexists _, _. split; [reflexivity | by right].
  - destruct (decimal_head (YearFromTime (LocalTime tz t))) as (c & rest & -> & Hc).
    eexists _, _. split; [reflexivity | by left].
Qed.

Lemma dbFileName_inj p q : dbFileName p = dbFileName q -> p = q.
Proof.
  unfold dbFileName. intros H. apply append_inj_prefix in H.
  by apply append_inj_suffix in H as [-> _].
Qed.

End KeyFacts.
(* ===================================================================== *)
(** ** How a request ends                                                 *)
(* ===================================================================== *)

Module Outcomes.
Import JS DateModel Partition Engine Proc Adapter Routes Server Spec View Logic Measures.
Import EngineFacts PartitionFacts ProcFacts RouteFacts.
Local Open Scope proc_scope.
Local Open Scope list_scope.

(** The bootstrap goes through exactly on the catalogs that are ready
    for it. *)
Lemma sqliteBootstrap_needs_ready d d' :
  sqliteBootstrap d = Some d' -> sqliteSchemaReady d = true.
Proof.
  unfold sqliteBootstrap, sqliteSchemaReady. intros H.
  destruct (createTable true "reports" d) as [d1|] eqn:E1; [|done].
  apply createTable_inv in E1 as [(_ & Ht & ->) | (Hfree & ->)].
  - rewrite Ht. cbn [orb andb].
    destruct (hasObj KIndex "idx_month_partition" d) eqn:Ei; [done|].
    apply createIndex_inv in H as (-> & _). done.
  - rewrite Hfree, orb_true_r. cbn [andb].
    rewrite hasObj_snoc, hasObj_catalog in H. cbn in H. rewrite orb_false_r in H.
    destruct (hasObj KIndex "idx_month_partition" d) eqn:Ei; [done|].
    apply createIndex_inv in H as (Hn & _).
    rewrite nameTaken_snoc, nameTaken_catalog in Hn.
    apply orb_false_iff in Hn as [-> _]. done.
Qed.

Lemma pgBootstrap_needs_ready d d' :
  pgBootstrap d = Some d' -> pgSchemaReady d = true.
Proof.
  unfold pgBootstrap, pgSchemaReady. intros H.
  destruct (hasObj KTable "reports" d) eqn:Et; [done|]. cbn [orb].
  destruct (createTable false "reports" d) as [d1|] eqn:E1; [|done].
  apply createTable_inv in E1 as [(? & _) | (Hfree & ->)]; [done|].
  apply createIndex_inv in H as (Hn & _).
  rewrite nameTaken_snoc, nameTaken_catalog in Hn.
  apply orb_false_iff in Hn as [Hn _]. by rewrite Hfree, Hn.
Qed.

(** *** addReport *)

Section Submit.
Variable LocalTZA : Z -> Z.
Variable data : ReportData.

(** [addReport] returns or throws; it never ends the process. *)
Lemma addReport_returns w : returns (fst (addReport LocalTZA data w)).
Proof.
  destruct (globalSet w) eqn:Hg; [|by rewrite addReport_noGlobal].
  destruct (usesPostgres w) eqn:Hp.
  - destruct (pgOnline w) eqn:Hon.
    + pose proof (addReport_pg_run LocalTZA data w Hg Hp Hon) as H.
      destruct (pgBootstrap _); [destruct (insertReport _ _ _) as [[? ?]|]|];
        destruct H as [? ->]; done.
    + by destruct (addReport_pg_offline LocalTZA data w Hg Hp Hon) as [? ->].
  - pose proof (addReport_sqlite_run LocalTZA data w Hg Hp) as H.
    destruct (sqliteBootstrap _); [destruct (insertReport _ _ _) as [[? ?]|]|];
      destruct H as [? ->]; done.
Qed.

(** Everything a successful [addReport] tells about the world before
    and after. *)
Lemma addReport_Ok w res w' :
  addReport LocalTZA data w = (Ok res, w') ->
  exists newId c s d2 evs,
    parseInt (d_class data) = Int c
    /\ parseInt (d_changescore data) = Int s
    /\ res = mkResult newId (getMonthPartition LocalTZA (clock w)) (clock w)
    /\ w' = stored (getMonthPartition LocalTZA (clock w)) d2 evs w
    /\ reportsOf d2
       = targetRows (getMonthPartition LocalTZA (clock w)) w
         ++ [mkRow newId c
               (if usesPostgres w then CBool (Boolean (d_isadd data))
                else CInt (if Boolean (d_isadd data) then 1 else 0))
               s (clock w) (d_note data) (d_submitter data)
               (getMonthPartition LocalTZA (clock w))]
    /\ hasObj KTable "reports" d2 = true
    /\ (usesPostgres w = false -> hasObj KIndex "idx_month_partition" d2 = true)
    /\ globalSet w = true
    /\ (if usesPostgres w
        then pgOnline w && pgSchemaReady (pgDb w) && int32 c && int32 s
             && pgText (d_note data) && pgText (d_submitter data)
        else sqliteSchemaReady
               (default emptyDb
                  (files w !! dbFileName (getMonthPartition LocalTZA (clock w))))
             && sqliteBindable (d_note data) && sqliteBindable (d_submitter data)) = true.
Proof.
  intros Hrun.
  destruct (globalSet w) eqn:Hg; [|by rewrite addReport_noGlobal in Hrun].
  set (p := getMonthPartition LocalTZA (clock w)) in *.
  unfold targetRows, stored.
  destruct (usesPostgres w) eqn:Hp.
  - destruct (pgOnline w) eqn:Hon.
    2: { destruct (addReport_pg_offline LocalTZA data w Hg Hp Hon) as [? H]. congruence. }
    pose proof (addReport_pg_run LocalTZA data w Hg Hp Hon) as H. fold p in H.
    destruct (pgBootstrap (pgDb w)) as [d1|] eqn:Eb; [|destruct H as [? H]; congruence].
    destruct (insertReport _ _ d1) as [[newId d2]|] eqn:Ei;
      [|destruct H as [? H]; congruence].
    destruct H as [evs H]. rewrite H in Hrun. inversion Hrun; subst res w'. clear Hrun.
    pose proof (pgBootstrap_needs_ready _ _ Eb) as Hready.
    apply pgBootstrap_spec in Eb as (_ & Hsame & _).
    pose proof (insertReport_inv _ _ _ _ _ Ei) as (_ & c0 & b0 & s0 & Hchk & _).
    apply insertReport_reportsOf in Ei as (r & c & b & s & Hc & -> & Hrows & Ht).
    unfold pgCheck in Hc. cbn in Hc.
    destruct (parseInt (d_class data)) as [|c'] eqn:Ec; [done|].
    destruct (parseInt (d_changescore data)) as [|s'] eqn:Es; [done|].
    destruct (int32 c' && int32 s' && pgText (d_note data)
              && pgText (d_submitter data)) eqn:E32; [|done].
    inversion Hc; subst c b s.
    exists newId, c', s', d2, evs. rewrite <- Hsame, Hready.
    rewrite !andb_true_iff in E32. destruct E32 as [[[-> ->] ->] ->].
    repeat split; done.
  - pose proof (addReport_sqlite_run LocalTZA data w Hg Hp) as H. fold p in H.
    destruct (sqliteBootstrap _) as [d1|] eqn:Eb; [|destruct H as [? H]; congruence].
    destruct (insertReport _ _ d1) as [[newId d2]|] eqn:Ei;
      [|destruct H as [? H]; congruence].
    destruct H as [evs H]. rewrite H in Hrun. inversion Hrun; subst res w'. clear Hrun.
    pose proof (sqliteBootstrap_needs_ready _ _ Eb) as Hready.
    apply sqliteBootstrap_spec in Eb as (_ & Hi & Hsame & _).
    pose proof (insertReport_inv _ _ _ _ _ Ei) as (_ & c0 & b0 & s0 & _ & _ & Hd2).
    apply insertReport_reportsOf in Ei as (r & c & b & s & Hc & -> & Hrows & Ht).
    unfold sqliteCheck in Hc. cbn in Hc.
    destruct (parseInt (d_class data)) as [|c'] eqn:Ec; [done|].
    destruct (parseInt (d_changescore data)) as [|s'] eqn:Es; [done|].
    destruct (sqliteBindable (d_note data) && sqliteBindable (d_submitter data)) eqn:Eb';
      [|done].
    inversion Hc; subst c b s.
    exists newId, c', s', d2, evs. rewrite fileReports_default, <- Hsame, Hready.
    repeat split; try done.
    intros _. subst d2. exact Hi.
Qed.

End Submit.

(** *** POST /inputdata *)

Lemma postInputdata_thrown tz body w e w1 :
  missingField body = false ->
  addReport tz (mkData (b_class body) (b_isadd body) (b_changescore body)
                       (b_note body) (b_submitter body)) w = (Throw e, w1) ->
  postInputdata tz (Some body) w
  = (Ok (mkResponse 500 false ServerError), setTrace (EvConsoleError :: trace w1) w1).
Proof.
  intros Hm Hrun. unfold postInputdata, tryCatch. rewrite Hm.
  by rewrite (bind_Throw _ _ _ _ _ Hrun).
Qed.

Lemma addReport_Ok_storable tz body w res w' :
  addReport tz (mkData (b_class body) (b_isadd body) (b_changescore body)
                       (b_note body) (b_submitter body)) w = (Ok res, w') ->
  storable tz body w = true.
Proof.
  intros H. apply addReport_Ok in H
    as (newId & c & s & d2 & evs & Ec & Es & _ & _ & _ & _ & _ & Hg & Hok).
  cbn [d_class d_changescore d_note d_submitter] in *.
  unfold storable, valuesAccepted, engineReady. rewrite Ec, Es, Hg.
  rewrite getMonthPartition_pathSafe.
  destruct (usesPostgres w).
  - rewrite !andb_true_iff in *. tauto.
  - destruct (files w !! dbFileName _); cbn in *; rewrite !andb_true_iff in *; tauto.
Qed.

(** *** GET /reports/:yearMonth *)

Lemma getReports_thrown ym w e w1 :
  getReportsByMonth ym w = (Throw e, w1) ->
  getReports ym w
  = (Ok (mkResponse 500 false ServerError), setTrace (EvConsoleError :: trace w1) w1).
Proof.
  intros Hrun. unfold getReports, tryCatch. by rewrite (bind_Throw _ _ _ _ _ Hrun).
Qed.

(** An engine that is not ready makes the query throw. *)
Lemma getReportsByMonth_not_ready ym w :
  engineReady ym w = false ->
  exists e w1, getReportsByMonth ym w = (Throw e, w1).
Proof.
  unfold engineReady. intros Hr.
  destruct (globalSet w) eqn:Hg; [|rewrite getReportsByMonth_noGlobal by done; eauto].
  cbn [andb] in Hr.
  destruct (usesPostgres w) eqn:Hp.
  - destruct (pgOnline w) eqn:Hon.
    + pose proof (getReportsByMonth_pg_run ym w Hg Hp Hon) as H.
      destruct (pgBootstrap (pgDb w)) as [d1|] eqn:Eb; [|destruct H; eauto].
      apply pgBootstrap_needs_ready in Eb. cbn in Hr. congruence.
    + destruct (getReportsByMonth_pg_offline ym w Hg Hp Hon); eauto.
  - destruct (pathSafe ym) eqn:Hs.
    + pose proof (getReportsByMonth_sqlite_run ym w Hg Hp Hs) as H.
      destruct (sqliteBootstrap _) as [d1|] eqn:Eb; [|destruct H; eauto].
      apply sqliteBootstrap_needs_ready in Eb. cbn in Hr.
      destruct (files w !! dbFileName ym); cbn in *; congruence.
    + destruct (getReportsByMonth_sqlite_unsafe ym w Hg Hp Hs); eauto.
Qed.

End Outcomes.
(* ===================================================================== *)
(** ** What a whole request keeps                                         *)
(* ===================================================================== *)

Module Sessions.
Import JS Engine Proc Partition Adapter Routes Server Spec View Logic Frames Session.
Import EngineFacts ProcFacts Invariant TripleFacts Keeps.
Local Open Scope proc_scope.
Local Open Scope list_scope.

(** The requests of a run keep what every request keeps. *)
Lemma run_keeps (P : World -> Prop) tz :
  (forall req, preserves P (postInputdata tz req)) ->
  (forall ym, preserves P (getReports ym)) ->
  (forall t w, P w -> P (setClock t w)) ->
  (forall up w, P w -> P (setOnline up w)) ->
  forall steps w, P w -> P (run tz steps w).
Proof.
  intros Hpost Hget Hclock Honline steps.
  induction steps as [|s steps IH]; intros w Hw; [done|].
  cbn [run fold_left]. apply IH. destruct s as [reqBody | ym | t | up]; cbn [step].
  - destruct (postInputdata tz reqBody w) as [r w'] eqn:E. exact (Hpost reqBody _ _ _ E Hw).
  - destruct (getReports ym w) as [r w'] eqn:E. exact (Hget ym _ _ _ E Hw).
  - by apply Hclock.
  - by apply Honline.
Qed.

Lemma run_app tz s1 s2 w : run tz (s1 ++ s2) w = run tz s2 (run tz s1 w).
Proof. unfold run. apply fold_left_app. Qed.

Section Generic.
Variable P : World -> Prop.
Variable okEvent : Event -> bool.
Variables Rpg Rsq : Db -> Db -> Prop.

Hypothesis P_event : forall e w,
  okEvent e = true -> P w -> P (setTrace (e :: trace w) w).
Hypothesis ok_console : okEvent EvConsoleError = true.

(** What [P] needs for the PostgreSQL branch to keep it... *)
Let pgSide : Prop :=
  (forall e, pgEvent e = true -> okEvent e = true)
  /\ (forall d' w, Rpg (pgDb w) d' -> P w -> P (setPgDb d' w))
  /\ (forall v d newId d', insertReport pgCheck v d = Some (newId, d') -> Rpg d d')
  /\ preserves P ensurePostgresTable.

(** ... and for the SQLite branch. *)
Let fileSide : Prop :=
  (forall e, fileEvent e = true -> okEvent e = true)
  /\ (forall w, P w -> P (setDir true w))
  /\ (forall f w, files w !! f = None -> P w -> P (setFiles (<[f := emptyDb]> (files w)) w))
  /\ (forall f d d' w,
        files w !! f = Some d -> Rsq d d' -> P w -> P (setFiles (<[f := d']> (files w)) w))
  /\ (forall b d d', createTable b "reports" d = Some d' -> Rsq d d')
  /\ (forall i d d', createIndex i "reports" d = Some d' -> Rsq d d')
  /\ (forall v d newId d', insertReport sqliteCheck v d = Some (newId, d') -> Rsq d d').

(** The branch on [getDbType()]: each side has to keep [P] only where
    it can run. *)
Lemma keeps_dispatch {A} (mpg msq : M A) :
  ((forall w, P w -> usesPostgres w = false) \/ preserves P mpg) ->
  ((forall w, P w -> usesPostgres w = true) \/ preserves P msq) ->
  preserves P (dbType <- getDbType ;; if isPostgres dbType then mpg else msq).
Proof.
  intros Hpg Hsq w r w' H Hw. unfold bind, getDbType in H.
  destruct (globalSet w); [|by inversion H; subst].
  fold (usesPostgres w) in H. destruct (usesPostgres w) eqn:Hp.
  - destruct Hpg as [Hno | Hpg]; [specialize (Hno w Hw); congruence | eauto].
  - destruct Hsq as [Hno | Hsq]; [specialize (Hno w Hw); congruence | eauto].
Qed.

(** A connection, used and released. *)
Lemma keeps_pgSession {A} (body : M A) :
  pgSide -> preserves P body ->
  preserves P (poolConnect ;;; tryFinally (ensurePostgresTable ;;; body) clientRelease).
Proof.
  intros (Hev & Hdb & Hins & Hens) Hbody.
  apply preserves_bind; [by apply (keeps_poolConnect P okEvent P_event), Hev | intros []].
  apply preserves_tryFinally.
  - apply preserves_bind; [exact Hens | intros []; exact Hbody].
  - by apply (keeps_emit P okEvent P_event), Hev.
Qed.

(** A database file, opened, used and closed. *)
Lemma keeps_sqliteSession {A} p (body : string -> M A) :
  fileSide -> (forall db, preserves P (body db)) ->
  preserves P (db <- getSqliteDatabase p ;; tryFinally (body db) (sqliteClose db)).
Proof.
  intros (Hev & Hdir & Hnew & Hfile & Hct & Hci & Hins) Hbody.
  apply preserves_bind;
    [by apply (keeps_getSqliteDatabase P okEvent Rsq P_event Hdir Hnew Hfile Hct Hci)
    | intros db].
  apply preserves_tryFinally; [apply Hbody|].
  by apply (keeps_emit P okEvent P_event), Hev.
Qed.

Lemma keeps_addReport tz data :
  ((forall w, P w -> usesPostgres w = false) \/ pgSide) ->
  ((forall w, P w -> usesPostgres w = true) \/ fileSide) ->
  preserves P (addReport tz data).
Proof.
  intros Hpg Hsq. unfold addReport.
  apply preserves_bind; [apply (keeps_Date_now P) | intros submittime].
  apply keeps_dispatch.
  - destruct Hpg as [Hno | Hpg]; [by left | right].
    apply keeps_pgSession; [exact Hpg|]. destruct Hpg as (Hev & Hdb & Hins & _).
    apply preserves_bind; [|intros newId; apply preserves_ret].
    apply (keeps_clientQueryWrite P okEvent Rpg P_event Hdb); [by apply Hev|].
    intros d a d'. apply Hins.
  - destruct Hsq as [Hno | Hsq]; [by left | right].
    apply keeps_sqliteSession; [exact Hsq|]. intros db.
    destruct Hsq as (Hev & _ & _ & Hfile & _ & _ & Hins).
    apply preserves_bind; [|intros newId; apply preserves_ret].
    apply (keeps_sqliteWrite P okEvent Rsq P_event Hfile); [by apply Hev|].
    intros d a d'. apply Hins.
Qed.

Lemma keeps_getReportsByMonth ym :
  ((forall w, P w -> usesPostgres w = false) \/ pgSide) ->
  ((forall w, P w -> usesPostgres w = true) \/ fileSide) ->
  preserves P (getReportsByMonth ym).
Proof.
  intros Hpg Hsq. unfold getReportsByMonth.
  apply keeps_dispatch.
  - destruct Hpg as [Hno | Hpg]; [by left | right].
    apply keeps_pgSession; [exact Hpg|]. destruct Hpg as (Hev & _).
    by apply (keeps_clientQueryRead P okEvent P_event), Hev.
  - destruct Hsq as [Hno | Hsq]; [by left | right].
    apply keeps_sqliteSession; [exact Hsq|]. intros db.
    destruct Hsq as (Hev & _).
    apply preserves_bind;
      [by apply (keeps_sqliteRead P okEvent P_event), Hev | intros tableExists].
    apply preserves_if; [apply preserves_ret|].
    by apply (keeps_sqliteRead P okEvent P_event), Hev.
Qed.

Lemma keeps_postInputdata tz req :
  ((forall w, P w -> usesPostgres w = false) \/ pgSide) ->
  ((forall w, P w -> usesPostgres w = true) \/ fileSide) ->
  preserves P (postInputdata tz req).
Proof.
  intros Hpg Hsq. unfold postInputdata. apply preserves_tryCatch.
  - destruct req as [body|]; [|by intros w r w' H Hw; inversion H; subst].
    apply preserves_if; [apply preserves_ret|].
    apply preserves_bind; [by apply keeps_addReport | intros result; apply preserves_ret].
  - intros e. apply preserves_bind; [|intros []; apply preserves_ret].
    by apply (keeps_emit P okEvent P_event).
Qed.

Lemma keeps_getReports ym :
  ((forall w, P w -> usesPostgres w = false) \/ pgSide) ->
  ((forall w, P w -> usesPostgres w = true) \/ fileSide) ->
  preserves P (getReports ym).
Proof.
  intros Hpg Hsq. unfold getReports. apply preserves_tryCatch.
  - apply preserves_bind; [by apply keeps_getReportsByMonth | intros rs; apply preserves_ret].
  - intros e. apply preserves_bind; [|intros []; apply preserves_ret].
    by apply (keeps_emit P okEvent P_event).
Qed.

Lemma keeps_run tz :
  ((forall w, P w -> usesPostgres w = false) \/ pgSide) ->
  ((forall w, P w -> usesPostgres w = true) \/ fileSide) ->
  (forall t w, P w -> P (setClock t w)) ->
  (forall up w, P w -> P (setOnline up w)) ->
  forall steps w, P w -> P (run tz steps w).
Proof.
  intros Hpg Hsq. apply run_keeps; intros; [by apply keeps_postInputdata | by apply keeps_getReports].
Qed.

End Generic.
End Sessions.
(* ===================================================================== *)
(** ** What holds in every state a running process reaches                *)
(* ===================================================================== *)

Module SessionFacts.
Import JS Engine Proc Partition Adapter Routes Server Spec View Logic Frames Session Measures.
Import EngineFacts ProcFacts Invariant TripleFacts Keeps RowFrame Sessions.
Local Open Scope proc_scope.
Local Open Scope list_scope.

(** *** The engine choice *)

Section Setting.
Variable w0 : World.

Lemma setting_pgSide :
  (forall e, pgEvent e = true -> (fun _ : Event => true) e = true)
  /\ (forall d' w, (fun _ _ : Db => True) (pgDb w) d' -> sameSetting w0 w ->
        sameSetting w0 (setPgDb d' w))
  /\ (forall v d newId d', insertReport pgCheck v d = Some (newId, d') ->
        (fun _ _ : Db => True) d d')
  /\ preserves (sameSetting w0) ensurePostgresTable.
Proof.
  split; [done|]. split; [by intros d' w _ [? ?]|]. split; [done|].
  apply (keeps_ensurePostgresTable (sameSetting w0) (fun _ => true) (fun _ _ => True));
    done.
Qed.

Lemma setting_run tz steps w : sameSetting w0 w -> sameSetting w0 (run tz steps w).
Proof.
  apply (keeps_run (sameSetting w0) (fun _ => true) (fun _ _ => True) (fun _ _ => True));
    try done.
  - right. exact setting_pgSide.
  - right. unfold sameSetting.
    repeat split; try done; by match goal with H : _ /\ _ |- _ => destruct H end.
Qed.

End Setting.

Lemma usesPostgres_run tz steps w : usesPostgres (run tz steps w) = usesPostgres w.
Proof.
  destruct (setting_run w tz steps w) as [Hc _]; [done|].
  unfold usesPostgres. by rewrite Hc.
Qed.

Lemma globalSet_run tz steps w : globalSet (run tz steps w) = globalSet w.
Proof. by destruct (setting_run w tz steps w) as [_ Hg]. Qed.

(** *** Each engine is left alone while the other is in use *)

Section Isolation.
Variable w0 : World.

Lemma away_pg_event e w :
  negb (pgEvent e) = true -> awayFromPostgres w0 w ->
  awayFromPostgres w0 (setTrace (e :: trace w) w).
Proof.
  intros He (Hm & Hdb & evs & Ht & Hev). repeat split; try done.
  exists (e :: evs). cbn. by rewrite Ht, He, Hev.
Qed.

Lemma away_files_event e w :
  negb (fileEvent e) = true -> awayFromFiles w0 w ->
  awayFromFiles w0 (setTrace (e :: trace w) w).
Proof.
  intros He (Hm & Hf & Hd & evs & Ht & Hev). repeat split; try done.
  exists (e :: evs). cbn. by rewrite Ht, He, Hev.
Qed.

Ltac frame_away :=
  intros;
  match goal with
  | H : awayFromPostgres _ _ |- _ => destruct H as (? & ? & ? & ? & ?)
  | H : awayFromFiles _ _ |- _ => destruct H as (? & ? & ? & ? & ? & ?)
  end;
  repeat (split; [done|]); eexists; split; eassumption.

Lemma awayFromPostgres_run tz steps w :
  awayFromPostgres w0 w -> awayFromPostgres w0 (run tz steps w).
Proof.
  apply (keeps_run (awayFromPostgres w0) (fun e => negb (pgEvent e))
           (fun _ _ => True) (fun _ _ => True)).
  - apply away_pg_event.
  - done.
  - left. by intros w1 (Hm & _).
  - right. split; [by intros []|].
    split; [frame_away|]. split; [frame_away|]. split; [frame_away|]. done.
  - frame_away.
  - frame_away.
Qed.

Lemma awayFromFiles_run tz steps w :
  awayFromFiles w0 w -> awayFromFiles w0 (run tz steps w).
Proof.
  apply (keeps_run (awayFromFiles w0) (fun e => negb (fileEvent e))
           (fun _ _ => True) (fun _ _ => True)).
  - apply away_files_event.
  - done.
  - right. split; [by intros []|]. split; [frame_away|]. split; [done|].
    apply (keeps_ensurePostgresTable (awayFromFiles w0) (fun e => negb (fileEvent e))
             (fun _ _ => True)); [apply away_files_event | frame_away | done | done
                                 | by intros [] | done].
  - left. by intros w1 (Hm & _).
  - frame_away.
  - frame_away.
Qed.

End Isolation.

Lemma awayFromPostgres_start w : usesPostgres w = false -> awayFromPostgres w w.
Proof. intros H. repeat split; [done|]. by exists []. Qed.

Lemma awayFromFiles_start w : usesPostgres w = true -> awayFromFiles w w.
Proof. intros H. repeat split; [done|]. by exists []. Qed.

(** *** Invariants of the stores *)

Lemma storeAll_run (Qpg Qsq : Db -> Prop) tz :
  (forall req, preserves (storeAll Qpg Qsq) (postInputdata tz req)) ->
  (forall ym, preserves (storeAll Qpg Qsq) (getReports ym)) ->
  forall steps w, storeAll Qpg Qsq w -> storeAll Qpg Qsq (run tz steps w).
Proof. intros Hpost Hget. by apply run_keeps. Qed.

Lemma storeConsistent_run tz steps w :
  storeConsistent tz w -> storeConsistent tz (run tz steps w).
Proof.
  apply storeAll_run.
  - apply postInputdata_keeps_partition_invariant.
  - apply getReports_keeps_partition_invariant.
Qed.

Lemma schemasReady_run tz steps w : schemasReady w -> schemasReady (run tz steps w).
Proof.
  apply (storeAll_run _ _ tz).
  - apply postInputdata_keeps_schemas_ready.
  - apply getReports_keeps_schemas_ready.
Qed.

(** *** Identifiers *)

Lemma idsIncreasing_empty : idsIncreasing emptyDb.
Proof. split; constructor. Qed.

Lemma idsIncreasing_createTable b d d' :
  createTable b "reports" d = Some d' -> idsIncreasing d -> idsIncreasing d'.
Proof.
  intros H Hd. apply createTable_inv in H as [(_ & _ & ->) | (_ & ->)]; [done|].
  split; constructor.
Qed.

Lemma idsIncreasing_createIndex i d d' :
  createIndex i "reports" d = Some d' -> idsIncreasing d -> idsIncreasing d'.
Proof. intros H Hd. by apply createIndex_inv in H as (_ & _ & ->). Qed.

Lemma sorted_snoc (l : list Z) (x : Z) :
  StronglySorted Z.lt l -> Forall (fun y => y < x) l -> StronglySorted Z.lt (l ++ [x]).
Proof.
  induction 1 as [|y l Hs IH Hall]; intros Hx; cbn.
  - repeat constructor.
  - apply Forall_cons in Hx as [Hy Hx]. constructor; [by apply IH|].
    apply Forall_app. split; [done | by repeat constructor].
Qed.

Lemma idsIncreasing_insert chk v d newId d' :
  insertReport chk v d = Some (newId, d') -> idsIncreasing d -> idsIncreasing d'.
Proof.
  intros H [Hs Hle]. apply insertReport_inv in H as (_ & c & b & s & _ & -> & ->).
  split; cbn [rows lastId].
  - rewrite map_app. cbn. apply sorted_snoc; [done|].
    apply Forall_map. eapply Forall_impl; [exact Hle|]. cbn. intros; lia.
  - apply Forall_app. split.
    + eapply Forall_impl; [exact Hle|]. cbn. intros; lia.
    + repeat constructor. cbn. lia.
Qed.

Lemma idsOrdered_postInputdata tz req : preserves idsOrdered (postInputdata tz req).
Proof.
  apply preserves_postInputdata;
    eauto using idsIncreasing_empty, idsIncreasing_createTable, idsIncreasing_createIndex,
      idsIncreasing_insert.
Qed.

Lemma idsOrdered_getReports ym : preserves idsOrdered (getReports ym).
Proof.
  apply preserves_getReports;
    eauto using idsIncreasing_empty, idsIncreasing_createTable, idsIncreasing_createIndex,
      idsIncreasing_insert.
Qed.

Lemma idsOrdered_run tz steps w : idsOrdered w -> idsOrdered (run tz steps w).
Proof.
  apply (storeAll_run _ _ tz); [apply idsOrdered_postInputdata | apply idsOrdered_getReports].
Qed.

(** In a table whose identifiers grow, the last row has the largest. *)
Lemma idsIncreasing_last d l r :
  idsIncreasing d -> rows d = l ++ [r] -> Forall (fun x => row_id x < row_id r) l.
Proof.
  intros [Hs _] Hrows. rewrite Hrows, map_app in Hs. cbn in Hs.
  clear Hrows. induction l as [|x l IH]; [constructor|].
  cbn in Hs. inversion Hs as [|? ? Hs' Hall]; subst.
  constructor; [|by apply IH].
  apply Forall_app in Hall as [_ Hall]. by inversion Hall.
Qed.

End SessionFacts.
(* ===================================================================== *)
(** ** Connections and file handles                                       *)
(* ===================================================================== *)

Module HandleFacts.
Import JS Engine Proc Partition Adapter Routes Server Spec View Logic Frames Session Measures.
Import EngineFacts PartitionFacts ProcFacts Invariant TripleFacts Keeps Sessions SessionFacts.
Import Outcomes RouteFacts.
Local Open Scope proc_scope.
Local Open Scope list_scope.

#[local] Arguments ensureSqliteTable : simpl never.
#[local] Arguments ensurePostgresTable : simpl never.
#[local] Arguments getSqliteDatabase : simpl never.
#[local] Arguments insertReport : simpl never.
#[local] Arguments selectByMonth : simpl never.
#[local] Arguments getMonthPartition : simpl never.
#[local] Arguments hasObj : simpl never.

(** *** Code that never ends the process *)

Lemma answers_ret {A} (a : A) : answers (ret a).
Proof. by intros w. Qed.

Lemma answers_bind {A B} (m : M A) (f : A -> M B) :
  answers m -> (forall a, answers (f a)) -> answers (bind m f).
Proof.
  intros Hm Hf w. unfold bind. specialize (Hm w).
  destruct (m w) as [[a | e | c] w1]; cbn in *; [apply Hf | done | done].
Qed.

Lemma answers_if {A} (b : bool) (m1 m2 : M A) :
  answers m1 -> answers m2 -> answers (if b then m1 else m2).
Proof. by destruct b. Qed.

Lemma answers_clientQueryRead {A} s (q : Db -> option A) : answers (clientQueryRead s q).
Proof. intros w. unfold clientQueryRead, bind, emit. cbn. by destruct (q (pgDb w)). Qed.

Lemma answers_clientQueryWrite {A} s (q : Db -> option (A * Db)) :
  answers (clientQueryWrite s q).
Proof.
  intros w. unfold clientQueryWrite, bind, emit. cbn. by destruct (q (pgDb w)) as [[? ?]|].
Qed.

Lemma answers_sqliteRead {A} db s (q : Db -> option A) : answers (sqliteRead db s q).
Proof.
  intros w. unfold sqliteRead, bind, emit. cbn.
  destruct (files w !! db) as [d|]; [by destruct (q d) | done].
Qed.

Lemma answers_sqliteWrite {A} db s (q : Db -> option (A * Db)) :
  answers (sqliteWrite db s q).
Proof.
  intros w. unfold sqliteWrite, bind, emit. cbn.
  destruct (files w !! db) as [d|]; [by destruct (q d) as [[? ?]|] | done].
Qed.

Lemma answers_ensurePostgresTable : answers ensurePostgresTable.
Proof.
  intros w. pose proof (ensurePostgresTable_run w) as H.
  destruct (pgBootstrap (pgDb w)); destruct H as [? ->]; done.
Qed.

(** *** Events of one kind *)

Section Kind.
Variable k : Event -> bool.

Let logs (l : list Event) (w : World) : Prop := List.filter k (trace w) = l.

Lemma logs_event l e w :
  negb (k e) = true -> logs l w -> logs l (setTrace (e :: trace w) w).
Proof. unfold logs. cbn. intros He <-. apply negb_true_iff in He. by rewrite He. Qed.

Lemma silent_from {A} (m : M A) : (forall l, preserves (logs l) m) -> silent k m.
Proof. intros H w. destruct (m w) as [r w'] eqn:E. cbn. exact (H _ _ _ _ E eq_refl). Qed.

Lemma silent_ret {A} (a : A) : silent k (ret a).
Proof. by intros w. Qed.

Lemma silent_bind {A B} (m : M A) (f : A -> M B) :
  silent k m -> (forall a, silent k (f a)) -> silent k (bind m f).
Proof.
  intros Hm Hf w. unfold bind. specialize (Hm w).
  destruct (m w) as [[a | e | c] w1]; cbn in *; [by rewrite Hf | done | done].
Qed.

Lemma silent_if {A} (b : bool) (m1 m2 : M A) :
  silent k m1 -> silent k m2 -> silent k (if b then m1 else m2).
Proof. by destruct b. Qed.

Lemma silent_clientQueryRead {A} s (q : Db -> option A) :
  k (EvPgQuery s) = false -> silent k (clientQueryRead s q).
Proof.
  intros He. apply silent_from. intros l.
  apply (keeps_clientQueryRead (logs l) (fun e => negb (k e)) (logs_event l)).
  by rewrite He.
Qed.

Lemma silent_clientQueryWrite {A} s (q : Db -> option (A * Db)) :
  k (EvPgQuery s) = false -> silent k (clientQueryWrite s q).
Proof.
  intros He. apply silent_from. intros l.
  apply (keeps_clientQueryWrite (logs l) (fun e => negb (k e)) (fun _ _ => True)
           (logs_event l)); [done | by rewrite He | done].
Qed.

Lemma silent_sqliteRead {A} db s (q : Db -> option A) :
  k (EvSqliteStmt db s) = false -> silent k (sqliteRead db s q).
Proof.
  intros He. apply silent_from. intros l.
  apply (keeps_sqliteRead (logs l) (fun e => negb (k e)) (logs_event l)).
  by rewrite He.
Qed.

Lemma silent_sqliteWrite {A} db s (q : Db -> option (A * Db)) :
  k (EvSqliteStmt db s) = false -> silent k (sqliteWrite db s q).
Proof.
  intros He. apply silent_from. intros l.
  apply (keeps_sqliteWrite (logs l) (fun e => negb (k e)) (fun _ _ => True)
           (logs_event l)); [done | by rewrite He | done].
Qed.

Lemma silent_ensureSqliteTable db :
  (forall s, k (EvSqliteStmt db s) = false) -> silent k (ensureSqliteTable db).
Proof.
  intros He. apply silent_from. intros l.
  apply (keeps_ensureSqliteTable (logs l) (fun e => negb (k e)) (fun _ _ => True)
           (logs_event l)); try done.
  intros s. by rewrite He.
Qed.

Lemma silent_ensurePostgresTable :
  (forall s, k (EvPgQuery s) = false) -> k EvConsoleError = false ->
  silent k ensurePostgresTable.
Proof.
  intros He Hc. apply silent_from. intros l.
  apply (keeps_ensurePostgresTable_queries (logs l) (fun e => negb (k e)) (fun _ _ => True)
           (logs_event l)); try done.
  - intros s. by rewrite He.
  - by rewrite Hc.
Qed.

(** [try { body } finally { log e }] *)
Lemma tryFinally_log {A} (body : M A) e w :
  answers body ->
  List.filter k (trace (snd (tryFinally body (emit e) w)))
  = (if k e then [e] else []) ++ List.filter k (trace (snd (body w))).
Proof.
  intros Ha. unfold tryFinally, emit. specialize (Ha w).
  destruct (body w) as [[a | e' | c] w1]; cbn in *; [by destruct (k e).. | done].
Qed.

(** The handlers of the two routes add an error line at most. *)
Lemma getReports_log ym w :
  k EvConsoleError = false ->
  List.filter k (trace (snd (getReports ym w)))
  = List.filter k (trace (snd (getReportsByMonth ym w))).
Proof.
  intros Hk. unfold getReports, tryCatch, bind.
  destruct (getReportsByMonth ym w) as [[rs | e | c] w1]; cbn; [done | by rewrite Hk | done].
Qed.

Lemma postInputdata_log_no_body tz w :
  k EvConsoleError = false ->
  List.filter k (trace (snd (postInputdata tz None w))) = List.filter k (trace w).
Proof. intros Hk. destruct w. cbn. by rewrite Hk. Qed.

Lemma postInputdata_log tz body w :
  k EvConsoleError = false -> missingField body = false ->
  List.filter k (trace (snd (postInputdata tz (Some body) w)))
  = List.filter k
      (trace (snd (addReport tz (mkData (b_class body) (b_isadd body) (b_changescore body)
                                        (b_note body) (b_submitter body)) w))).
Proof.
  intros Hk Hm. unfold postInputdata, tryCatch, bind. rewrite Hm.
  destruct (addReport _ _ w) as [[rs | e | c] w1]; cbn; [done | by rewrite Hk | done].
Qed.

End Kind.

(** *** The two functions of the adapter, by branch *)

Lemma getReportsByMonth_branch ym w :
  globalSet w = true ->
  getReportsByMonth ym w
  = (if usesPostgres w then
       poolConnect ;;;
       tryFinally
         (ensurePostgresTable ;;;
          clientQueryRead SqlSelect (selectByMonth ym))
         clientRelease
     else
       db <- getSqliteDatabase ym ;;
       tryFinally
         (tableExists <- sqliteRead db SqlCheckTable
            (fun d => Some (hasObj KTable "reports" d)) ;;
          if negb tableExists then ret []
          else sqliteRead db SqlSelect (selectByMonth ym))
         (sqliteClose db)) w.
Proof.
  intros Hg. unfold getReportsByMonth at 1. unfold bind at 1. unfold getDbType.
  rewrite Hg. unfold usesPostgres. by destruct (isPostgres _).
Qed.

Lemma addReport_branch tz data w :
  globalSet w = true ->
  addReport tz data w
  = (if usesPostgres w then
       poolConnect ;;;
       tryFinally
         (ensurePostgresTable ;;;
          newId <- clientQueryWrite SqlInsert
            (insertReport pgCheck
               (mkValues (parseInt (d_class data)) (JBool (Boolean (d_isadd data)))
                  (parseInt (d_changescore data)) (clock w) (d_note data)
                  (d_submitter data) (getMonthPartition tz (clock w)))) ;;
          ret (mkResult newId (getMonthPartition tz (clock w)) (clock w)))
         clientRelease
     else
       db <- getSqliteDatabase (getMonthPartition tz (clock w)) ;;
       tryFinally
         (lastInsertRowid <- sqliteWrite db SqlInsert
            (insertReport sqliteCheck
               (mkValues (parseInt (d_class data))
                  (JNum (Int (if Boolean (d_isadd data) then 1 else 0)))
                  (parseInt (d_changescore data)) (clock w) (d_note data)
                  (d_submitter data) (getMonthPartition tz (clock w)))) ;;
          ret (mkResult lastInsertRowid (getMonthPartition tz (clock w)) (clock w)))
         (sqliteClose db)) w.
Proof.
  intros Hg. unfold addReport at 1. unfold bind at 1. unfold Date_now.
  unfold bind at 1. unfold getDbType.
  rewrite Hg. unfold usesPostgres. by destruct (isPostgres _).
Qed.

(** *** A pooled connection *)

Lemma poolConnect_run w :
  poolConnect w
  = (if pgOnline w then Ok tt else Throw ErrPgConnect,
     setTrace (EvPgConnect :: trace w) w).
Proof.
  destruct w as [ctx g dir fs on pg clk tr].
  unfold poolConnect, bind, emit. cbn. by destruct on.
Qed.

Lemma pgSession_handles {A} (body : M A) w :
  silent pgHandle body -> answers body ->
  List.filter pgHandle
    (trace (snd ((poolConnect ;;;
                  tryFinally (ensurePostgresTable ;;; body) clientRelease) w)))
  = (if pgOnline w then [EvPgRelease; EvPgConnect] else [EvPgConnect])
    ++ List.filter pgHandle (trace w).
Proof.
  intros Hs Ha. pose proof (poolConnect_run w) as Hc.
  destruct (pgOnline w).
  - rewrite (bind_Ok _ _ _ _ _ Hc). unfold clientRelease.
    rewrite tryFinally_log.
    2: { apply answers_bind; [apply answers_ensurePostgresTable | done]. }
    assert (Hq : silent pgHandle (ensurePostgresTable ;;; body)).
    { apply silent_bind; [by apply silent_ensurePostgresTable | done]. }
    by rewrite Hq.
  - by rewrite (bind_Throw _ _ _ _ _ Hc).
Qed.

(** *** A database file *)

Lemma getSqliteDatabase_handles p w :
  List.filter fileHandle (trace (snd (getSqliteDatabase p w)))
  = EvSqliteOpen (dbFileName p) :: List.filter fileHandle (trace w).
Proof.
  unfold getSqliteDatabase.
  destruct w as [ctx g dir fs on pg clk tr].
  unfold fsExistsSync, fsMkdirSync, newDatabase, bind, emit, ret. cbn.
  assert (Hq : forall W, List.filter fileHandle (trace (snd (ensureSqliteTable (dbFileName p) W)))
                         = List.filter fileHandle (trace W)).
  { apply silent_ensureSqliteTable. done. }
  destruct dir; cbn; destruct (pathSafe (dbFileName p)); cbn; try done;
    destruct (fs !! dbFileName p); cbn;
    match goal with |- context [ensureSqliteTable ?f ?W] =>
      specialize (Hq W); destruct (ensureSqliteTable f W) as [[[] | e | c] w2]
    end; cbn in *; by rewrite Hq.
Qed.

Lemma getSqliteDatabase_outcome p w :
  pathSafe p = true ->
  fst (getSqliteDatabase p w)
  = if sqliteSchemaReady (default emptyDb (files w !! dbFileName p))
    then Ok (dbFileName p) else Throw ErrSqlite.
Proof.
  intros Hs. pose proof (getSqliteDatabase_run p w (dbFileName_pathSafe _ Hs)) as H.
  destruct (sqliteBootstrap _) as [d1|] eqn:Eb.
  - rewrite (sqliteBootstrap_needs_ready _ _ Eb). by destruct H as [evs ->].
  - destruct (sqliteSchemaReady _) eqn:Er.
    + apply sqliteBootstrap_ready in Er as [? ?]. congruence.
    + by destruct H as [w' ->].
Qed.

Lemma sqliteSession_handles {A} p (body : string -> M A) w :
  pathSafe p = true ->
  (forall db, silent fileHandle (body db)) -> (forall db, answers (body db)) ->
  List.filter fileHandle
    (trace (snd ((db <- getSqliteDatabase p ;;
                  tryFinally (body db) (sqliteClose db)) w)))
  = (if sqliteSchemaReady (default emptyDb (files w !! dbFileName p))
     then [EvSqliteClose (dbFileName p); EvSqliteOpen (dbFileName p)]
     else [EvSqliteOpen (dbFileName p)])
    ++ List.filter fileHandle (trace w).
Proof.
  intros Hp Hs Ha.
  pose proof (getSqliteDatabase_outcome p w Hp) as Ho.
  pose proof (getSqliteDatabase_handles p w) as Hh.
  unfold bind at 1.
  destruct (getSqliteDatabase p w) as [r w1]. cbn in Ho, Hh. subst r.
  destruct (sqliteSchemaReady _).
  - unfold sqliteClose. rewrite tryFinally_log by done. by rewrite Hs, Hh.
  - cbn. by rewrite Hh.
Qed.

(** *** Requests that do not reach the engine *)

Lemma no_pgHandle evs :
  forallb (fun e => negb (pgEvent e)) evs = true -> List.filter pgHandle evs = [].
Proof.
  induction evs as [|e evs IH]; [done|]. cbn. intros H.
  apply andb_true_iff in H as [He H]. rewrite IH by done. by destruct e.
Qed.

Lemma no_fileHandle evs :
  forallb (fun e => negb (fileEvent e)) evs = true -> List.filter fileHandle evs = [].
Proof.
  induction evs as [|e evs IH]; [done|]. cbn. intros H.
  apply andb_true_iff in H as [He H]. rewrite IH by done. by destruct e.
Qed.

Lemma sqlite_mode_no_pgHandle tz s w :
  usesPostgres w = false ->
  List.filter pgHandle (trace (step tz s w)) = List.filter pgHandle (trace w).
Proof.
  intros Hp.
  destruct (awayFromPostgres_run w tz [s] w (awayFromPostgres_start w Hp))
    as (_ & _ & evs & Ht & Hev).
  cbn in Ht. by rewrite Ht, List.filter_app, no_pgHandle.
Qed.

Lemma pg_mode_no_fileHandle tz s w :
  usesPostgres w = true ->
  List.filter fileHandle (trace (step tz s w)) = List.filter fileHandle (trace w).
Proof.
  intros Hp.
  destruct (awayFromFiles_run w tz [s] w (awayFromFiles_start w Hp))
    as (_ & _ & _ & evs & Ht & Hev).
  cbn in Ht. by rewrite Ht, List.filter_app, no_fileHandle.
Qed.

End HandleFacts.
(* ===================================================================== *)
(** ** What a stored report changes                                       *)
(* ===================================================================== *)

Module SubmitFacts.
Import JS DateModel Partition Engine Proc Adapter Routes Server Spec View Logic Frames Measures.
Import EngineFacts PartitionFacts ProcFacts RouteFacts KeyFacts Outcomes.
Local Open Scope proc_scope.
Local Open Scope list_scope.

(** An answer 200 comes from a request with a body. *)
Lemma postInputdata_200_body tz req w resp w' :
  postInputdata tz req w = (Ok resp, w') -> status resp = 200 ->
  exists body, req = Some body.
Proof.
  destruct req as [body|]; [eauto|].
  rewrite postInputdata_no_body. intros H Hs. inversion H; subst. done.
Qed.

(** An answer 200 comes from a successful [addReport]. *)
Lemma postInputdata_200_inv tz body w resp w' :
  postInputdata tz (Some body) w = (Ok resp, w') -> status resp = 200 ->
  missingField body = false
  /\ exists res,
       addReport tz (mkData (b_class body) (b_isadd body) (b_changescore body)
                            (b_note body) (b_submitter body)) w = (Ok res, w')
       /\ resp = mkResponse 200 true
                   (Submitted (res_id res) (res_database res) (res_submittime res)).
Proof.
  intros H Hs.
  destruct (missingField body) eqn:Hm.
  { rewrite postInputdata_missing in H by done. inversion H; subst. done. }
  split; [done|].
  destruct (addReport tz _ w) as [[res | e | c] w1] eqn:E.
  - rewrite (postInputdata_added _ _ _ _ _ Hm E) in H. inversion H; subst. eauto.
  - rewrite (postInputdata_thrown _ _ _ _ _ Hm E) in H. inversion H; subst. done.
  - unfold postInputdata, tryCatch in H. rewrite Hm in H. unfold bind in H.
    rewrite E in H. done.
Qed.

Lemma partitionRows_target ym w :
  partitionRows ym w = List.filter (inPartition ym) (targetRows ym w).
Proof. unfold partitionRows, targetRows. by destruct (usesPostgres w). Qed.

Lemma filter_snoc_in ym l r :
  month_partition r = ym ->
  List.filter (inPartition ym) (l ++ [r]) = List.filter (inPartition ym) l ++ [r].
Proof.
  intros Hr. rewrite List.filter_app. cbn. unfold inPartition at 2.
  by rewrite Hr, String.eqb_refl.
Qed.

Lemma filter_snoc_out ym l r :
  month_partition r <> ym ->
  List.filter (inPartition ym) (l ++ [r]) = List.filter (inPartition ym) l.
Proof.
  intros Hr. rewrite List.filter_app. cbn. unfold inPartition at 2.
  destruct (String.eqb_spec (month_partition r) ym); [done|]. by rewrite app_nil_r.
Qed.

Lemma stored_setting p d2 evs w :
  usesPostgres (stored p d2 evs w) = usesPostgres w
  /\ globalSet (stored p d2 evs w) = globalSet w
  /\ pgOnline (stored p d2 evs w) = pgOnline w.
Proof.
  unfold stored, usesPostgres. destruct w as [ctx g dir fs on pg clk tr]. cbn.
  destruct (isPostgres (type ctx)) eqn:E; cbn; by rewrite E.
Qed.

Lemma stored_database p d2 evs w :
  if usesPostgres w then pgDb (stored p d2 evs w) = d2
  else files (stored p d2 evs w) !! dbFileName p = Some d2.
Proof.
  unfold stored. destruct (usesPostgres w); cbn; [done | by rewrite lookup_insert_eq].
Qed.

Lemma stored_target p d2 evs w : targetRows p (stored p d2 evs w) = reportsOf d2.
Proof.
  destruct (stored_setting p d2 evs w) as (Hm & _). unfold targetRows. rewrite Hm.
  pose proof (stored_database p d2 evs w) as Hd. unfold fileReports.
  destruct (usesPostgres w); by rewrite Hd.
Qed.

Lemma stored_ready p d2 evs w :
  globalSet w = true -> (usesPostgres w = true -> pgOnline w = true) ->
  pathSafe p = true ->
  hasObj KTable "reports" d2 = true ->
  (usesPostgres w = false -> hasObj KIndex "idx_month_partition" d2 = true) ->
  engineReady p (stored p d2 evs w) = true.
Proof.
  intros Hg Hon Hs Ht Hi. destruct (stored_setting p d2 evs w) as (Hm & Hg' & Hon').
  unfold engineReady. rewrite Hg', Hg, Hm, Hon'. cbn [andb].
  pose proof (stored_database p d2 evs w) as Hd.
  destruct (usesPostgres w).
  - rewrite Hon, Hd by done. unfold pgSchemaReady. by rewrite Ht.
  - rewrite Hs, Hd. unfold sqliteSchemaReady. by rewrite Ht, Hi.
Qed.

Lemma stored_elsewhere p d2 evs w r ym :
  reportsOf d2 = targetRows p w ++ [r] -> month_partition r = p -> ym <> p ->
  partitionRows ym (stored p d2 evs w) = partitionRows ym w.
Proof.
  intros Hrows Hr Hne. destruct (stored_setting p d2 evs w) as (Hm & _).
  unfold partitionRows. rewrite Hm. unfold targetRows in Hrows. unfold stored.
  destruct (usesPostgres w); cbn.
  - rewrite Hrows, List.filter_app. cbn. unfold inPartition at 2. rewrite Hr.
    destruct (String.eqb_spec p ym); [congruence|]. by rewrite app_nil_r.
  - unfold fileReports. cbn. rewrite lookup_insert_ne; [done|].
    intros E. by apply dbFileName_inj in E.
Qed.

End SubmitFacts.
(* ===================================================================== *)
(** ** POST /login                                                        *)
(* ===================================================================== *)

Module LoginFacts.
Import JS Spec Login.
Local Open Scope list_scope.

Section WithAuthenticator.
Variable authenticatorCheck : JsVal -> JsVal -> option bool.

(** Without a parsed body the destructuring throws inside [try]. *)
Lemma login_no_body file :
  login authenticatorCheck file None
  = (mkAuth 500 false AuthServerError, [AuthConsoleError]).
Proof. reflexivity. Qed.

Lemma login_malformed file body :
  wellFormed body = false ->
  exists reason,
    login authenticatorCheck file (Some body) = (mkAuth 401 false reason, [])
    /\ (reason = MissingCredentials \/ reason = BadCodeFormat).
Proof.
  unfold wellFormed, login, loginTry. intros H.
  destruct (truthy (jsOr (lb_user body) (lb_username body))); cbn in *;
    [|by eexists; split; [|left]].
  destruct (truthy (lb_totppass body)); cbn in *; [|by eexists; split; [|left]].
  rewrite H. cbn. by eexists; split; [|right].
Qed.

(** A well-formed request: the answer depends on the file, the first
    entry of the user and the authenticator. *)
Lemma login_wellFormed file body :
  wellFormed body = true ->
  login authenticatorCheck file (Some body)
  = match file with
    | NotAnArray => (mkAuth 500 false AuthServerError, [AuthConsoleError; AuthReadFile])
    | Unreadable => (mkAuth 403 false UserNotFound, [AuthConsoleError; AuthReadFile])
    | UserArray l =>
        match userRecordOf file body with
        | None => (mkAuth 403 false UserNotFound, [AuthReadFile])
        | Some userRecord =>
            let asked := AuthCheck (lb_totppass body) (totp_secret userRecord) in
            match authenticatorCheck (lb_totppass body) (totp_secret userRecord) with
            | Some true =>
                (mkAuth 200 true (Verified (jsOr (lb_user body) (lb_username body))),
                 [asked; AuthReadFile])
            | Some false => (mkAuth 403 false WrongCode, [asked; AuthReadFile])
            | None => (mkAuth 500 false AuthServerError,
                       [AuthConsoleError; asked; AuthReadFile])
            end
        end
    end.
Proof.
  unfold wellFormed, login, loginTry, userRecordOf. intros H.
  apply andb_true_iff in H as [H H6]. apply andb_true_iff in H as [Hu Ht].
  rewrite Hu, Ht, H6. cbn [negb orb].
  destruct file as [| |l]; cbn; [done | done |].
  destruct (List.find _ l) as [userRecord|]; [|done].
  by destruct (authenticatorCheck _ _) as [[|]|].
Qed.

(** With a file that cannot be read the authenticator is not asked. *)
Lemma login_unreadable_no_check reqBody token secret :
  ~ In (AuthCheck token secret) (snd (login authenticatorCheck Unreadable reqBody)).
Proof.
  destruct reqBody as [body|]; [|by intros [H | []]].
  destruct (wellFormed body) eqn:Hwf.
  - rewrite (login_wellFormed Unreadable body Hwf). cbn.
    intros [H | [H | []]]; discriminate H.
  - destruct (login_malformed Unreadable body Hwf) as (reason & -> & _). by intros [].
Qed.

End WithAuthenticator.
End LoginFacts.
(* ===================================================================== *)
(** ** The index of the PostgreSQL table                                  *)
(* ===================================================================== *)

Module IndexFacts.
Import JS Engine Proc Partition Adapter Routes Server Spec View Logic Frames Session Measures.
Import EngineFacts ProcFacts Invariant Keeps Sessions.
Local Open Scope proc_scope.
Local Open Scope list_scope.

(** Once the table is there, [ensurePostgresTable] asks for it and
    does nothing else. *)
Lemma ensurePostgresTable_table_there w :
  hasObj KTable "reports" (pgDb w) = true ->
  ensurePostgresTable w = (Ok tt, setTrace (EvPgQuery SqlCheckTable :: trace w) w).
Proof.
  intros Ht. unfold ensurePostgresTable, tryCatch, clientQueryRead, bind, emit, ret.
  cbn. by rewrite Ht.
Qed.

Lemma tableWithoutIndex_catalog d d' :
  catalog d' = catalog d -> tableWithoutIndex d -> tableWithoutIndex d'.
Proof. unfold tableWithoutIndex, hasObj. by intros ->. Qed.

Lemma tableWithoutIndex_run tz steps w :
  tableWithoutIndex (pgDb w) -> tableWithoutIndex (pgDb (run tz steps w)).
Proof.
  apply (keeps_run (fun w => tableWithoutIndex (pgDb w)) (fun _ => true)
           (fun d d' => catalog d' = catalog d) (fun _ _ => True)); try done.
  - right. split; [done|]. split; [|split].
    + intros d' w1 Hc. cbn. by apply tableWithoutIndex_catalog.
    + intros v d newId d' H. by apply insertReport_inv in H as (_ & c & b & s & _ & _ & ->).
    + intros w1 r w' H Hw. rewrite ensurePostgresTable_table_there in H by apply Hw.
      by inversion H; subst.
  - right. repeat (split; [by intros|]). done.
Qed.

End IndexFacts.

(* ===================================================================== *)
(** ** Start-up                                                           *)
(* ===================================================================== *)

Module InitFacts.
Import JS Engine Proc Server View Logic.
Local Open Scope proc_scope.
Local Open Scope list_scope.

(** [initDatabase] returns with the context ready and the global set,
    or ends the process with code 1. *)
Lemma initDatabase_ends env w :
  match initDatabase env w with
  | (Ok _, w1) => isReady (dbContext w1) = true /\ globalSet w1 = true
  | (Exit c, _) => c = 1
  | (Throw _, _) => False
  end.
Proof.
  destruct w as [ctx g dir fs on pg clk tr].
  unfold initDatabase, initPostgres, initSqlite, setReady, poolConnect, clientRelease,
    consoleError, fsExistsSync, fsMkdirSync, tryCatch, bind, emit, ret, throw, processExit.
  cbn [pgOnline dirExists].
  destruct (String.eqb (DB_TYPE env) "postgres");
    [destruct on
    | destruct (String.eqb (DB_TYPE env) "sqlite");
      [destruct dir | destruct on; [|destruct dir]]];
    by cbn.
Qed.

End InitFacts.
(* ===================================================================== *)
(** ** One file per partition; a bootstrap in two statements              *)
(* ===================================================================== *)

Module LayoutFacts.
Import JS DateModel Partition Engine Proc Adapter Routes Server Spec View Logic Frames.
Import Session Measures.
Import EngineFacts PartitionFacts ProcFacts RouteFacts KeyFacts Outcomes SubmitFacts.
Import Invariant TripleFacts RowFrame Sessions SessionFacts HandleFacts.
Local Open Scope proc_scope.
Local Open Scope list_scope.

#[local] Arguments createTable : simpl never.
#[local] Arguments createIndex : simpl never.
#[local] Arguments hasObj : simpl never.
#[local] Arguments selectByMonth : simpl never.

Lemma filesByPartition_sameRows w0 w :
  sameRows w0 w -> filesByPartition w0 -> filesByPartition w.
Proof. intros [_ Hfiles] H f. rewrite Hfiles. apply H. Qed.

Lemma filesByPartition_stored p d2 evs w r :
  reportsOf d2 = targetRows p w ++ [r] -> month_partition r = p ->
  filesByPartition w -> filesByPartition (stored p d2 evs w).
Proof.
  intros Hrows Hr H f. unfold stored, targetRows in *.
  destruct (usesPostgres w); [apply H|].
  unfold fileReports. cbn. destruct (decide (dbFileName p = f)) as [<- | Hne].
  - rewrite lookup_insert_eq, Hrows. apply Forall_app. split; [apply H|].
    repeat constructor. by rewrite Hr.
  - rewrite lookup_insert_ne by done. apply H.
Qed.

Lemma filesByPartition_postInputdata tz req :
  preserves filesByPartition (postInputdata tz req).
Proof.
  intros w r w' Hrun Hw.
  destruct req as [body|].
  2: { rewrite postInputdata_no_body in Hrun. inversion Hrun; subst r w'.
       intros f. apply (Hw f). }
  destruct (missingField body) eqn:Hm.
  { rewrite postInputdata_missing in Hrun by done. by inversion Hrun; subst. }
  destruct (addReport tz
              (mkData (b_class body) (b_isadd body) (b_changescore body)
                      (b_note body) (b_submitter body)) w)
    as [[res | e | c] w1] eqn:E.
  - rewrite (postInputdata_added _ _ _ _ _ Hm E) in Hrun. inversion Hrun; subst r w'.
    apply addReport_Ok in E as (id & c & s & d2 & evs & _ & _ & _ & -> & Hrows & _).
    by eapply filesByPartition_stored.
  - pose proof (postInputdata_thrown _ _ _ _ _ Hm E) as Hrun'.
    rewrite Hrun' in Hrun. inversion Hrun; subst r w'.
    apply (filesByPartition_sameRows w); [|done].
    by apply (rows_postInputdata w tz (Some body) w _ _ Hrun' (sameRows_refl w)
                (mkResponse 500 false ServerError)).
  - pose proof (addReport_returns tz
                  (mkData (b_class body) (b_isadd body) (b_changescore body)
                          (b_note body) (b_submitter body)) w) as Hret.
    by rewrite E in Hret.
Qed.

Lemma filesByPartition_getReports ym : preserves filesByPartition (getReports ym).
Proof.
  intros w r w' Hrun Hw. apply (filesByPartition_sameRows w); [|done].
  exact (rows_getReports w ym w r w' Hrun (sameRows_refl w)).
Qed.

Lemma filesByPartition_run tz steps w :
  filesByPartition w -> filesByPartition (run tz steps w).
Proof.
  apply run_keeps; try done.
  - apply filesByPartition_postInputdata.
  - apply filesByPartition_getReports.
Qed.

(** A partition name has no path separator. *)
Lemma keyChars_pathSafe s : keyChars s = true -> pathSafe s = true.
Proof.
  induction s as [|c s IH]; [done|]. cbn [keyChars pathSafe].
  intros H. apply andb_true_iff in H as [Hc Hs]. rewrite (IH Hs), andb_true_r.
  destruct (Ascii.eqb_spec c "/") as [-> | _]; [by vm_compute in Hc | done].
Qed.

Lemma partitionName_pathSafe ym : partitionName ym = true -> pathSafe ym = true.
Proof.
  unfold partitionName. intros H. apply andb_true_iff in H as [_ H].
  by apply keyChars_pathSafe.
Qed.

(** Where every row of a list is in the partition, the filter keeps the
    list. *)
Lemma filter_all ym l :
  Forall (fun r => month_partition r = ym) l -> List.filter (inPartition ym) l = l.
Proof.
  induction 1 as [|r l Hr _ IH]; [done|]. cbn. unfold inPartition at 1.
  by rewrite Hr, String.eqb_refl, IH.
Qed.

(** *** PostgreSQL: the table is created, the index is refused *)

Lemma ensurePostgresTable_index_refused w :
  nameTaken "reports" (pgDb w) = false ->
  nameTaken "reports_month_partition_idx" (pgDb w) = true ->
  ensurePostgresTable w
  = (Throw ErrPgQuery,
     setTrace (EvConsoleError :: EvPgQuery SqlCreateIndex :: EvPgQuery SqlCreateTable
               :: EvPgQuery SqlCheckTable :: trace w)
       (setPgDb (mkDb (catalog (pgDb w) ++ [(KTable, "reports")]) [] 0) w)).
Proof.
  intros Hfree Htaken.
  assert (Hno : hasObj KTable "reports" (pgDb w) = false).
  { destruct (hasObj KTable "reports" (pgDb w)) eqn:E; [|done].
    apply hasObj_nameTaken in E. congruence. }
  assert (Hidx : createIndex "reports_month_partition_idx" "reports"
                   (mkDb (catalog (pgDb w) ++ [(KTable, "reports")]) [] 0) = None).
  { unfold createIndex. by rewrite nameTaken_snoc, nameTaken_catalog, Htaken. }
  destruct w as [ctx g dir fs on pg clk tr]. cbn [pgDb] in *.
  unfold ensurePostgresTable, tryCatch, clientQueryRead, clientQueryWrite, consoleError,
    throw, bind, emit, ret.
  cbn. rewrite Hno. cbn. rewrite (createTable_fresh false _ _ Hfree). cbn.
  by rewrite Hidx.
Qed.

End LayoutFacts.

(* ===================================================================== *)
(** ** The properties of the specification                                *)
(* ===================================================================== *)

Import JS DateModel Partition Engine Proc Adapter Routes Server Spec View.
Import JSFacts DateFacts PartitionFacts EngineFacts ProcFacts RouteFacts.
Local Open Scope proc_scope.
Local Open Scope list_scope.

(** C1.  Whenever [addReport] succeeds, on PostgreSQL as on SQLite,
    exactly one row is added to the store it writes to (the shared
    table, or the file of the returned partition); the row's
    [month_partition] is [getMonthPartition] of the row's own
    [submittime]; and that [submittime], the partition and the row
    identifier are the ones returned to the caller. *)
Theorem C1_partition_matches_submittime
    (LocalTZA : Z -> Z) (data : ReportData) (w w' : World) (res : AddResult) :
  addReport LocalTZA data w = (Ok res, w') ->
  exists r : Row,
    targetRows (res_database res) w' = targetRows (res_database res) w ++ [r]
    /\ usesPostgres w' = usesPostgres w
    /\ row_id r = res_id res
    /\ submittime r = res_submittime res
    /\ month_partition r = res_database res
    /\ month_partition r = getMonthPartition LocalTZA (submittime r).
Proof.
  intros Hrun.
  destruct (globalSet w) eqn:Hg;
    [|rewrite addReport_noGlobal in Hrun by done; discriminate].
  destruct (usesPostgres w) eqn:Hp.
  - destruct (pgOnline w) eqn:Hon.
    2: { destruct (addReport_pg_offline LocalTZA data w Hg Hp Hon) as [? H].
         congruence. }
    pose proof (addReport_pg_run LocalTZA data w Hg Hp Hon) as H.
    destruct (pgBootstrap (pgDb w)) as [d1|] eqn:Eb;
      [|destruct H as [? H]; congruence].
    destruct (insertReport pgCheck _ d1) as [[newId d2]|] eqn:Ei;
      [|destruct H as [? H]; congruence].
    destruct H as [evs H]. rewrite H in Hrun. inversion Hrun; subst res w'; clear Hrun.
    apply insertReport_reportsOf in Ei as (r & c & b & s & _ & -> & Hrows & _).
    apply pgBootstrap_spec in Eb as (_ & Hsame & _).
    eexists. unfold targetRows, usesPostgres in *. cbn. rewrite Hp.
    rewrite Hrows, Hsame. repeat split.
  - pose proof (addReport_sqlite_run LocalTZA data w Hg Hp) as H.
    destruct (sqliteBootstrap _) as [d1|] eqn:Eb;
      [|destruct H as [? H]; congruence].
    destruct (insertReport sqliteCheck _ d1) as [[newId d2]|] eqn:Ei;
      [|destruct H as [? H]; congruence].
    destruct H as [evs H]. rewrite H in Hrun. inversion Hrun; subst res w'; clear Hrun.
    apply insertReport_reportsOf in Ei as (r & c & b & s & _ & -> & Hrows & _).
    apply sqliteBootstrap_spec in Eb as (_ & _ & Hsame & _).
    eexists. unfold targetRows, usesPostgres in *. cbn. rewrite Hp.
    rewrite (fileReports_default _ w), <- Hsame, <- Hrows.
    unfold fileReports. cbn. rewrite lookup_insert_eq. repeat split.
Qed.

Lemma C1_partition_matches_submittime_witness :
  exists r : Row,
    targetRows "2024-03" (snd (addReport utc8 sampleData pgReady))
    = targetRows "2024-03" pgReady ++ [r]
    /\ usesPostgres (snd (addReport utc8 sampleData pgReady)) = usesPostgres pgReady
    /\ row_id r = 1
    /\ submittime r = 1710500000000
    /\ month_partition r = "2024-03"
    /\ month_partition r = getMonthPartition utc8 (submittime r).
Proof.
  apply (C1_partition_matches_submittime utc8 sampleData pgReady
           (snd (addReport utc8 sampleData pgReady))
           (mkResult 1 "2024-03" 1710500000000)).
  vm_compute. reflexivity.
Defined.

(** C2.  The same request once with [isadd: false] and once without
    [isadd].  With [false] (a falsy value) the presence test passes:
    when the other four fields are present, their values are ones the
    engine takes and the engine is ready, the handler answers 200 and the
    stored row holds a falsy [isadd], the integer 0 on SQLite and the
    boolean false on PostgreSQL.  A body without [isadd] is answered 400
    and the world is left as it was, whatever the other fields are.  A
    request without a parsed body has no [isadd] either, and there the
    handler does not answer 400: destructuring [req.body] throws inside
    [try], so the handler writes an error line and answers 500. *)
Theorem C2_isadd_false_stored_absent_rejected
    (LocalTZA : Z -> Z) (cls chg nt sb : JsVal) (w : World) :
  missingField (mkBody cls (JBool false) chg nt sb) = false ->
  valuesAccepted (mkBody cls (JBool false) chg nt sb) w = true ->
  engineReady (getMonthPartition LocalTZA (clock w)) w = true ->
  (exists newId w' r,
     postInputdata LocalTZA (Some (mkBody cls (JBool false) chg nt sb)) w
     = (Ok (mkResponse 200 true
              (Submitted newId (getMonthPartition LocalTZA (clock w)) (clock w))), w')
     /\ targetRows (getMonthPartition LocalTZA (clock w)) w'
        = targetRows (getMonthPartition LocalTZA (clock w)) w ++ [r]
     /\ row_id r = newId
     /\ isadd r = (if usesPostgres w then CBool false else CInt 0)
     /\ cellFalsy (isadd r) = true)
  /\ truthy (JBool false) = false
  /\ postInputdata LocalTZA (Some (mkBody cls JUndefined chg nt sb)) w
     = (Ok (mkResponse 400 false MissingFields), w)
  /\ postInputdata LocalTZA None w
     = (Ok (mkResponse 500 false ServerError),
        setTrace (EvConsoleError :: trace w) w).
Proof.
  intros Hm Hv Hr. split; [|split; [reflexivity|split; [|apply postInputdata_no_body]]].
  - destruct (submit_succeeds LocalTZA _ w Hm Hv Hr)
      as (newId & w' & c & s & _ & _ & Hrun & Hrows).
    cbn [b_class b_isadd b_changescore b_note b_submitter] in Hrun, Hrows.
    eexists newId, w', _. split.
    + by rewrite (postInputdata_added _ _ _ _ _ Hm Hrun).
    + split; [exact Hrows|]. cbn. by destruct (usesPostgres w).
  - apply postInputdata_missing. unfold missingField. cbn.
    by rewrite orb_true_r.
Qed.

Lemma C2_isadd_false_stored_absent_rejected_witness :
  (exists newId w' r,
     postInputdata utc8
       (Some (mkBody (JNum (Int 3)) (JBool false) (JNum (Int 5)) (JStr "late")
                     (JStr "teacherA")))
       sqliteReady
     = (Ok (mkResponse 200 true
              (Submitted newId (getMonthPartition utc8 (clock sqliteReady))
                         (clock sqliteReady))), w')
     /\ targetRows (getMonthPartition utc8 (clock sqliteReady)) w'
        = targetRows (getMonthPartition utc8 (clock sqliteReady)) sqliteReady ++ [r]
     /\ row_id r = newId
     /\ isadd r = (if usesPostgres sqliteReady then CBool false else CInt 0)
     /\ cellFalsy (isadd r) = true)
  /\ truthy (JBool false) = false
  /\ postInputdata utc8
       (Some (mkBody (JNum (Int 3)) JUndefined (JNum (Int 5)) (JStr "late")
                     (JStr "teacherA")))
       sqliteReady
     = (Ok (mkResponse 400 false MissingFields), sqliteReady)
  /\ postInputdata utc8 None sqliteReady
     = (Ok (mkResponse 500 false ServerError),
        setTrace (EvConsoleError :: trace sqliteReady) sqliteReady).
Proof.
  apply (C2_isadd_false_stored_absent_rejected utc8 (JNum (Int 3)) (JNum (Int 5))
           (JStr "late") (JStr "teacherA") sqliteReady);
    vm_compute; reflexivity.
Defined.

(** C3.  When the active engine is ready and stores no row for the
    partition, [getReportsByMonth] returns the empty list, not an error,
    and the route answers 200 with an empty [data]; this holds on
    PostgreSQL and on SQLite alike (a missing SQLite file or table
    counts as no rows).  Afterwards the [reports] table exists in the
    database that was asked, and the partition is still empty. *)
Theorem C3_empty_partition_gives_empty_list (ym : string) (w : World) :
  engineReady ym w = true ->
  partitionRows ym w = [] ->
  exists w',
    getReportsByMonth ym w = (Ok [], w')
    /\ getReports ym w = (Ok (mkResponse 200 true (Reports [])), w')
    /\ partitionRows ym w' = []
    /\ (if usesPostgres w then hasObj KTable "reports" (pgDb w') = true
        else exists d, files w' !! dbFileName ym = Some d
                       /\ hasObj KTable "reports" d = true).
Proof.
  intros Hr Hempty.
  destruct (getReportsByMonth_ready ym w Hr) as (w' & Hrun & Hp' & Hrows & Hschema).
  rewrite Hempty in Hrun. cbn in Hrun.
  exists w'. split; [exact Hrun|]. split; [by apply getReports_found|]. split.
  - unfold partitionRows, targetRows in *. rewrite Hp' in Hrows |- *.
    destruct (usesPostgres w); by rewrite Hrows.
  - destruct (usesPostgres w); [done|].
    destruct Hschema as (d & ? & ? & _). eauto.
Qed.

Lemma C3_empty_partition_gives_empty_list_witness :
  exists w',
    getReportsByMonth "2099-01" pgReady = (Ok [], w')
    /\ getReports "2099-01" pgReady = (Ok (mkResponse 200 true (Reports [])), w')
    /\ partitionRows "2099-01" w' = []
    /\ (if usesPostgres pgReady then hasObj KTable "reports" (pgDb w') = true
        else exists d, files w' !! dbFileName "2099-01" = Some d
                       /\ hasObj KTable "reports" d = true).
Proof.
  apply (C3_empty_partition_gives_empty_list "2099-01" pgReady);
    vm_compute; reflexivity.
Defined.

(** C4.  [initDatabase] under the three settings of [DB_TYPE].
    - ['postgres'] with a failing probe: the process exits with code 1;
      nothing but the event log has changed, so there was no fallback
      (the context is untouched, [global.dbContext] is not set, the
      directory is not created).
    - ['sqlite']: the context records SQLite as ready and the events
      are those of the directory check alone; no connection is attempted,
      whether or not the server is reachable.
    - anything else (['auto']) with a failing probe: the probe is made,
      then SQLite is initialised and recorded as the active, ready
      engine. *)
Theorem C4_initDatabase_modes (wP wS wA : World) (envA : option string) :
  pgOnline wP = false ->
  pgOnline wA = false ->
  DB_TYPE envA <> "postgres" ->
  DB_TYPE envA <> "sqlite" ->
  (exists w',
     initDatabase (Some "postgres") wP = (Exit 1, w')
     /\ untraced w' = untraced wP
     /\ trace w' = EvConsoleError :: EvPgConnect :: trace wP)
  /\ (exists w',
        initDatabase (Some "sqlite") wS = (Ok tt, w')
        /\ dbContext w' = mkCtx (Some Sqlite) (Some SqliteMarker) true
        /\ globalSet w' = true
        /\ dirExists w' = true
        /\ trace w' = (if dirExists wS then [EvFsExists] else [EvFsMkdir; EvFsExists])
                      ++ trace wS
        /\ ~ In EvPgConnect
               (if dirExists wS then [EvFsExists] else [EvFsMkdir; EvFsExists]))
  /\ (exists w',
        initDatabase envA wA = (Ok tt, w')
        /\ dbContext w' = mkCtx (Some Sqlite) (Some SqliteMarker) true
        /\ globalSet w' = true
        /\ dirExists w' = true
        /\ trace w' = (if dirExists wA then [EvFsExists] else [EvFsMkdir; EvFsExists])
                      ++ EvPgConnect :: trace wA).
Proof.
  intros HoffP HoffA HnP HnS.
  apply String.eqb_neq in HnP, HnS.
  destruct wP as [ctxP gP dirP fsP onP pgP clkP trP].
  destruct wS as [ctxS gS dirS fsS onS pgS clkS trS].
  destruct wA as [ctxA gA dirA fsA onA pgA clkA trA].
  cbn in HoffP, HoffA. subst onP onA.
  split; [|split].
  - eexists. split; [reflexivity|]. split; reflexivity.
  - destruct dirS; (eexists; split; [reflexivity|]);
      cbn; repeat split; intros Hin; cbn in Hin; intuition discriminate.
  - unfold initDatabase. rewrite HnP, HnS.
    destruct dirA; (eexists; split; [reflexivity|]); cbn; repeat split.
Qed.

Lemma C4_initDatabase_modes_witness :
  (exists w',
     initDatabase (Some "postgres") freshOffline = (Exit 1, w')
     /\ untraced w' = untraced freshOffline
     /\ trace w' = EvConsoleError :: EvPgConnect :: trace freshOffline)
  /\ (exists w',
        initDatabase (Some "sqlite") freshOnline = (Ok tt, w')
        /\ dbContext w' = mkCtx (Some Sqlite) (Some SqliteMarker) true
        /\ globalSet w' = true
        /\ dirExists w' = true
        /\ trace w' = (if dirExists freshOnline then [EvFsExists]
                       else [EvFsMkdir; EvFsExists]) ++ trace freshOnline
        /\ ~ In EvPgConnect
               (if dirExists freshOnline then [EvFsExists] else [EvFsMkdir; EvFsExists]))
  /\ (exists w',
        initDatabase None freshOffline = (Ok tt, w')
        /\ dbContext w' = mkCtx (Some Sqlite) (Some SqliteMarker) true
        /\ globalSet w' = true
        /\ dirExists w' = true
        /\ trace w' = (if dirExists freshOffline then [EvFsExists]
                       else [EvFsMkdir; EvFsExists])
                      ++ EvPgConnect :: trace freshOffline).
Proof.
  apply (C4_initDatabase_modes freshOffline freshOnline freshOffline None).
  - reflexivity.
  - reflexivity.
  - vm_compute. discriminate.
  - vm_compute. discriminate.
Defined.

(** C5 (as the code has it).  A successful [getReportsByMonth] returns
    every row the engine stores for the partition, each exactly once and
    all in one list, ordered by [submittime] so that no row is older than
    a row after it.  Rows with the same [submittime] follow each other in
    an order the query does not fix; when the partition's submit times
    are pairwise different the order is strictly descending. *)
Theorem C5_query_descending_and_complete
    (ym : string) (w w' : World) (rs : list Row) :
  getReportsByMonth ym w = (Ok rs, w') ->
  descending rs
  /\ Permutation rs (partitionRows ym w)
  /\ length rs = length (partitionRows ym w)
  /\ (NoDup (map submittime (partitionRows ym w)) -> strictlyDescending rs).
Proof.
  intros Hrun. apply getReportsByMonth_result in Hrun as ->.
  pose proof (orderBy_perm (partitionRows ym w)) as Hperm.
  split; [apply orderBy_descending|]. split; [exact Hperm|].
  split; [by apply Permutation_length|].
  intros Hnd. apply descending_strict; [apply orderBy_descending|].
  pose proof (Permutation_map submittime Hperm) as Hmap. by rewrite Hmap.
Qed.

Lemma C5_query_descending_and_complete_witness :
  descending (orderBySubmittimeDesc (partitionRows "2024-03" sameMillisecondTwice))
  /\ Permutation (orderBySubmittimeDesc (partitionRows "2024-03" sameMillisecondTwice))
                 (partitionRows "2024-03" sameMillisecondTwice)
  /\ length (orderBySubmittimeDesc (partitionRows "2024-03" sameMillisecondTwice))
     = length (partitionRows "2024-03" sameMillisecondTwice)
  /\ (NoDup (map submittime (partitionRows "2024-03" sameMillisecondTwice)) ->
      strictlyDescending
        (orderBySubmittimeDesc (partitionRows "2024-03" sameMillisecondTwice))).
Proof.
  apply (C5_query_descending_and_complete "2024-03" sameMillisecondTwice
           (snd (getReportsByMonth "2024-03" sameMillisecondTwice))).
  vm_compute. reflexivity.
Defined.

(** C5 as stated fails.  Two reports submitted within one millisecond
    get the same [submittime]; the query returns both, so the result is
    not strictly descending. *)
Lemma C5_counterexample_same_millisecond :
  exists r1 r2 w',
    getReportsByMonth "2024-03" sameMillisecondTwice = (Ok [r2; r1], w')
    /\ submittime r1 = submittime r2
    /\ ~ strictlyDescending [r2; r1].
Proof.
  eexists _, _, _. split; [vm_compute; reflexivity|]. split; [reflexivity|].
  intros Hs. apply StronglySorted_inv in Hs as [_ Hall].
  apply Forall_inv in Hall. cbn in Hall. lia.
Qed.

(** C6.  Bootstrapping twice in a row.  When [ensureSqliteTable] has
    succeeded on a database file, running it again on that file succeeds
    and leaves every database, the directory and the context exactly as
    the first run left them; the same holds for [ensurePostgresTable] on
    the shared database.  No run puts a name into a catalog twice: a
    catalog without duplicate names has none afterwards. *)
Theorem C6_bootstrap_twice
    (f : string) (w w1 : World) (v v1 : World) :
  ensureSqliteTable f w = (Ok tt, w1) ->
  ensurePostgresTable v = (Ok tt, v1) ->
  (exists w2, ensureSqliteTable f w1 = (Ok tt, w2) /\ untraced w2 = untraced w1)
  /\ (exists v2, ensurePostgresTable v1 = (Ok tt, v2) /\ untraced v2 = untraced v1)
  /\ (forall d, files w !! f = Some d -> noDuplicates d ->
        exists d1, files w1 !! f = Some d1 /\ noDuplicates d1
                   /\ hasObj KTable "reports" d1 = true
                   /\ hasObj KIndex "idx_month_partition" d1 = true)
  /\ (noDuplicates (pgDb v) ->
        noDuplicates (pgDb v1) /\ hasObj KTable "reports" (pgDb v1) = true).
Proof.
  intros Hs Hpg.
  (* SQLite: the first run names the database it worked on *)
  destruct (files w !! f) as [d|] eqn:Hf.
  2: { destruct (ensureSqliteTable_nofile f w Hf) as [? H]. congruence. }
  pose proof (ensureSqliteTable_run f w d Hf) as H.
  destruct (sqliteBootstrap d) as [d1|] eqn:Eb; [|destruct H as [? H]; congruence].
  destruct H as [evs H]. rewrite H in Hs. inversion Hs; subst w1; clear Hs H.
  pose proof (sqliteBootstrap_idem _ _ Eb) as Hidem.
  pose proof (sqliteBootstrap_spec _ _ Eb) as (Ht & Hi & _ & Hnd).
  (* PostgreSQL *)
  pose proof (ensurePostgresTable_run v) as H.
  destruct (pgBootstrap (pgDb v)) as [p1|] eqn:Ep; [|destruct H as [? H]; congruence].
  destruct H as [evs' H]. rewrite H in Hpg. inversion Hpg; subst v1; clear Hpg H.
  pose proof (pgBootstrap_idem _ _ Ep) as Hpidem.
  pose proof (pgBootstrap_spec _ _ Ep) as (Hpt & _ & Hpnd).
  repeat split.
  - match goal with |- context [ensureSqliteTable f ?W] =>
      pose proof (ensureSqliteTable_run f W d1) as H end.
    cbn in H. rewrite lookup_insert_eq in H. specialize (H eq_refl).
    rewrite Hidem in H. destruct H as [evs2 H].
    eexists. split; [exact H|]. unfold untraced. cbn.
    by rewrite insert_insert_eq.
  - match goal with |- context [ensurePostgresTable ?W] =>
      pose proof (ensurePostgresTable_run W) as H end.
    cbn in H. rewrite Hpidem in H. destruct H as [evs2 H].
    eexists. split; [exact H|]. reflexivity.
  - intros d0 Hd0 Hnd0. inversion Hd0; subst d0.
    exists d1. cbn. rewrite lookup_insert_eq. auto.
  - cbn. auto.
  - cbn. auto.
Qed.

Lemma C6_bootstrap_twice_witness :
  (exists w2,
     ensureSqliteTable "reports_2024-03.db"
       (snd (ensureSqliteTable "reports_2024-03.db"
               (snd (newDatabase "reports_2024-03.db" sqliteReady))))
     = (Ok tt, w2)
     /\ untraced w2
        = untraced (snd (ensureSqliteTable "reports_2024-03.db"
                           (snd (newDatabase "reports_2024-03.db" sqliteReady)))))
  /\ (exists v2,
        ensurePostgresTable (snd (ensurePostgresTable pgReady)) = (Ok tt, v2)
        /\ untraced v2 = untraced (snd (ensurePostgresTable pgReady)))
  /\ (forall d,
        files (snd (newDatabase "reports_2024-03.db" sqliteReady))
          !! "reports_2024-03.db" = Some d ->
        noDuplicates d ->
        exists d1,
          files (snd (ensureSqliteTable "reports_2024-03.db"
                        (snd (newDatabase "reports_2024-03.db" sqliteReady))))
            !! "reports_2024-03.db" = Some d1
          /\ noDuplicates d1
          /\ hasObj KTable "reports" d1 = true
          /\ hasObj KIndex "idx_month_partition" d1 = true)
  /\ (noDuplicates (pgDb pgReady) ->
        noDuplicates (pgDb (snd (ensurePostgresTable pgReady)))
        /\ hasObj KTable "reports" (pgDb (snd (ensurePostgresTable pgReady))) = true).
Proof.
  apply (C6_bootstrap_twice "reports_2024-03.db"
           (snd (newDatabase "reports_2024-03.db" sqliteReady))
           (snd (ensureSqliteTable "reports_2024-03.db"
                   (snd (newDatabase "reports_2024-03.db" sqliteReady))))
           pgReady
           (snd (ensurePostgresTable pgReady)));
    vm_compute; reflexivity.
Defined.

(** C7.  A request with a parsed body in which [note], or any other of
    the five required fields, is absent is answered 400 at once.  The
    handler returns the world it was given: nothing is added to the event
    log (no connection, no statement, no file access, no error line) and
    no database changes.  A request without a parsed body misses every
    field, and is not answered that way: destructuring [req.body] throws
    inside [try], so the handler writes an error line, the only event it
    adds, and answers 500; no database changes there either. *)
Theorem C7_missing_field_rejected_before_engine
    (LocalTZA : Z -> Z) (body : Body) (w : World) :
  b_note body = JUndefined \/ b_class body = JUndefined \/ b_isadd body = JUndefined
  \/ b_changescore body = JUndefined \/ b_submitter body = JUndefined ->
  postInputdata LocalTZA (Some body) w = (Ok (mkResponse 400 false MissingFields), w)
  /\ trace (snd (postInputdata LocalTZA (Some body) w)) = trace w
  /\ untraced (snd (postInputdata LocalTZA (Some body) w)) = untraced w
  /\ postInputdata LocalTZA None w
     = (Ok (mkResponse 500 false ServerError),
        setTrace (EvConsoleError :: trace w) w)
  /\ trace (snd (postInputdata LocalTZA None w)) = EvConsoleError :: trace w
  /\ untraced (snd (postInputdata LocalTZA None w)) = untraced w.
Proof.
  intros H.
  assert (Hm : missingField body = true).
  { unfold missingField.
    destruct H as [H | [H | [H | [H | H]]]]; rewrite H; cbn;
      rewrite ?orb_true_r; reflexivity. }
  rewrite (postInputdata_missing _ _ _ Hm), postInputdata_no_body.
  by destruct w.
Qed.

Lemma C7_missing_field_rejected_before_engine_witness :
  postInputdata utc8
    (Some (mkBody (JNum (Int 3)) (JBool true) (JNum (Int 5)) JUndefined
                  (JStr "teacherA")))
    pgReady
  = (Ok (mkResponse 400 false MissingFields), pgReady)
  /\ trace (snd (postInputdata utc8
                   (Some (mkBody (JNum (Int 3)) (JBool true) (JNum (Int 5)) JUndefined
                                 (JStr "teacherA"))) pgReady)) = trace pgReady
  /\ untraced (snd (postInputdata utc8
                      (Some (mkBody (JNum (Int 3)) (JBool true) (JNum (Int 5))
                                    JUndefined (JStr "teacherA"))) pgReady))
     = untraced pgReady
  /\ postInputdata utc8 None pgReady
     = (Ok (mkResponse 500 false ServerError),
        setTrace (EvConsoleError :: trace pgReady) pgReady)
  /\ trace (snd (postInputdata utc8 None pgReady)) = EvConsoleError :: trace pgReady
  /\ untraced (snd (postInputdata utc8 None pgReady)) = untraced pgReady.
Proof.
  apply (C7_missing_field_rejected_before_engine utc8
           (mkBody (JNum (Int 3)) (JBool true) (JNum (Int 5)) JUndefined
                   (JStr "teacherA")) pgReady).
  left. reflexivity.
Defined.

(** C8 (as the code has it).  [getMonthPartition] is a total function of
    the time value and the zone.  For every valid time value whose local
    calendar year has four digits (1000 to 9999) it returns that year in
    four digits, a hyphen and the local calendar month in two digits:
    the year [y] is the one with [TimeFromYear y <= local time <
    TimeFromYear (y+1)], the month is the 1-based [MonthFromTime] of the
    local time, and the day within the year lies inside the year, so the
    month table applies. *)
Theorem C8_getMonthPartition_year_month (LocalTZA : Z -> Z) (t : Z) :
  validTime t = true ->
  TimeFromYear 1000 <= LocalTime LocalTZA t < TimeFromYear 10000 ->
  exists y m,
    TimeFromYear y <= LocalTime LocalTZA t < TimeFromYear (y + 1)
    /\ 1000 <= y <= 9999
    /\ 0 <= DayWithinYear (LocalTime LocalTZA t) < DaysInYear y
    /\ m = MonthFromTime (LocalTime LocalTZA t) + 1
    /\ 1 <= m <= 12
    /\ getMonthPartition LocalTZA t = formatYearMonth y m
    /\ isYearMonth (getMonthPartition LocalTZA t) = true.
Proof.
  intros Hv [Hlo Hhi].
  set (lt := LocalTime LocalTZA t) in *.
  pose proof (YearFromTime_spec lt) as Hy.
  pose proof (YearFromTime_largest _ _ Hlo) as Hge.
  pose proof (YearFromTime_below _ _ Hhi) as Hlt.
  pose proof (MonthFromTime_range lt) as Hm.
  exists (YearFromTime lt), (MonthFromTime lt + 1).
  assert (Hfmt : getMonthPartition LocalTZA t
                 = formatYearMonth (YearFromTime lt) (MonthFromTime lt + 1)).
  { rewrite getMonthPartition_valid by done. fold lt.
    rewrite month_two by lia. cbn [NumberToString].
    destruct (Z.ltb_spec (YearFromTime lt) 0); [lia|].
    rewrite decimal_four by lia. reflexivity. }
  repeat split; try lia; try apply DayWithinYear_range; try done.
  rewrite Hfmt.
  change (formatYearMonth (YearFromTime lt) (MonthFromTime lt + 1)) with
    (String (digitChar (YearFromTime lt / 1000 mod 10))
       (String (digitChar (YearFromTime lt / 100 mod 10))
          (String (digitChar (YearFromTime lt / 10 mod 10))
             (String (digitChar (YearFromTime lt mod 10))
                (String "-" (twoDigits (MonthFromTime lt + 1))))))).
  unfold twoDigits, isYearMonth.
  rewrite !digitChar_isDigit; [reflexivity | ..]; Z.div_mod_to_equations; lia.
Qed.

Lemma C8_getMonthPartition_year_month_witness :
  exists y m,
    TimeFromYear y <= LocalTime utc8 1710500000000 < TimeFromYear (y + 1)
    /\ 1000 <= y <= 9999
    /\ 0 <= DayWithinYear (LocalTime utc8 1710500000000) < DaysInYear y
    /\ m = MonthFromTime (LocalTime utc8 1710500000000) + 1
    /\ 1 <= m <= 12
    /\ getMonthPartition utc8 1710500000000 = formatYearMonth y m
    /\ isYearMonth (getMonthPartition utc8 1710500000000) = true.
Proof.
  apply (C8_getMonthPartition_year_month utc8 1710500000000).
  - reflexivity.
  - vm_compute. split; [discriminate | reflexivity].
Defined.

(** C8 as stated fails: 10000-01-01T00:00:00Z is a valid time value, and
    its key has a five-digit year. *)
Lemma C8_counterexample_year_10000 :
  validTime 253402300800000 = true
  /\ getMonthPartition utc 253402300800000 = "10000-01"
  /\ isYearMonth (getMonthPartition utc 253402300800000) = false
  /\ getMonthPartition utc 253402300800000
     <> formatYearMonth (YearFromTime (LocalTime utc 253402300800000))
                        (MonthFromTime (LocalTime utc 253402300800000) + 1).
Proof. vm_compute. repeat split; discriminate. Qed.

(** C9.  On SQLite, asking for a partition that has no file yet changes
    the world: the [DB] directory exists afterwards, and the partition's
    file exists with an empty [reports] table and the index
    [idx_month_partition]; the other files are as before; the answer is
    the empty list.  And whenever [getSqliteDatabase] hands out a
    database, the [reports] table is in it, so the existence test that
    follows in [getReportsByMonth] cannot fail. *)
Theorem C9_sqlite_query_creates_store (ym : string) (w : World) :
  globalSet w = true ->
  usesPostgres w = false ->
  pathSafe ym = true ->
  files w !! dbFileName ym = None ->
  (exists w',
     getReportsByMonth ym w = (Ok [], w')
     /\ dirExists w' = true
     /\ files w'
        = <[dbFileName ym :=
              mkDb [(KTable, "reports"); (KIndex, "idx_month_partition")] [] 0]>
            (files w)
     /\ files w' !! dbFileName ym <> files w !! dbFileName ym
     /\ pgDb w' = pgDb w)
  /\ (forall p v h v1,
        getSqliteDatabase p v = (Ok h, v1) ->
        exists d, files v1 !! h = Some d /\ hasObj KTable "reports" d = true).
Proof.
  intros Hg Hp Hs Hnone. split.
  - pose proof (getReportsByMonth_sqlite_run ym w Hg Hp Hs) as H.
    rewrite Hnone in H. cbn in H. destruct H as [evs H].
    eexists. split; [exact H|]. cbn. repeat split.
    rewrite lookup_insert_eq, Hnone. discriminate.
  - intros p v h v1 Hrun.
    destruct (getSqliteDatabase_has_table p v h v1 Hrun) as (d & ? & ? & _). eauto.
Qed.

Lemma C9_sqlite_query_creates_store_witness :
  (exists w',
     getReportsByMonth "2099-01" sqliteReady = (Ok [], w')
     /\ dirExists w' = true
     /\ files w'
        = <["reports_2099-01.db" :=
              mkDb [(KTable, "reports"); (KIndex, "idx_month_partition")] [] 0]>
            (files sqliteReady)
     /\ files w' !! "reports_2099-01.db" <> files sqliteReady !! "reports_2099-01.db"
     /\ pgDb w' = pgDb sqliteReady)
  /\ (forall p v h v1,
        getSqliteDatabase p v = (Ok h, v1) ->
        exists d, files v1 !! h = Some d /\ hasObj KTable "reports" d = true).
Proof.
  apply (C9_sqlite_query_creates_store "2099-01" sqliteReady); reflexivity.
Defined.

(** C10.  A request whose [class] is the number 0, or whose
    [changescore] is the number 0, is answered 400 and nothing else
    happens, although 0 is an integer [parseInt] would accept: the
    presence test is [missingField], which asks for a truthy [class],
    [changescore], [note] and [submitter], and for [isadd] only that it
    is not [undefined]. *)
Theorem C10_zero_class_or_score_rejected
    (LocalTZA : Z -> Z) (body : Body) (w : World) :
  b_class body = JNum (Int 0) \/ b_changescore body = JNum (Int 0) ->
  postInputdata LocalTZA (Some body) w = (Ok (mkResponse 400 false MissingFields), w)
  /\ parseInt (JNum (Int 0)) = Int 0
  /\ (missingField body = true <->
      truthy (b_class body) = false \/ b_isadd body = JUndefined
      \/ truthy (b_changescore body) = false \/ truthy (b_note body) = false
      \/ truthy (b_submitter body) = false).
Proof.
  intros H.
  assert (Hiff : missingField body = true <->
      truthy (b_class body) = false \/ b_isadd body = JUndefined
      \/ truthy (b_changescore body) = false \/ truthy (b_note body) = false
      \/ truthy (b_submitter body) = false).
  { unfold missingField. rewrite !orb_true_iff, !negb_true_iff.
    assert (isUndefined (b_isadd body) = true <-> b_isadd body = JUndefined)
      as -> by (destruct (b_isadd body); cbn; split; congruence).
    tauto. }
  split; [|split; [reflexivity | exact Hiff]].
  apply postInputdata_missing, Hiff.
  destruct H as [H | H]; rewrite H; cbn; tauto.
Qed.

Lemma C10_zero_class_or_score_rejected_witness :
  postInputdata utc8
    (Some (mkBody (JNum (Int 0)) (JBool true) (JNum (Int 5)) (JStr "late")
                  (JStr "teacherA")))
    sqliteReady
  = (Ok (mkResponse 400 false MissingFields), sqliteReady)
  /\ parseInt (JNum (Int 0)) = Int 0
  /\ (missingField
        (mkBody (JNum (Int 0)) (JBool true) (JNum (Int 5)) (JStr "late") (JStr "teacherA"))
      = true <->
      truthy (JNum (Int 0)) = false \/ JBool true = JUndefined
      \/ truthy (JNum (Int 5)) = false \/ truthy (JStr "late") = false
      \/ truthy (JStr "teacherA") = false).
Proof.
  apply (C10_zero_class_or_score_rejected utc8
           (mkBody (JNum (Int 0)) (JBool true) (JNum (Int 5)) (JStr "late")
                   (JStr "teacherA")) sqliteReady).
  left. reflexivity.
Defined.

(* ===================================================================== *)
(** ** Further properties of the code                                     *)
(* ===================================================================== *)

Import Login Startup Session Logic Frames Measures.
Import KeyFacts Outcomes SubmitFacts Invariant TripleFacts RowFrame Sessions SessionFacts.
Import HandleFacts IndexFacts LoginFacts InitFacts LayoutFacts.

(** *** The partition key *)

(** X1.  Two valid time values get the same partition key exactly when
    they lie in the same calendar year and the same calendar month of
    the server's zone: the key tells months apart, also where the year
    has more or fewer than four digits. *)
Theorem X1_same_key_same_month (LocalTZA : Z -> Z) (t1 t2 : Z) :
  validTime t1 = true -> validTime t2 = true ->
  (getMonthPartition LocalTZA t1 = getMonthPartition LocalTZA t2
   <-> YearFromTime (LocalTime LocalTZA t1) = YearFromTime (LocalTime LocalTZA t2)
       /\ MonthFromTime (LocalTime LocalTZA t1) = MonthFromTime (LocalTime LocalTZA t2)).
Proof.
  intros H1 H2. split.
  - intros Hkey. by apply key_inj.
  - intros [Hy Hm]. rewrite !key_of_valid by done. by rewrite Hy, Hm.
Qed.

Lemma X1_same_key_same_month_witness :
  getMonthPartition utc8 1710500000000 = getMonthPartition utc8 1711900799999
  <-> YearFromTime (LocalTime utc8 1710500000000)
      = YearFromTime (LocalTime utc8 1711900799999)
      /\ MonthFromTime (LocalTime utc8 1710500000000)
         = MonthFromTime (LocalTime utc8 1711900799999).
Proof.
  apply (X1_same_key_same_month utc8 1710500000000 1711900799999);
    vm_compute; reflexivity.
Defined.

(** X2.  A time value outside the range of [Date] (beyond 8.64e15 ms
    either way) gives the key ["NaN-NaN"], and no valid time value
    does. *)
Theorem X2_NaN_key_iff_invalid (LocalTZA : Z -> Z) (t : Z) :
  getMonthPartition LocalTZA t = "NaN-NaN" <-> validTime t = false.
Proof.
  split.
  - intros H. destruct (validTime t) eqn:Hv; [|done].
    destruct (key_head LocalTZA t Hv) as (c & rest & Hk & Hc).
    rewrite Hk in H. inversion H; subst c rest.
    destruct Hc as [Hc | Hc]; [by vm_compute in Hc | done].
  - apply getMonthPartition_invalid.
Qed.

(** *** POST /inputdata *)

(** X3.  The handler always answers, never throws and never ends the
    process.  A request without a parsed body is answered 500 after an
    error line, and nothing else happens.  A request with a body in
    which a field is missing is answered 400 and nothing happens.  For
    the other requests, when [class] and [changescore] are values
    [parseInt] reads exactly, one test decides: a request whose values
    the active engine accepts, met by an engine that is ready, is
    answered 200 with the partition and the time of the clock; every
    other one is answered 500 after an error line has been logged. *)
Theorem X3_postInputdata_decides
    (LocalTZA : Z -> Z) (reqBody : option Body) (w : World) :
  exists resp w',
    postInputdata LocalTZA reqBody w = (Ok resp, w')
    /\ match reqBody with
       | None =>
           resp = mkResponse 500 false ServerError
           /\ w' = setTrace (EvConsoleError :: trace w) w
       | Some body =>
           if missingField body then
             resp = mkResponse 400 false MissingFields /\ w' = w
           else
             readsExactly (b_class body) = true ->
             readsExactly (b_changescore body) = true ->
             if storable LocalTZA body w then
               exists newId,
                 resp = mkResponse 200 true
                          (Submitted newId (getMonthPartition LocalTZA (clock w))
                                     (clock w))
             else
               resp = mkResponse 500 false ServerError
               /\ exists rest, trace w' = EvConsoleError :: rest
       end.
Proof.
  destruct reqBody as [body|].
  2: { eexists _, _. split; [apply postInputdata_no_body | done]. }
  destruct (missingField body) eqn:Hm.
  { exists (mkResponse 400 false MissingFields), w. by rewrite postInputdata_missing. }
  destruct (storable LocalTZA body w) eqn:Hs.
  - unfold storable in Hs. apply andb_true_iff in Hs as [Hv Hr].
    destruct (submit_succeeds LocalTZA body w Hm Hv Hr)
      as (newId & w' & c & s & _ & _ & Hrun & _).
    eexists _, w'. split; [by apply postInputdata_added|]. cbn. by exists newId.
  - pose proof (addReport_returns LocalTZA
                  (mkData (b_class body) (b_isadd body) (b_changescore body)
                          (b_note body) (b_submitter body)) w) as Hret.
    destruct (addReport LocalTZA _ w) as [[res | e | c] w1] eqn:E.
    + apply addReport_Ok_storable in E. congruence.
    + eexists _, _. split; [exact (postInputdata_thrown _ _ _ _ _ Hm E)|].
      intros _ _. split; [done|]. by eexists.
    + done.
Qed.

Lemma X3_postInputdata_decides_witness :
  (exists resp w',
     postInputdata utc8 (Some sampleBody) pgReady = (Ok resp, w')
     /\ exists newId,
          resp = mkResponse 200 true
                   (Submitted newId (getMonthPartition utc8 (clock pgReady))
                              (clock pgReady)))
  /\ (exists resp w',
        postInputdata utc8 None pgReady = (Ok resp, w')
        /\ resp = mkResponse 500 false ServerError
        /\ w' = setTrace (EvConsoleError :: trace pgReady) pgReady).
Proof.
  split.
  - destruct (X3_postInputdata_decides utc8 (Some sampleBody) pgReady)
      as (resp & w' & Hrun & Hcase).
    exists resp, w'. split; [exact Hrun|].
    exact (Hcase eq_refl eq_refl).
  - exact (X3_postInputdata_decides utc8 None pgReady).
Defined.

(** X4.  What an accepted request stores.  When the handler answers 200,
    the store the request went to (the shared table, or the file of the
    partition) has gained exactly one row, at its end: its [id] is the
    one in the answer, [class] and [changescore] are the integers
    [parseInt] reads from the fields, [isadd] is the truth value of the
    field (any defined value, so the string ["false"] is stored as
    true), as a boolean on PostgreSQL and as 1 or 0 on SQLite, [note]
    and [submitter] are the strings given, and [submittime] and
    [month_partition] are the clock and its key.  This is for a request
    whose [class] and [changescore] are values [parseInt] reads exactly
    and whose [note] and [submitter] are strings. *)
Theorem X4_accepted_request_row
    (LocalTZA : Z -> Z) (body : Body) (w w' : World) (resp : Response) :
  postInputdata LocalTZA (Some body) w = (Ok resp, w') ->
  status resp = 200 ->
  readsExactly (b_class body) = true ->
  readsExactly (b_changescore body) = true ->
  textField (b_note body) = true ->
  textField (b_submitter body) = true ->
  exists newId c s,
    resp = mkResponse 200 true
             (Submitted newId (getMonthPartition LocalTZA (clock w)) (clock w))
    /\ parseInt (b_class body) = Int c
    /\ parseInt (b_changescore body) = Int s
    /\ targetRows (getMonthPartition LocalTZA (clock w)) w'
       = targetRows (getMonthPartition LocalTZA (clock w)) w
         ++ [mkRow newId c
               (if usesPostgres w then CBool (truthy (b_isadd body))
                else CInt (if truthy (b_isadd body) then 1 else 0))
               s (clock w) (b_note body) (b_submitter body)
               (getMonthPartition LocalTZA (clock w))].
Proof.
  intros Hrun Hst _ _ _ _.
  apply postInputdata_200_inv in Hrun as (Hm & res & Hadd & ->); [|done].
  apply addReport_Ok in Hadd
    as (newId & c & s & d2 & evs & Ec & Es & -> & -> & Hrows & _).
  cbn [d_class d_isadd d_changescore d_note d_submitter] in *.
  exists newId, c, s. repeat split; [done | done |].
  by rewrite stored_target.
Qed.

Lemma X4_accepted_request_row_witness :
  exists newId c s,
    fst (postInputdata utc8
           (Some (mkBody (JStr "3") (JStr "false") (JStr "5 points") (JStr "late")
                         (JStr "teacherA")))
           sqliteReady)
    = Ok (mkResponse 200 true
            (Submitted newId (getMonthPartition utc8 (clock sqliteReady)) (clock sqliteReady)))
    /\ parseInt (JStr "3") = Int c
    /\ parseInt (JStr "5 points") = Int s
    /\ targetRows (getMonthPartition utc8 (clock sqliteReady))
         (snd (postInputdata utc8
                 (Some (mkBody (JStr "3") (JStr "false") (JStr "5 points") (JStr "late")
                               (JStr "teacherA")))
                 sqliteReady))
       = targetRows (getMonthPartition utc8 (clock sqliteReady)) sqliteReady
         ++ [mkRow newId c
               (if usesPostgres sqliteReady then CBool (truthy (JStr "false"))
                else CInt (if truthy (JStr "false") then 1 else 0))
               s (clock sqliteReady) (JStr "late") (JStr "teacherA")
               (getMonthPartition utc8 (clock sqliteReady))].
Proof.
  destruct (X4_accepted_request_row utc8
              (mkBody (JStr "3") (JStr "false") (JStr "5 points") (JStr "late")
                      (JStr "teacherA"))
              sqliteReady
              (snd (postInputdata utc8
                      (Some (mkBody (JStr "3") (JStr "false") (JStr "5 points")
                                    (JStr "late") (JStr "teacherA")))
                      sqliteReady))
              (mkResponse 200 true (Submitted 1 "2024-03" 1710500000000)))
    as (newId & c & s & Hresp & Hc & Hs & Hrows);
    [vm_compute; reflexivity | reflexivity.. |].
  exists newId, c, s. repeat split; [|exact Hc | exact Hs | exact Hrows].
  rewrite <- Hresp. vm_compute. reflexivity.
Defined.

(** X5.  A request that is not answered 200 stores nothing: in every
    database, PostgreSQL's and each SQLite file, the reports are those
    that were there before, also when the request got as far as
    creating the file or the table. *)
Theorem X5_refused_request_stores_nothing
    (LocalTZA : Z -> Z) (reqBody : option Body) (w w' : World) (resp : Response) :
  postInputdata LocalTZA reqBody w = (Ok resp, w') ->
  status resp <> 200 ->
  reportsOf (pgDb w') = reportsOf (pgDb w)
  /\ forall f, fileReports f w' = fileReports f w.
Proof.
  intros Hrun Hst.
  pose proof (rows_postInputdata w LocalTZA reqBody) as Htriple.
  specialize (Htriple w (Ok resp) w' Hrun (sameRows_refl w)).
  exact (Htriple resp eq_refl Hst).
Qed.

Lemma X5_refused_request_stores_nothing_witness :
  reportsOf (pgDb (snd (postInputdata utc8
                          (Some (mkBody (JStr "abc") (JBool true) (JNum (Int 5))
                                        (JStr "late") (JStr "teacherA")))
                          sqliteReady)))
  = reportsOf (pgDb sqliteReady)
  /\ forall f,
       fileReports f (snd (postInputdata utc8
                             (Some (mkBody (JStr "abc") (JBool true) (JNum (Int 5))
                                           (JStr "late") (JStr "teacherA")))
                             sqliteReady))
       = fileReports f sqliteReady.
Proof.
  apply (X5_refused_request_stores_nothing utc8
           (Some (mkBody (JStr "abc") (JBool true) (JNum (Int 5)) (JStr "late")
                         (JStr "teacherA")))
           sqliteReady _ (mkResponse 500 false ServerError));
    [vm_compute; reflexivity | discriminate].
Defined.

(** X6.  Submit, then query.  After a request was answered 200, asking
    for the partition named in the answer is answered 200 as well, and
    the list holds the new report (with the answer's [id] and
    [submittime]) together with the reports the partition had before:
    nothing is lost and nothing else appears, and the list is in
    descending order of [submittime]. *)
Theorem X6_submit_then_query
    (LocalTZA : Z -> Z) (reqBody : option Body) (w w1 : World)
    (newId : Z) (database : string) (t : Z) :
  postInputdata LocalTZA reqBody w
  = (Ok (mkResponse 200 true (Submitted newId database t)), w1) ->
  exists r rs w2,
    getReports database w1 = (Ok (mkResponse 200 true (Reports rs)), w2)
    /\ row_id r = newId
    /\ submittime r = t
    /\ month_partition r = database
    /\ Permutation rs (r :: partitionRows database w)
    /\ descending rs.
Proof.
  intros Hrun.
  destruct (postInputdata_200_body _ _ _ _ _ Hrun eq_refl) as [body ->].
  apply postInputdata_200_inv in Hrun as (Hm & res & Hadd & Hresp); [|done].
  apply addReport_Ok in Hadd
    as (id & c & s & d2 & evs & Ec & Es & -> & -> & Hrows & Ht & Hi & Hg & Hok).
  inversion Hresp; subst newId database t. clear Hresp.
  set (p := getMonthPartition LocalTZA (clock w)) in *.
  assert (Hon : usesPostgres w = true -> pgOnline w = true).
  { intros Hp. rewrite Hp in Hok. repeat (apply andb_true_iff in Hok as [Hok _]). done. }
  pose proof (stored_ready p d2 evs w Hg Hon (getMonthPartition_pathSafe _ _) Ht Hi)
    as Hready.
  destruct (getReportsByMonth_ready p _ Hready) as (w2 & Hq & _).
  match type of Hrows with _ = _ ++ [?row] => remember row as r eqn:Hr end.
  assert (Hfields : row_id r = id /\ submittime r = clock w /\ month_partition r = p)
    by (by subst r).
  clear Hr. destruct Hfields as (Hid & Htime & Hpart).
  exists r, (orderBySubmittimeDesc (partitionRows p (stored p d2 evs w))), w2.
  split; [by apply getReports_found|].
  repeat split; [done | done | done | | apply orderBy_descending].
  rewrite orderBy_perm, (partitionRows_target p (stored p d2 evs w)), stored_target, Hrows.
  rewrite filter_snoc_in, <- partitionRows_target by done.
  by rewrite Permutation_app_comm.
Qed.

Lemma X6_submit_then_query_witness :
  exists r rs w2,
    getReports "2024-03" (snd (postInputdata utc8 (Some sampleBody) pgReady))
    = (Ok (mkResponse 200 true (Reports rs)), w2)
    /\ row_id r = 1
    /\ submittime r = 1710500000000
    /\ month_partition r = "2024-03"
    /\ Permutation rs (r :: partitionRows "2024-03" pgReady)
    /\ descending rs.
Proof.
  apply (X6_submit_then_query utc8 (Some sampleBody) pgReady).
  vm_compute. reflexivity.
Defined.

(** X7.  A request changes no partition but the one of the clock:
    however it ends, the reports of every other partition are those
    that were there before. *)
Theorem X7_other_partitions_untouched
    (LocalTZA : Z -> Z) (reqBody : option Body) (w : World) (ym : string) :
  ym <> getMonthPartition LocalTZA (clock w) ->
  partitionRows ym (snd (postInputdata LocalTZA reqBody w)) = partitionRows ym w.
Proof.
  intros Hne.
  assert (Hmode : usesPostgres (snd (postInputdata LocalTZA reqBody w)) = usesPostgres w)
    by apply (usesPostgres_run LocalTZA [Submit reqBody] w).
  destruct reqBody as [body|]; [|by rewrite postInputdata_no_body; destruct w].
  destruct (missingField body) eqn:Hm; [by rewrite postInputdata_missing|].
  destruct (addReport LocalTZA
              (mkData (b_class body) (b_isadd body) (b_changescore body)
                      (b_note body) (b_submitter body)) w)
    as [[res | e | c] w1] eqn:E.
  - rewrite (postInputdata_added _ _ _ _ _ Hm E). cbn [snd].
    apply addReport_Ok in E as (id & c & s & d2 & evs & _ & _ & _ & -> & Hrows & _).
    by eapply stored_elsewhere.
  - pose proof (postInputdata_thrown _ _ _ _ _ Hm E) as Hrun.
    rewrite Hrun in Hmode |- *. cbn [snd] in *.
    apply sameRows_partitionRows; [|done].
    by apply (rows_postInputdata w LocalTZA (Some body) w _ _ Hrun (sameRows_refl w)
                (mkResponse 500 false ServerError)).
  - pose proof (addReport_returns LocalTZA
                  (mkData (b_class body) (b_isadd body) (b_changescore body)
                          (b_note body) (b_submitter body)) w) as Hret.
    by rewrite E in Hret.
Qed.

Lemma X7_other_partitions_untouched_witness :
  partitionRows "2024-03"
    (snd (postInputdata utc8 (Some sampleBody)
            (run utc8 [Submit (Some sampleBody); ClockMoves 1714500000000] sqliteReady)))
  = partitionRows "2024-03"
      (run utc8 [Submit (Some sampleBody); ClockMoves 1714500000000] sqliteReady).
Proof.
  apply (X7_other_partitions_untouched utc8 (Some sampleBody)
           (run utc8 [Submit (Some sampleBody); ClockMoves 1714500000000] sqliteReady) "2024-03").
  vm_compute. discriminate.
Defined.

(** *** GET /reports/:yearMonth *)

(** X8.  The handler always answers, and for a partition name of the
    kind the adapter makes one test decides how: when the active engine
    is ready for the partition, the answer is 200 with the partition's
    reports, each of them once, in descending order of [submittime];
    otherwise it is 500, after an error line has been logged.  The
    handler never throws and never ends the process, whatever the name
    is. *)
Theorem X8_getReports_decides (ym : string) (w : World) :
  exists resp w',
    getReports ym w = (Ok resp, w')
    /\ (partitionName ym = true ->
        if engineReady ym w then
          exists rs,
            resp = mkResponse 200 true (Reports rs)
            /\ descending rs
            /\ Permutation rs (partitionRows ym w)
        else
          resp = mkResponse 500 false ServerError
          /\ exists rest, trace w' = EvConsoleError :: rest).
Proof.
  destruct (engineReady ym w) eqn:Hr.
  - destruct (getReportsByMonth_ready ym w Hr) as (w' & Hrun & _).
    eexists _, w'. split; [by apply getReports_found|]. intros _.
    eexists. split; [done|]. split; [apply orderBy_descending | apply orderBy_perm].
  - destruct (getReportsByMonth_not_ready ym w Hr) as (e & w1 & Hrun).
    eexists _, _. split; [exact (getReports_thrown _ _ _ _ Hrun)|].
    intros _. split; [done|]. by eexists.
Qed.

Lemma X8_getReports_decides_witness :
  exists resp w',
    getReports "2024-03" sameMillisecondTwice = (Ok resp, w')
    /\ exists rs,
         resp = mkResponse 200 true (Reports rs)
         /\ descending rs
         /\ Permutation rs (partitionRows "2024-03" sameMillisecondTwice).
Proof.
  destruct (X8_getReports_decides "2024-03" sameMillisecondTwice)
    as (resp & w' & Hrun & Hcase).
  exists resp, w'. split; [exact Hrun|]. exact (Hcase eq_refl).
Defined.

(** X9.  A query changes no report, however it ends: every database
    holds the same reports afterwards (a query may create the
    directory, a file, a table or an index, but no row), so every
    partition reads as before. *)
Theorem X9_query_changes_no_report (ym : string) (w : World) :
  reportsOf (pgDb (snd (getReports ym w))) = reportsOf (pgDb w)
  /\ (forall f, fileReports f (snd (getReports ym w)) = fileReports f w)
  /\ forall p, partitionRows p (snd (getReports ym w)) = partitionRows p w.
Proof.
  destruct (getReports ym w) as [r w'] eqn:Hrun. cbn [snd].
  pose proof (rows_getReports w ym w r w' Hrun (sameRows_refl w)) as Hsame.
  assert (Hmode : usesPostgres w' = usesPostgres w).
  { pose proof (usesPostgres_run utc [Query ym] w) as H. cbn in H. by rewrite Hrun in H. }
  destruct Hsame as [Hpg Hfiles]. repeat split; [done | done |].
  intros p. by apply sameRows_partitionRows.
Qed.

(** *** Every state a running process reaches *)

(** X10.  Reports stay in their month.  Start from stores in which every
    row lies in the partition of its own submit time (empty stores, for
    one).  Then after any sequence of requests handled one after the
    other, clock changes and server outages, every row a query returns
    for a partition carries that partition's name, and the key of its
    own [submittime] is that name. *)
Theorem X10_reports_stay_in_their_month
    (LocalTZA : Z -> Z) (w0 : World) (steps : list Step)
    (ym : string) (rs : list Row) (w' : World) :
  storeConsistent LocalTZA w0 ->
  getReportsByMonth ym (run LocalTZA steps w0) = (Ok rs, w') ->
  Forall (fun r => month_partition r = ym
                   /\ getMonthPartition LocalTZA (submittime r) = ym) rs.
Proof.
  intros H0 Hrun.
  pose proof (storeConsistent_run LocalTZA steps w0 H0) as [Hpg Hfiles].
  apply getReportsByMonth_result in Hrun. subst rs.
  set (w := run LocalTZA steps w0) in *.
  apply List.Forall_forall. intros r Hin.
  apply (Permutation_in _ (orderBy_perm _)) in Hin.
  unfold partitionRows in Hin.
  assert (Hrow : inPartition ym r = true /\ rowConsistent LocalTZA r).
  { destruct (usesPostgres w); apply filter_In in Hin as [Hin Hym]; (split; [done|]).
    - unfold dbConsistent in Hpg. rewrite List.Forall_forall in Hpg. by apply Hpg.
    - unfold fileReports in Hin.
      destruct (files w !! dbFileName ym) as [d|] eqn:Ef; [|done].
      specialize (Hfiles _ _ Ef). unfold dbConsistent in Hfiles.
      rewrite List.Forall_forall in Hfiles. by apply Hfiles. }
  destruct Hrow as [Hym Hcons]. apply String.eqb_eq in Hym.
  split; [done|]. unfold rowConsistent in Hcons. congruence.
Qed.

Lemma X10_reports_stay_in_their_month_witness :
  Forall (fun r => month_partition r = "2024-03"
                   /\ getMonthPartition utc8 (submittime r) = "2024-03")
    (orderBySubmittimeDesc
       (partitionRows "2024-03"
          (run utc8 [Submit (Some sampleBody); ClockMoves 1711900799999; Submit (Some sampleBody)]
               sqliteReady))).
Proof.
  apply (X10_reports_stay_in_their_month utc8 sqliteReady
           [Submit (Some sampleBody); ClockMoves 1711900799999; Submit (Some sampleBody)]
           "2024-03" _
           (snd (getReportsByMonth "2024-03"
                   (run utc8 [Submit (Some sampleBody); ClockMoves 1711900799999; Submit (Some sampleBody)]
                        sqliteReady)))).
  - split; [constructor|]. intros f d Hf. by vm_compute in Hf.
  - vm_compute. reflexivity.
Defined.

(** X11.  The engine chosen at start-up is never changed: no request,
    and no sequence of requests handled one after the other, writes the
    [dbContext] object or the global that points to it. *)
Theorem X11_engine_choice_is_kept (LocalTZA : Z -> Z) (steps : list Step) (w : World) :
  dbContext (run LocalTZA steps w) = dbContext w
  /\ globalSet (run LocalTZA steps w) = globalSet w
  /\ usesPostgres (run LocalTZA steps w) = usesPostgres w.
Proof.
  assert (Hstart : sameSetting w w) by (by split).
  destruct (setting_run w LocalTZA steps w Hstart) as [Hctx Hglobal].
  unfold usesPostgres. rewrite Hctx. by repeat split.
Qed.

(** X12.  Identifiers are fresh.  Start from stores whose identifiers
    grow with the order of insertion and do not exceed the last one
    handed out (empty stores, for one).  Then in every state the process
    reaches by requests handled one after the other, an accepted request
    gets an [id] larger than the [id] of every report in the store it
    goes to: the shared table on PostgreSQL, the file of its own
    partition on SQLite. *)
Theorem X12_new_id_is_fresh
    (LocalTZA : Z -> Z) (w0 : World) (steps : list Step) (reqBody : option Body)
    (newId : Z) (database : string) (t : Z) (w' : World) :
  idsOrdered w0 ->
  postInputdata LocalTZA reqBody (run LocalTZA steps w0)
  = (Ok (mkResponse 200 true (Submitted newId database t)), w') ->
  Forall (fun r => row_id r < newId) (targetRows database (run LocalTZA steps w0)).
Proof.
  intros H0 Hrun.
  pose proof (idsOrdered_run LocalTZA steps w0 H0) as Hw.
  set (w := run LocalTZA steps w0) in *.
  pose proof (idsOrdered_postInputdata LocalTZA reqBody w _ w' Hrun Hw) as [Hpg Hfiles].
  destruct (postInputdata_200_body _ _ _ _ _ Hrun eq_refl) as [body ->].
  apply postInputdata_200_inv in Hrun as (Hm & res & Hadd & Hresp); [|done].
  apply addReport_Ok in Hadd
    as (id & c & s & d2 & evs & _ & _ & -> & -> & Hrows & Ht & _).
  inversion Hresp; subst newId database t. clear Hresp.
  set (p := getMonthPartition LocalTZA (clock w)) in *.
  assert (Hd2 : idsIncreasing d2).
  { pose proof (stored_database p d2 evs w) as Hd.
    destruct (usesPostgres w); [by rewrite <- Hd | by apply (Hfiles _ _ Hd)]. }
  unfold reportsOf in Hrows at 1. rewrite Ht in Hrows.
  by apply (idsIncreasing_last d2 _ _ Hd2) in Hrows.
Qed.

Lemma X12_new_id_is_fresh_witness :
  Forall (fun r => row_id r < 3)
    (targetRows "2024-03"
       (run utc8 [Submit (Some sampleBody); Query "2024-03"; Submit (Some sampleBody)] sqliteReady)).
Proof.
  apply (X12_new_id_is_fresh utc8 sqliteReady
           [Submit (Some sampleBody); Query "2024-03"; Submit (Some sampleBody)] (Some sampleBody)
           3 "2024-03" 1710500000000
           (snd (postInputdata utc8 (Some sampleBody)
                   (run utc8 [Submit (Some sampleBody); Query "2024-03"; Submit (Some sampleBody)]
                        sqliteReady)))).
  - split; [split; constructor|]. intros f d Hf. by vm_compute in Hf.
  - vm_compute. reflexivity.
Defined.

(** X13.  Each engine is left alone while the other is in use.  A
    process running on SQLite never connects to PostgreSQL, sends it no
    query and leaves its database as it was, whatever requests arrive
    one after the other; a process running on PostgreSQL never looks at
    the [DB] directory and never opens, reads or writes a database
    file. *)
Theorem X13_engines_are_kept_apart (LocalTZA : Z -> Z) (steps : list Step) (w : World) :
  (usesPostgres w = false ->
     pgDb (run LocalTZA steps w) = pgDb w
     /\ exists evs, trace (run LocalTZA steps w) = evs ++ trace w
                    /\ forallb (fun e => negb (pgEvent e)) evs = true)
  /\ (usesPostgres w = true ->
        files (run LocalTZA steps w) = files w
        /\ dirExists (run LocalTZA steps w) = dirExists w
        /\ exists evs, trace (run LocalTZA steps w) = evs ++ trace w
                       /\ forallb (fun e => negb (fileEvent e)) evs = true).
Proof.
  split; intros Hmode.
  - destruct (awayFromPostgres_run w LocalTZA steps w (awayFromPostgres_start w Hmode))
      as (_ & Hdb & Hevs).
    by split.
  - destruct (awayFromFiles_run w LocalTZA steps w (awayFromFiles_start w Hmode))
      as (_ & Hfiles & Hdir & Hevs).
    by repeat split.
Qed.

Lemma X13_engines_are_kept_apart_witness :
  (pgDb (run utc8 [Submit (Some sampleBody); Query "2024-03"] sqliteReady) = pgDb sqliteReady
   /\ exists evs,
        trace (run utc8 [Submit (Some sampleBody); Query "2024-03"] sqliteReady)
        = evs ++ trace sqliteReady
        /\ forallb (fun e => negb (pgEvent e)) evs = true)
  /\ (files (run utc8 [Submit (Some sampleBody); Query "2024-03"] pgReady) = files pgReady
      /\ dirExists (run utc8 [Submit (Some sampleBody); Query "2024-03"] pgReady)
         = dirExists pgReady
      /\ exists evs,
           trace (run utc8 [Submit (Some sampleBody); Query "2024-03"] pgReady)
           = evs ++ trace pgReady
           /\ forallb (fun e => negb (fileEvent e)) evs = true).
Proof.
  split.
  - apply (X13_engines_are_kept_apart utc8 [Submit (Some sampleBody); Query "2024-03"] sqliteReady).
    vm_compute. reflexivity.
  - apply (X13_engines_are_kept_apart utc8 [Submit (Some sampleBody); Query "2024-03"] pgReady).
    vm_compute. reflexivity.
Defined.

(** X14.  On SQLite the engine is always there.  Start a process on
    SQLite with database files whose catalogs the bootstrap goes through
    on (no files at all, for one).  Then in every state it reaches by
    requests handled one after the other,
    every query for a partition name of the kind the adapter makes is
    answered 200, and every request with all fields and values SQLite
    can bind is answered 200: no such request fails for a reason of the
    engine. *)
Theorem X14_sqlite_always_serves
    (LocalTZA : Z -> Z) (w0 : World) (steps : list Step) :
  schemasReady w0 -> globalSet w0 = true -> usesPostgres w0 = false ->
  (forall ym, partitionName ym = true ->
     exists rs w',
       getReports ym (run LocalTZA steps w0) = (Ok (mkResponse 200 true (Reports rs)), w'))
  /\ (forall body,
        missingField body = false ->
        valuesAccepted body (run LocalTZA steps w0) = true ->
        exists newId database t w',
          postInputdata LocalTZA (Some body) (run LocalTZA steps w0)
          = (Ok (mkResponse 200 true (Submitted newId database t)), w')).
Proof.
  intros Hready Hglobal Hmode.
  pose proof (schemasReady_run LocalTZA steps w0 Hready) as Hw.
  pose proof (globalSet_run LocalTZA steps w0) as Hg.
  pose proof (usesPostgres_run LocalTZA steps w0) as Hp.
  set (w := run LocalTZA steps w0) in *.
  assert (Hengine : forall ym, pathSafe ym = true -> engineReady ym w = true).
  { intros ym Hs. rewrite engineReady_when_schemas_ready by done.
    by rewrite Hg, Hglobal, Hp, Hmode. }
  split.
  - intros ym Hs. apply partitionName_pathSafe in Hs.
    destruct (getReportsByMonth_ready ym w (Hengine ym Hs)) as (w' & Hrun & _).
    eexists _, w'. by apply getReports_found.
  - intros body Hm Hv.
    destruct (submit_succeeds LocalTZA body w Hm Hv
                (Hengine _ (getMonthPartition_pathSafe LocalTZA (clock w))))
      as (newId & w' & c & s & _ & _ & Hrun & _).
    eexists newId, _, _, w'. by rewrite (postInputdata_added _ _ _ _ _ Hm Hrun).
Qed.

Lemma X14_sqlite_always_serves_witness :
  (forall ym, partitionName ym = true ->
     exists rs w',
       getReports ym (run utc8 [Submit (Some sampleBody); ServerAvailability true] sqliteReady)
       = (Ok (mkResponse 200 true (Reports rs)), w'))
  /\ (forall body,
        missingField body = false ->
        valuesAccepted body (run utc8 [Submit (Some sampleBody); ServerAvailability true] sqliteReady)
        = true ->
        exists newId database t w',
          postInputdata utc8 (Some body)
            (run utc8 [Submit (Some sampleBody); ServerAvailability true] sqliteReady)
          = (Ok (mkResponse 200 true (Submitted newId database t)), w')).
Proof.
  apply (X14_sqlite_always_serves utc8 sqliteReady
           [Submit (Some sampleBody); ServerAvailability true]).
  - split; [vm_compute; reflexivity|]. intros f d Hf. by vm_compute in Hf.
  - vm_compute. reflexivity.
  - vm_compute. reflexivity.
Defined.

(** X15.  The index of the PostgreSQL table is created together with the
    table or never.  [ensurePostgresTable] looks for the table only: when
    the table exists and its index does not, no request and no sequence
    of requests handled one after the other creates the index.  The
    SQLite bootstrap looks for the
    index on its own, so every database [getSqliteDatabase] hands out
    has it. *)
Theorem X15_postgres_index_is_not_repaired
    (LocalTZA : Z -> Z) (steps : list Step) (w : World) :
  hasObj KTable "reports" (pgDb w) = true ->
  hasObj KIndex "reports_month_partition_idx" (pgDb w) = false ->
  (hasObj KTable "reports" (pgDb (run LocalTZA steps w)) = true
   /\ hasObj KIndex "reports_month_partition_idx" (pgDb (run LocalTZA steps w)) = false)
  /\ forall p v h v1,
       getSqliteDatabase p v = (Ok h, v1) ->
       exists d, files v1 !! h = Some d
                 /\ hasObj KIndex "idx_month_partition" d = true.
Proof.
  intros Ht Hi. split.
  - by apply (tableWithoutIndex_run LocalTZA steps w).
  - intros p v h v1 Hrun.
    destruct (getSqliteDatabase_has_table p v h v1 Hrun) as (d & Hd & _ & Hidx).
    by exists d.
Qed.

Lemma X15_postgres_index_is_not_repaired_witness :
  (hasObj KTable "reports"
     (pgDb (run utc8 [Submit (Some sampleBody); Query "2024-03"] tableOnly)) = true
   /\ hasObj KIndex "reports_month_partition_idx"
        (pgDb (run utc8 [Submit (Some sampleBody); Query "2024-03"] tableOnly)) = false)
  /\ forall p v h v1,
       getSqliteDatabase p v = (Ok h, v1) ->
       exists d, files v1 !! h = Some d
                 /\ hasObj KIndex "idx_month_partition" d = true.
Proof.
  apply (X15_postgres_index_is_not_repaired utc8 [Submit (Some sampleBody); Query "2024-03"]
           tableOnly);
    vm_compute; reflexivity.
Defined.

(** *** Connections and file handles *)

(** X16.  A pooled connection is given back on every path.  A request
    takes a connection exactly when it reaches the PostgreSQL branch
    (all fields present, [global.dbContext] set, PostgreSQL active), it
    takes one only, and when the server accepted the connection the
    request releases it once, whether the bootstrap, the statement or
    nothing failed.  When the server refused, there is nothing to
    release and nothing is released.  A request without a parsed body
    takes no connection. *)
Theorem X16_connection_is_given_back (LocalTZA : Z -> Z) (w : World) :
  (forall body,
     List.filter pgHandle (trace (snd (postInputdata LocalTZA (Some body) w)))
     = (if negb (missingField body) && globalSet w && usesPostgres w
        then if pgOnline w then [EvPgRelease; EvPgConnect] else [EvPgConnect]
        else [])
       ++ List.filter pgHandle (trace w))
  /\ (forall ym,
        List.filter pgHandle (trace (snd (getReports ym w)))
        = (if globalSet w && usesPostgres w
           then if pgOnline w then [EvPgRelease; EvPgConnect] else [EvPgConnect]
           else [])
          ++ List.filter pgHandle (trace w))
  /\ List.filter pgHandle (trace (snd (postInputdata LocalTZA None w)))
     = List.filter pgHandle (trace w).
Proof.
  split; [|split; [|by apply postInputdata_log_no_body]].
  - intros body.
    destruct (usesPostgres w) eqn:Hp.
    2: { rewrite andb_false_r.
         exact (sqlite_mode_no_pgHandle LocalTZA (Submit (Some body)) w Hp). }
    destruct (missingField body) eqn:Hm; [by rewrite postInputdata_missing|].
    rewrite postInputdata_log by done.
    destruct (globalSet w) eqn:Hg; [|by rewrite addReport_noGlobal].
    rewrite addReport_branch, Hp by done. cbn [negb andb].
    apply pgSession_handles.
    + apply silent_bind; [by apply silent_clientQueryWrite | intros newId; apply silent_ret].
    + apply answers_bind; [apply answers_clientQueryWrite | intros newId; apply answers_ret].
  - intros ym.
    destruct (usesPostgres w) eqn:Hp.
    2: { rewrite andb_false_r. exact (sqlite_mode_no_pgHandle LocalTZA (Query ym) w Hp). }
    rewrite getReports_log by done.
    destruct (globalSet w) eqn:Hg; [|by rewrite getReportsByMonth_noGlobal].
    rewrite getReportsByMonth_branch, Hp by done. cbn [andb].
    apply pgSession_handles.
    + by apply silent_clientQueryRead.
    + apply answers_clientQueryRead.
Qed.

(** X17.  A database file is closed when [getSqliteDatabase] returned
    it, and only then.  A request that reaches the SQLite branch opens
    the file of its partition once.  When the bootstrap statements go
    through on the file's catalog, the request closes the file once,
    whether its statement failed or not.  When they do not go through,
    [ensureSqliteTable] throws inside [getSqliteDatabase], after the
    file was opened and before the caller's [try], and the file is not
    closed.  A request without a parsed body opens no file. *)
Theorem X17_file_is_closed_when_returned (LocalTZA : Z -> Z) (w : World) :
  (forall body,
     List.filter fileHandle (trace (snd (postInputdata LocalTZA (Some body) w)))
     = (if negb (missingField body) && globalSet w && negb (usesPostgres w)
        then
          if sqliteSchemaReady
               (default emptyDb
                  (files w !! dbFileName (getMonthPartition LocalTZA (clock w))))
          then [EvSqliteClose (dbFileName (getMonthPartition LocalTZA (clock w)));
                EvSqliteOpen (dbFileName (getMonthPartition LocalTZA (clock w)))]
          else [EvSqliteOpen (dbFileName (getMonthPartition LocalTZA (clock w)))]
        else [])
       ++ List.filter fileHandle (trace w))
  /\ (forall ym,
        pathSafe ym = true ->
        List.filter fileHandle (trace (snd (getReports ym w)))
        = (if globalSet w && negb (usesPostgres w)
           then
             if sqliteSchemaReady (default emptyDb (files w !! dbFileName ym))
             then [EvSqliteClose (dbFileName ym); EvSqliteOpen (dbFileName ym)]
             else [EvSqliteOpen (dbFileName ym)]
           else [])
          ++ List.filter fileHandle (trace w))
  /\ List.filter fileHandle (trace (snd (postInputdata LocalTZA None w)))
     = List.filter fileHandle (trace w).
Proof.
  split; [|split; [|by apply postInputdata_log_no_body]].
  - intros body.
    destruct (usesPostgres w) eqn:Hp.
    { rewrite andb_false_r.
      exact (pg_mode_no_fileHandle LocalTZA (Submit (Some body)) w Hp). }
    destruct (missingField body) eqn:Hm; [by rewrite postInputdata_missing|].
    rewrite postInputdata_log by done.
    destruct (globalSet w) eqn:Hg; [|by rewrite addReport_noGlobal].
    rewrite addReport_branch, Hp by done. cbn [negb andb].
    apply sqliteSession_handles; [apply getMonthPartition_pathSafe | |]; intros db.
    + apply silent_bind; [by apply silent_sqliteWrite | intros newId; apply silent_ret].
    + apply answers_bind; [apply answers_sqliteWrite | intros newId; apply answers_ret].
  - intros ym Hsafe.
    destruct (usesPostgres w) eqn:Hp.
    { rewrite andb_false_r. exact (pg_mode_no_fileHandle LocalTZA (Query ym) w Hp). }
    rewrite getReports_log by done.
    destruct (globalSet w) eqn:Hg; [|by rewrite getReportsByMonth_noGlobal].
    rewrite getReportsByMonth_branch, Hp by done. cbn [negb andb].
    apply sqliteSession_handles; [done | |]; intros db.
    + apply silent_bind; [by apply silent_sqliteRead | intros tableExists].
      apply silent_if; [apply silent_ret | by apply silent_sqliteRead].
    + apply answers_bind; [apply answers_sqliteRead | intros tableExists].
      apply answers_if; [apply answers_ret | apply answers_sqliteRead].
Qed.

Lemma X17_file_is_closed_when_returned_witness :
  List.filter fileHandle (trace (snd (getReports "2024-03" nameTakenFile)))
  = [EvSqliteOpen "reports_2024-03.db"] ++ List.filter fileHandle (trace nameTakenFile)
  /\ List.filter fileHandle (trace (snd (getReports "2024-04" nameTakenFile)))
     = [EvSqliteClose "reports_2024-04.db"; EvSqliteOpen "reports_2024-04.db"]
       ++ List.filter fileHandle (trace nameTakenFile).
Proof.
  split.
  - exact (proj1 (proj2 (X17_file_is_closed_when_returned utc8 nameTakenFile))
             "2024-03" eq_refl).
  - exact (proj1 (proj2 (X17_file_is_closed_when_returned utc8 nameTakenFile))
             "2024-04" eq_refl).
Defined.

(** *** Start-up *)

(** X18.  [initDatabase] in full.  It never throws and never touches a
    database, the set of database files, the clock or the server.  It
    ends the process, with code 1, only when [DB_TYPE] is ['postgres']
    and the server refuses the probe; then the context and the global
    are as before.  Otherwise it returns with the context ready and the
    global set: on PostgreSQL with the pool, the probe connection
    released and the [DB] directory not looked at, when [DB_TYPE] is
    not ['sqlite'] and the server accepts the probe; on SQLite with its
    marker and the directory in place, in every other case. *)
Theorem X18_initDatabase_outcomes (env : option string) (w : World) :
  files (snd (initDatabase env w)) = files w
  /\ pgDb (snd (initDatabase env w)) = pgDb w
  /\ pgOnline (snd (initDatabase env w)) = pgOnline w
  /\ clock (snd (initDatabase env w)) = clock w
  /\ match fst (initDatabase env w) with
     | Ok _ =>
         globalSet (snd (initDatabase env w)) = true
         /\ if negb (String.eqb (DB_TYPE env) "sqlite") && pgOnline w then
              dbContext (snd (initDatabase env w))
              = mkCtx (Some Postgres) (Some PgPool) true
              /\ dirExists (snd (initDatabase env w)) = dirExists w
              /\ trace (snd (initDatabase env w)) = EvPgRelease :: EvPgConnect :: trace w
            else
              dbContext (snd (initDatabase env w))
              = mkCtx (Some Sqlite) (Some SqliteMarker) true
              /\ dirExists (snd (initDatabase env w)) = true
     | Exit code =>
         code = 1
         /\ DB_TYPE env = "postgres"
         /\ pgOnline w = false
         /\ dbContext (snd (initDatabase env w)) = dbContext w
         /\ globalSet (snd (initDatabase env w)) = globalSet w
     | Throw _ => False
     end.
Proof.
  destruct w as [ctx g dir fs on pg clk tr].
  unfold initDatabase, initPostgres, initSqlite, setReady, poolConnect, clientRelease,
    consoleError, fsExistsSync, fsMkdirSync, tryCatch, bind, emit, ret, throw, processExit.
  cbn [pgOnline dirExists].
  destruct (String.eqb_spec (DB_TYPE env) "postgres") as [Epg | Epg].
  - rewrite Epg. cbn. destruct on; cbn; by repeat split.
  - destruct (String.eqb (DB_TYPE env) "sqlite") eqn:Esq; cbn.
    + destruct dir; cbn; by repeat split.
    + destruct on; cbn; [by repeat split|].
      destruct dir; cbn; by repeat split.
Qed.

(** X19.  [startApp] listens only after the database context is ready.
    When [initDatabase] ends the process, [app.listen] is not reached
    and the process ends with code 1 as [initDatabase] left it.
    Otherwise [app.listen] starts in the world [initDatabase] returned,
    with the context ready and the global set, and an exception it
    throws is logged and turned into exit code 1: [startApp] never
    throws. *)
Theorem X19_startApp_listens_when_ready
    (appListen : M unit) (env : option string) (w : World) :
  match initDatabase env w with
  | (Ok _, w1) =>
      isReady (dbContext w1) = true
      /\ globalSet w1 = true
      /\ startApp appListen env w
         = match appListen w1 with
           | (Throw _, w2) => (Exit 1, setTrace (EvConsoleError :: trace w2) w2)
           | other => other
           end
  | (other, w1) => other = Exit 1 /\ startApp appListen env w = (Exit 1, w1)
  end
  /\ forall e, fst (startApp appListen env w) <> Throw e.
Proof.
  pose proof (initDatabase_ends env w) as Hinit.
  unfold startApp, tryCatch, bind.
  destruct (initDatabase env w) as [[[] | e | c] w1]; [|done|].
  - destruct Hinit as [Hready Hglobal].
    destruct (appListen w1) as [[[] | e | c] w2]; by repeat split.
  - subst c. by repeat split.
Qed.

(** *** POST /login *)



(** X21.  A malformed request is turned away before anything is looked
    up.  The route answers 401 exactly when the request has a parsed
    body and in it the user name is missing or empty, the code is
    missing, or the code is not six digits; then the credential file is
    not read and the authenticator is not called, whatever state the
    file is in.  A request without a parsed body names no user either,
    and is answered 500, not 401. *)
Theorem X21_malformed_login_is_turned_away
    (authenticatorCheck : JsVal -> JsVal -> option bool)
    (file : CredentialFile) (reqBody : option LoginBody) :
  (a_status (fst (login authenticatorCheck file reqBody)) = 401
   <-> exists body, reqBody = Some body /\ wellFormed body = false)
  /\ (a_status (fst (login authenticatorCheck file reqBody)) = 401 ->
      a_success (fst (login authenticatorCheck file reqBody)) = false
      /\ snd (login authenticatorCheck file reqBody) = [])
  /\ login authenticatorCheck file None
     = (mkAuth 500 false AuthServerError, [AuthConsoleError]).
Proof.
  apply and_assoc. split; [|done].
  destruct reqBody as [body|].
  2: { cbn. split; [split; [done | by intros (body & ? & _)] | done]. }
  destruct (wellFormed body) eqn:Hwf.
  - assert (Hst : a_status (fst (login authenticatorCheck file (Some body))) <> 401).
    { rewrite (login_wellFormed authenticatorCheck file body Hwf).
      destruct file as [| |l]; [by cbn | by cbn |].
      destruct (userRecordOf (UserArray l) body) as [userRecord|]; [|by cbn].
      by destruct (authenticatorCheck _ _) as [[|]|]. }
    split; [split; [done|] | done].
    intros (body' & Hb & Hwf'). inversion Hb; subst body'. congruence.
  - destruct (login_malformed authenticatorCheck file body Hwf) as (reason & -> & _).
    cbn. split; [split; [by exists body | done] | done].
Qed.

Lemma X21_malformed_login_is_turned_away_witness :
  a_status (fst (login sampleAuthenticator NotAnArray
                   (Some (mkLogin (JStr "alice") JUndefined (JStr "12345"))))) = 401
  /\ a_success (fst (login sampleAuthenticator NotAnArray
                       (Some (mkLogin (JStr "alice") JUndefined (JStr "12345")))))
     = false
  /\ snd (login sampleAuthenticator NotAnArray
            (Some (mkLogin (JStr "alice") JUndefined (JStr "12345")))) = [].
Proof.
  destruct (X21_malformed_login_is_turned_away sampleAuthenticator NotAnArray
              (Some (mkLogin (JStr "alice") JUndefined (JStr "12345"))))
    as (Hiff & Hquiet & _).
  assert (Hst : a_status (fst (login sampleAuthenticator NotAnArray
                                 (Some (mkLogin (JStr "alice") JUndefined
                                                (JStr "12345"))))) = 401).
  { apply Hiff. eexists. split; reflexivity. }
  split; [exact Hst | exact (Hquiet Hst)].
Defined.

(** X22.  A credential file that cannot be read or parsed looks like a
    file without users.  [load2FADatabase] logs the error and returns
    the empty array, so every well-formed request is answered 403 with
    [UserNotFound], not 500; no request is answered 200 and the
    authenticator is never called. *)
Theorem X22_unreadable_file_reads_as_no_users
    (authenticatorCheck : JsVal -> JsVal -> option bool) (body : LoginBody) :
  (wellFormed body = true ->
   login authenticatorCheck Unreadable (Some body)
   = (mkAuth 403 false UserNotFound, [AuthConsoleError; AuthReadFile]))
  /\ a_status (fst (login authenticatorCheck Unreadable (Some body))) <> 200
  /\ a_status (fst (login authenticatorCheck Unreadable (Some body))) <> 500
  /\ forall token secret reqBody,
       ~ In (AuthCheck token secret)
            (snd (login authenticatorCheck Unreadable reqBody)).
Proof.
  destruct (wellFormed body) eqn:Hwf.
  - rewrite (login_wellFormed authenticatorCheck Unreadable body Hwf). cbn.
    split; [done|]. split; [done|]. split; [done|]. intros token secret reqBody. apply login_unreadable_no_check.
  - destruct (login_malformed authenticatorCheck Unreadable body Hwf) as (reason & -> & _).
    cbn. split; [done|]. split; [done|]. split; [done|]. intros token secret reqBody. apply login_unreadable_no_check.
Qed.

Lemma X22_unreadable_file_reads_as_no_users_witness :
  login sampleAuthenticator Unreadable
    (Some (mkLogin (JStr "alice") JUndefined (JStr "123456")))
  = (mkAuth 403 false UserNotFound, [AuthConsoleError; AuthReadFile]).
Proof.
  apply (proj1 (X22_unreadable_file_reads_as_no_users sampleAuthenticator
                  (mkLogin (JStr "alice") JUndefined (JStr "123456")))).
  reflexivity.
Defined.



(** *** The layout of the stores *)

(** X24.  One file per partition.  Start from database files that each
    hold reports of the partition they are named after only (no files,
    for one).  Then in every state the process reaches by requests
    handled one after the other, a report found in a file lies in the
    partition the file is named after,
    [reports_<month_partition>.db]; and on SQLite a query returns the
    reports of one file, all of them. *)
Theorem X24_one_file_per_partition
    (LocalTZA : Z -> Z) (w0 : World) (steps : list Step) :
  filesByPartition w0 ->
  (forall f r, In r (fileReports f (run LocalTZA steps w0)) ->
     f = dbFileName (month_partition r))
  /\ (usesPostgres w0 = false ->
      forall ym rs w',
        getReportsByMonth ym (run LocalTZA steps w0) = (Ok rs, w') ->
        Permutation rs (fileReports (dbFileName ym) (run LocalTZA steps w0))).
Proof.
  intros H0.
  pose proof (filesByPartition_run LocalTZA steps w0 H0) as Hw.
  pose proof (usesPostgres_run LocalTZA steps w0) as Hmode.
  set (w := run LocalTZA steps w0) in *.
  split.
  - intros f r Hin. specialize (Hw f). rewrite List.Forall_forall in Hw.
    symmetry. by apply Hw.
  - intros Hsqlite ym rs w' Hrun.
    apply getReportsByMonth_result in Hrun. subst rs.
    rewrite orderBy_perm. unfold partitionRows. rewrite Hmode, Hsqlite.
    rewrite filter_all; [done|].
    eapply Forall_impl; [apply (Hw (dbFileName ym))|].
    intros r Hr. by apply dbFileName_inj.
Qed.

Lemma X24_one_file_per_partition_witness :
  (forall f r,
     In r (fileReports f
             (run utc8 [Submit (Some sampleBody); ClockMoves 1714500000000; Submit (Some sampleBody)]
                  sqliteReady)) ->
     f = dbFileName (month_partition r))
  /\ forall ym rs w',
       getReportsByMonth ym
         (run utc8 [Submit (Some sampleBody); ClockMoves 1714500000000; Submit (Some sampleBody)]
              sqliteReady) = (Ok rs, w') ->
       Permutation rs
         (fileReports (dbFileName ym)
            (run utc8 [Submit (Some sampleBody); ClockMoves 1714500000000; Submit (Some sampleBody)]
                 sqliteReady)).
Proof.
  destruct (X24_one_file_per_partition utc8 sqliteReady
              [Submit (Some sampleBody); ClockMoves 1714500000000; Submit (Some sampleBody)])
    as [Hfile Hquery].
  - intros f. unfold fileReports. replace (files sqliteReady !! f) with (@None Db).
    + constructor.
    + symmetry. apply lookup_empty.
  - split; [exact Hfile | apply Hquery; reflexivity].
Defined.

(** X25.  The PostgreSQL bootstrap is two statements and no
    transaction.  When the table is missing and the name of its index
    is taken, [CREATE TABLE] goes through and [CREATE INDEX] fails: the
    request is answered 500, and the table stays.  The next request
    finds the table, skips the bootstrap and is answered 200: the same
    query, asked twice, fails and then succeeds. *)
Theorem X25_postgres_bootstrap_stops_halfway (ym : string) (w : World) :
  globalSet w = true -> usesPostgres w = true -> pgOnline w = true ->
  nameTaken "reports" (pgDb w) = false ->
  nameTaken "reports_month_partition_idx" (pgDb w) = true ->
  exists w1 w2,
    getReports ym w = (Ok (mkResponse 500 false ServerError), w1)
    /\ pgDb w1 = mkDb (catalog (pgDb w) ++ [(KTable, "reports")]) [] 0
    /\ getReports ym w1 = (Ok (mkResponse 200 true (Reports [])), w2).
Proof.
  intros Hg Hp Hon Hfree Htaken.
  set (wc := setTrace (EvPgConnect :: trace w) w).
  assert (Hconnect : poolConnect w = (Ok tt, wc)).
  { rewrite poolConnect_run. by rewrite Hon. }
  pose proof (ensurePostgresTable_index_refused wc Hfree Htaken) as Hensure.
  assert (Hquery : exists w1,
            getReportsByMonth ym w = (Throw ErrPgQuery, w1)
            /\ pgDb w1 = mkDb (catalog (pgDb w) ++ [(KTable, "reports")]) [] 0
            /\ globalSet w1 = true /\ usesPostgres w1 = true /\ pgOnline w1 = true).
  { rewrite getReportsByMonth_branch, Hp by done.
    rewrite (bind_Ok _ _ _ _ _ Hconnect). unfold tryFinally, clientRelease.
    rewrite (bind_Throw _ _ _ _ _ Hensure). cbn.
    eexists. split; [reflexivity|]. by repeat split. }
  destruct Hquery as (w1 & Hrun & Hdb & Hg1 & Hp1 & Hon1).
  assert (Htable : hasObj KTable "reports" (pgDb w1) = true).
  { rewrite Hdb, hasObj_snoc. cbn. apply orb_true_r. }
  assert (Hready : engineReady ym (setTrace (EvConsoleError :: trace w1) w1) = true).
  { unfold engineReady, pgSchemaReady, usesPostgres in *. cbn. by rewrite Hg1, Hp1, Hon1, Htable. }
  destruct (getReportsByMonth_ready ym _ Hready) as (w2 & Hrun2 & _).
  exists (setTrace (EvConsoleError :: trace w1) w1), w2.
  split; [exact (getReports_thrown _ _ _ _ Hrun)|]. split; [exact Hdb|].
  rewrite (getReports_found _ _ _ _ Hrun2). repeat f_equal.
  unfold partitionRows, usesPostgres in *. cbn. rewrite Hp1.
  unfold reportsOf. by rewrite Htable, Hdb.
Qed.

Lemma X25_postgres_bootstrap_stops_halfway_witness :
  exists w1 w2,
    getReports "2024-03" indexNameTaken = (Ok (mkResponse 500 false ServerError), w1)
    /\ pgDb w1
       = mkDb (catalog (pgDb indexNameTaken) ++ [(KTable, "reports")]) [] 0
    /\ getReports "2024-03" w1 = (Ok (mkResponse 200 true (Reports [])), w2).
Proof.
  apply (X25_postgres_bootstrap_stops_halfway "2024-03" indexNameTaken);
    vm_compute; reflexivity.
Defined.
